(** * Verification of the toolchain-resolution and dependency-cache core of
    maven-actions (managers/cache-manager.js, managers/environment-manager.js).

    The model is a shallow embedding:
    - JavaScript strings are Rocq [string]s (byte strings);
    - asynchronous code with [try]/[catch] is a state-and-error monad whose
      state records every I/O call as an event;
    - the file system, the process runner, the tool cache and the cache
      backend are explicit inputs ("worlds"). *)

From Stdlib Require Import String Ascii List ZArith Bool Lia.
Import ListNotations.
Open Scope Z_scope.
Open Scope string_scope.
Set Warnings "-register-all".

(* ================================================================= *)
(** ** A state and error monad: [async] functions that may throw *)

Module JsMonad.

  (** A thrown JavaScript [Error], carried by its message. *)
Inductive exn := Error (msg : string).

Definition M (S A : Type) : Type := S -> (exn + A) * S.

Definition ret {S A} (a : A) : M S A := fun s => (inr a, s).
Definition throw {S A} (e : exn) : M S A := fun s => (inl e, s).
Definition bind {S A B} (m : M S A) (k : A -> M S B) : M S B :=
    fun s => match m s with
             | (inl e, s') => (inl e, s')
             | (inr a, s') => k a s'
             end.
  (** [try { m } catch (e) { h(e) }]: effects done before the throw stay. *)
Definition catch {S A} (m : M S A) (h : exn -> M S A) : M S A :=
    fun s => match m s with
             | (inl e, s') => h e s'
             | (inr a, s') => (inr a, s')
             end.

End JsMonad.

Import JsMonad.

Notation "x <- m ;; k" := (bind m (fun x => k))
  (at level 61, m at next level, right associativity).
Notation "m ;;; k" := (bind m (fun _ => k))
  (at level 61, right associativity).

(* ================================================================= *)
(** ** String helpers (String.prototype methods used by the code) *)

(** [s.startsWith(p)] *)
Definition startsWith (s p : string) : bool := String.prefix p s.

Definition is_digit (c : ascii) : bool :=
  let n := nat_of_ascii c in (Nat.leb 48 n && Nat.leb n 57)%bool.

(** Digit value of a decimal digit. *)
Definition digit_val (c : ascii) : Z := Z.of_nat (nat_of_ascii c) - 48.

(** Leading run of decimal digits: the match of [/^(\d+)/]. *)
Fixpoint leading_digits (s : string) : string :=
  match s with
  | String c r => if is_digit c then String c (leading_digits r) else EmptyString
  | EmptyString => EmptyString
  end.

(** [s.split(sep)] for a one-character separator. *)
Fixpoint split_char (sep : ascii) (s : string) : list string :=
  match s with
  | EmptyString => [EmptyString]
  | String c r =>
      if Ascii.eqb c sep then EmptyString :: split_char sep r
      else match split_char sep r with
           | w :: ws => String c w :: ws
           | [] => [String c EmptyString]
           end
  end.

(** [arr.join('')] *)
Fixpoint concat_all (xs : list string) : string :=
  match xs with
  | [] => EmptyString
  | x :: xs => x ++ concat_all xs
  end.

(** [arr.includes(x)] on an array of strings. *)
Definition includes (xs : list string) (x : string) : bool :=
  existsb (String.eqb x) xs.

(* ================================================================= *)
(** ** SHA-256, as computed by [crypto.createHash('sha256')...digest('hex')]
    (FIPS 180-4).  The input string is hashed as its bytes. *)

Module Sha256.

Definition mask32 : Z := Z.ones 32.
Definition add32 (a b : Z) : Z := (a + b) mod 2 ^ 32.
Definition rotr (x : Z) (n : Z) : Z :=
    Z.lor (Z.shiftr x n) (Z.land (Z.shiftl x (32 - n)) mask32).

Definition ch (x y z : Z) : Z :=
    Z.lxor (Z.land x y) (Z.land (Z.lxor x mask32) z).
Definition maj (x y z : Z) : Z :=
    Z.lxor (Z.lxor (Z.land x y) (Z.land x z)) (Z.land y z).
Definition bsig0 (x : Z) : Z := Z.lxor (Z.lxor (rotr x 2) (rotr x 13)) (rotr x 22).
Definition bsig1 (x : Z) : Z := Z.lxor (Z.lxor (rotr x 6) (rotr x 11)) (rotr x 25).
Definition ssig0 (x : Z) : Z := Z.lxor (Z.lxor (rotr x 7) (rotr x 18)) (Z.shiftr x 3).
Definition ssig1 (x : Z) : Z := Z.lxor (Z.lxor (rotr x 17) (rotr x 19)) (Z.shiftr x 10).

(** Value of a string of lower-case hex digits. *)
Fixpoint hex_value (s : string) (acc : Z) : Z :=
  match s with
  | String c r =>
      let n := Z.of_nat (nat_of_ascii c) in
      hex_value r (acc * 16 + (if (n <=? 57)%Z then n - 48 else n - 87))
  | EmptyString => acc
  end.

(** The round constants (FIPS 180-4, 4.2.2), eight hex digits each. *)
Definition K_hex : string :=
    "428a2f9871374491b5c0fbcfe9b5dba53956c25b59f111f1923f82a4ab1c5ed5" ++
    "d807aa9812835b01243185be550c7dc372be5d7480deb1fe9bdc06a7c19bf174" ++
    "e49b69c1efbe47860fc19dc6240ca1cc2de92c6f4a7484aa5cb0a9dc76f988da" ++
    "983e5152a831c66db00327c8bf597fc7c6e00bf3d5a7914706ca635114292967" ++
    "27b70a852e1b21384d2c6dfc53380d13650a7354766a0abb81c2c92e92722c85" ++
    "a2bfe8a1a81a664bc24b8b70c76c51a3d192e819d6990624f40e3585106aa070" ++
    "19a4c1161e376c082748774c34b0bcb5391c0cb34ed8aa4a5b9cca4f682e6ff3" ++
    "748f82ee78a5636f84c878148cc7020890befffaa4506cebbef9a3f7c67178f2".

Definition K : list Z :=
  map (fun i => hex_value (substring (8 * i)%nat 8 K_hex) 0) (seq 0 64).

Definition H0 : list Z :=
    [ 0x6a09e667; 0xbb67ae85; 0x3c6ef372; 0xa54ff53a;
      0x510e527f; 0x9b05688c; 0x1f83d9ab; 0x5be0cd19 ].

Definition bytes_of_string (s : string) : list Z :=
    map (fun c => Z.of_nat (nat_of_ascii c)) (list_ascii_of_string s).

  (** Big-endian encoding of [x] on [n] bytes. *)
Fixpoint be_bytes (n : nat) (x : Z) : list Z :=
    match n with
    | O => []
    | S n' => be_bytes n' (Z.shiftr x 8) ++ [Z.land x 255]
    end.

  (** Message padding: 0x80, zeros, then the bit length on 8 bytes. *)
Definition pad (msg : list Z) : list Z :=
    let len := Z.of_nat (length msg) in
    let k := Z.to_nat ((55 - len) mod 64) in
    msg ++ [128] ++ repeat 0 k ++ be_bytes 8 (len * 8).

Fixpoint words_of_bytes (bs : list Z) : list Z :=
    match bs with
    | b0 :: b1 :: b2 :: b3 :: rest =>
        (b0 * 2 ^ 24 + b1 * 2 ^ 16 + b2 * 2 ^ 8 + b3) :: words_of_bytes rest
    | _ => []
    end.

  (** Message schedule, most recent word first: each step adds
      W_t = ssig1(W_{t-2}) + W_{t-7} + ssig0(W_{t-15}) + W_{t-16}. *)
Fixpoint extend (n : nat) (rw : list Z) : list Z :=
    match n with
    | O => rw
    | S n' =>
        let w := add32 (add32 (ssig1 (nth 1 rw 0)) (nth 6 rw 0))
                       (add32 (ssig0 (nth 14 rw 0)) (nth 15 rw 0)) in
        extend n' (w :: rw)
    end.

Definition schedule (block : list Z) : list Z :=
    rev (extend 48 (rev (words_of_bytes block))).

Record regs := Regs { ra : Z; rb : Z; rc : Z; rd : Z; re : Z; rf : Z; rg : Z; rh : Z }.

Definition round (r : regs) (kw : Z * Z) : regs :=
    let '(k, w) := kw in
    let t1 := add32 (add32 (add32 (rh r) (bsig1 (re r))) (add32 (ch (re r) (rf r) (rg r)) k)) w in
    let t2 := add32 (bsig0 (ra r)) (maj (ra r) (rb r) (rc r)) in
    Regs (add32 t1 t2) (ra r) (rb r) (rc r) (add32 (rd r) t1) (re r) (rf r) (rg r).

Definition regs_of (h : list Z) : regs :=
    Regs (nth 0 h 0) (nth 1 h 0) (nth 2 h 0) (nth 3 h 0)
         (nth 4 h 0) (nth 5 h 0) (nth 6 h 0) (nth 7 h 0).

Definition compress (h : list Z) (block : list Z) : list Z :=
    let r := fold_left round (combine K (schedule block)) (regs_of h) in
    map (fun '(x, y) => add32 x y)
        (combine h [ra r; rb r; rc r; rd r; re r; rf r; rg r; rh r]).

Fixpoint blocks (fuel : nat) (bs : list Z) : list (list Z) :=
    match fuel with
    | O => []
    | S f => match bs with
             | [] => []
             | _ => firstn 64 bs :: blocks f (skipn 64 bs)
             end
    end.

Definition digest (msg : list Z) : list Z :=
    let p := pad msg in
    fold_left compress (blocks (length p) p) H0.

Definition hex_digit (n : Z) : ascii :=
    if (n <? 10)%Z then ascii_of_nat (Z.to_nat (48 + n))
    else ascii_of_nat (Z.to_nat (87 + n)).

Fixpoint hex_word (n : nat) (x : Z) : string :=
    match n with
    | O => EmptyString
    | S n' => hex_word n' (Z.shiftr x 4) ++ String (hex_digit (Z.land x 15)) EmptyString
    end.

  (** [crypto.createHash('sha256').update(s).digest('hex')] *)
Definition sha256_hex (s : string) : string :=
    concat_all (map (hex_word 8) (digest (bytes_of_string s))).

End Sha256.

(* ================================================================= *)
(** ** File system, as seen through [fs.promises]

    A path is the list of its components from "/", so that
    [path.join(dir, name)] is [dir ++ [name]] (names contain no '/'). *)

Module Fs.

Definition path := list string.

  (** A directory carries whether it may be listed ([readdir]). *)
Inductive node :=
  | FileN (content : string)
  | DirN (readable : bool) (children : list (string * node)).

Definition is_dir (n : node) : bool :=
    match n with DirN _ _ => true | FileN _ => false end.

Fixpoint child (name : string) (ch : list (string * node)) : option node :=
    match ch with
    | [] => None
    | (n, c) :: ch' => if String.eqb n name then Some c else child name ch'
    end.

Fixpoint lookup (n : node) (p : path) : option node :=
    match p with
    | [] => Some n
    | x :: p' =>
        match n with
        | DirN _ ch => match child x ch with Some c => lookup c p' | None => None end
        | FileN _ => None
        end
    end.

  (** A [Dirent] of [readdir(dir, { withFileTypes: true })]:
      its name and [isDirectory()]. *)
Definition dirent : Type := (string * bool)%type.

End Fs.

Import Fs.

(* ================================================================= *)
(** ** The inputs validated by the (external) input validator *)

Record ValidatedInputs := {
  workingDirectory : path;
  cacheEnabled : bool;
  javaVersion : string;
  javaDistribution : string;
  mavenVersion : string
}.

(* ================================================================= *)
(** ** CacheManager (managers/cache-manager.js) *)

Module Cache.

  (** Every call the cache manager makes to the outside. *)
Inductive event :=
  | EvAccess (p : path)                (* fs.access *)
  | EvStat (p : path)                  (* fs.stat *)
  | EvReadFile (p : path)              (* fs.readFile *)
  | EvReaddir (p : path)               (* fs.readdir *)
  | EvGetState (name : string)         (* core.getState *)
  | EvSaveState (name value : string)  (* core.saveState *)
  | EvRestoreCache (paths : list path) (key : string) (restoreKeys : list string)
  | EvSaveCache (paths : list path) (key : string).

  (** The outside world: file system, [process.platform], the home
      directory, and the [@actions/cache] backend.  [restoreCache] answers
      with the matched key, [undefined] ([None]) or a thrown error;
      [saveCache] is told how many saves were made before and returns the
      error it throws, if any. *)
Record world := {
    fs : node;
    platform : string;
    homedir : path;
    restoreCache : list path -> string -> list string -> exn + option string;
    saveCache : nat -> list path -> string -> option exn
  }.

  (** The run state and the log of calls, newest first.  The run state is
      what [core.getState] can read in this process: the [STATE_<name>]
      environment variables the runner set when the step started (newest
      binding first).  [core.saveState] only emits a command for the runner
      (an [EvSaveState] event); it does not set [process.env], so a value
      saved in this process is not readable by [core.getState] here. *)
Record st := St { runState : list (string * string); trace : list event }.

Definition log (e : event) : M st unit :=
    fun s => (inr tt, St (runState s) (e :: trace s)).

Fixpoint state_lookup (rs : list (string * string)) (name : string) : string :=
    match rs with
    | [] => EmptyString
    | (n, v) :: rs' => if String.eqb n name then v else state_lookup rs' name
    end.

Definition is_save_event (e : event) : bool :=
    match e with EvSaveCache _ _ => true | _ => false end.

  (** Number of backend [saveCache] calls in a trace. *)
Definition save_calls (tr : list event) : nat := length (filter is_save_event tr).

Section Primitives.
Variable w : world.

Definition fs_access (p : path) : M st unit :=
      log (EvAccess p);;;
      match lookup (fs w) p with
      | Some _ => ret tt
      | None => throw (Error "ENOENT")
      end.

Definition fs_stat (p : path) : M st node :=
      log (EvStat p);;;
      match lookup (fs w) p with
      | Some n => ret n
      | None => throw (Error "ENOENT")
      end.

Definition fs_readFile (p : path) : M st string :=
      log (EvReadFile p);;;
      match lookup (fs w) p with
      | Some (FileN c) => ret c
      | Some (DirN _ _) => throw (Error "EISDIR")
      | None => throw (Error "ENOENT")
      end.

Definition fs_readdir (p : path) : M st (list dirent) :=
      log (EvReaddir p);;;
      match lookup (fs w) p with
      | Some (DirN true ch) => ret (map (fun '(n, c) => (n, is_dir c)) ch)
      | Some (DirN false _) => throw (Error "EACCES")
      | Some (FileN _) => throw (Error "ENOTDIR")
      | None => throw (Error "ENOENT")
      end.

    (** [core.getState(name)]: [process.env[`STATE_${name}`] || '']. *)
Definition getState (name : string) : M st string :=
      fun s => (inr (state_lookup (runState s) name),
                St (runState s) (EvGetState name :: trace s)).

    (** [core.saveState(name, value)]: writes the [STATE] file command for
        later steps; [process.env] is left as it is. *)
Definition saveState (name value : string) : M st unit :=
      fun s => (inr tt, St (runState s) (EvSaveState name value :: trace s)).

Definition cache_restoreCache (paths : list path) (key : string)
               (restoreKeys : list string) : M st (option string) :=
      log (EvRestoreCache paths key restoreKeys);;;
      match restoreCache w paths key restoreKeys with
      | inl e => throw e
      | inr hit => ret hit
      end.

Definition cache_saveCache (paths : list path) (key : string) : M st unit :=
      fun s =>
        let n := save_calls (trace s) in
        let s' := St (runState s) (EvSaveCache paths key :: trace s) in
        match saveCache w n paths key with
        | Some e => (inl e, s')
        | None => (inr tt, s')
        end.
End Primitives.

Section CacheManager.
Variable w : world.
Variable inp : ValidatedInputs.

    (** [this.m2Repository = path.join(os.homedir(), '.m2', 'repository')] *)
Definition m2Repository : path := app (homedir w) [".m2"; "repository"].

    (** [fileExists(filePath)]: [fs.access] succeeded. *)
Definition fileExists (p : path) : M st bool :=
      catch (fs_access w p;;; ret true) (fun _ => ret false).

    (** [directoryExists(dirPath)]: [(await fs.stat(p)).isDirectory()]. *)
Definition directoryExists (p : path) : M st bool :=
      catch (n <- fs_stat w p;; ret (is_dir n)) (fun _ => ret false).

    (** The filter on directory entries of [findPomFilesRecursive]:
        [entry.isDirectory() && !entry.name.startsWith('.') && entry.name !== 'target']. *)
Definition enters (e : dirent) : bool :=
      let '(name, isdir) := e in
      (isdir && negb (startsWith name ".") && negb (String.eqb name "target"))%bool.

    (** [findPomFilesRecursive(dir, pomFiles, depth)].  The [pomFiles] array
        is threaded through and returned.  Inside the [try] only
        [fs.readdir] can throw (the nested call catches its own errors), and
        it throws before any push, so the [catch] returns the array as it
        was.  [fuel] only makes the recursion structural: the guard
        [depth > 5] stops every call chain at depth 6, and [findPomFiles]
        starts with fuel 7 at depth 0, which is never exhausted. *)
Fixpoint findPomFilesRecursive (fuel : nat) (dir : path) (pomFiles : list path)
             (depth : nat) : M st (list path) :=
      match fuel with
      | O => ret pomFiles
      | S f =>
          if Nat.ltb 5 depth then ret pomFiles else
          catch
            (entries <- fs_readdir w dir;;
             (fix loop (es : list dirent) (acc : list path) : M st (list path) :=
                match es with
                | [] => ret acc
                | e :: es' =>
                    if enters e then
                      let subDir := app dir [fst e] in
                      let subPom := app subDir ["pom.xml"] in
                      ex <- fileExists subPom;;
                      acc2 <- findPomFilesRecursive f subDir
                                (if ex then app acc [subPom] else acc) (S depth);;
                      loop es' acc2
                    else loop es' acc
                end) entries pomFiles)
            (fun _ => ret pomFiles)
      end.

    (** [findPomFiles()] *)
Definition findPomFiles : M st (list path) :=
      let rootPom := app (workingDirectory inp) ["pom.xml"] in
      ex <- fileExists rootPom;;
      let pomFiles := if ex then [rootPom] else [] in
      catch (findPomFilesRecursive 7 (workingDirectory inp) pomFiles 0)
            (fun _ => ret pomFiles).

    (** The [for] loop of [generateCacheKey]: unreadable files are skipped. *)
Fixpoint readPomContents (ps : list path) (acc : list string) : M st (list string) :=
      match ps with
      | [] => ret acc
      | p :: ps' =>
          acc' <- catch (c <- fs_readFile w p;; ret (app acc [c])) (fun _ => ret acc);;
          readPomContents ps' acc'
      end.

    (** The string hashed by [generateCacheKey]:
        [`${os}-java${javaVersion}-maven${mavenVersion}-${pomContents.join('')}`]. *)
Definition hashInput (pomContents : list string) : string :=
      platform w ++ "-java" ++ javaVersion inp ++ "-maven" ++ mavenVersion inp
        ++ "-" ++ concat_all pomContents.

    (** [generateCacheKey()] *)
Definition generateCacheKey : M st string :=
      pomFiles <- findPomFiles;;
      pomContents <- readPomContents pomFiles [];;
      ret ("maven-deps-" ++ Sha256.sha256_hex (hashInput pomContents)).

    (** The array returned by [generateRestoreKeys()]. *)
Definition restoreKeyList : list string :=
      let os := platform w in
      [ "maven-deps-" ++ os ++ "-java" ++ javaVersion inp ++ "-maven" ++ mavenVersion inp;
        "maven-deps-" ++ os ++ "-java" ++ javaVersion inp;
        "maven-deps-" ++ os;
        "maven-deps" ].

    (** [generateRestoreKeys()] *)
Definition generateRestoreKeys : M st (list string) := ret restoreKeyList.

    (** JavaScript truthiness of the value returned by [cache.restoreCache]. *)
Definition truthy (hit : option string) : bool :=
      match hit with Some k => negb (String.eqb k EmptyString) | None => false end.

    (** [restore()] *)
Definition restore : M st bool :=
      if negb (cacheEnabled inp) then ret false else
      catch
        (cacheKey <- generateCacheKey;;
         restoreKeys <- generateRestoreKeys;;
         cacheHit <- cache_restoreCache w [m2Repository] cacheKey restoreKeys;;
         ret (truthy cacheHit))
        (fun _ => ret false).

    (** [save()] *)
Definition save : M st bool :=
      if negb (cacheEnabled inp) then ret false else
      catch
        (exists_ <- directoryExists m2Repository;;
         if negb exists_ then ret false else
         cacheKey <- generateCacheKey;;
         existingCacheKey <- getState "cache-key";;
         if String.eqb existingCacheKey cacheKey then ret false else
         cache_saveCache w [m2Repository] cacheKey;;;
         saveState "cache-key" cacheKey;;;
         ret true)
        (fun _ => ret false).
End CacheManager.

End Cache.

(* ================================================================= *)
(** ** JavaScript numbers obtained from strings ([Number], [parseInt])

    Only integral values arise here, so a finite number is an integer [Z]:
    the nearest IEEE-754 double of the mathematical value (ties to even),
    or an infinity past the largest double. *)

Module JsNumber.
Local Open Scope Z_scope.

Inductive t := Fin (z : Z) | PosInf | NegInf | NaN.

  (** Rounding a non-negative integer to the nearest double. *)
Definition round_nonneg (n : Z) : t :=
    if n <? 2 ^ 53 then Fin n else
    let e := Z.log2 n - 52 in
    let q := n / 2 ^ e in
    let r := n mod 2 ^ e in
    let half := 2 ^ (e - 1) in
    let q' := if half <? r then q + 1
              else if r =? half then (if Z.even q then q else q + 1) else q in
    let v := q' * 2 ^ e in
    if 2 ^ 1024 <=? v then PosInf else Fin v.

Definition neg (x : t) : t :=
    match x with Fin z => Fin (- z) | PosInf => NegInf | NegInf => PosInf | NaN => NaN end.

  (** [x > y], [x < y], [x >= y] (false as soon as one side is NaN). *)
Definition gt (x y : t) : bool :=
    match x, y with
    | Fin a, Fin b => b <? a
    | PosInf, Fin _ | PosInf, NegInf | Fin _, NegInf => true
    | _, _ => false
    end.
Definition lt (x y : t) : bool := gt y x.
Definition ge (x y : t) : bool :=
    match x, y with
    | NaN, _ | _, NaN => false
    | _, _ => negb (lt x y)
    end.

  (** The white space trimmed by [Number] and [parseInt] (ASCII part). *)
Definition is_space (c : ascii) : bool :=
    let n := nat_of_ascii c in
    (Nat.eqb n 32 || (Nat.leb 9 n && Nat.leb n 13))%bool.

Fixpoint trim_start (s : string) : string :=
    match s with
    | String c r => if is_space c then trim_start r else s
    | EmptyString => EmptyString
    end.

Definition trim (s : string) : string :=
    string_of_list_ascii (rev (list_ascii_of_string
      (trim_start (string_of_list_ascii (rev (list_ascii_of_string (trim_start s))))))).

  (** Value of [c] as a digit in base [b], if it is one. *)
Definition digit_in (b : Z) (c : ascii) : option Z :=
    let n := Z.of_nat (nat_of_ascii c) in
    let v := if (48 <=? n) && (n <=? 57) then n - 48
             else if (97 <=? n) && (n <=? 122) then n - 87
             else if (65 <=? n) && (n <=? 90) then n - 55 else 99 in
    if v <? b then Some v else None.

  (** Longest prefix of base-[b] digits: its value and the number of digits. *)
Fixpoint digits_prefix (b : Z) (s : string) (acc : Z) (k : nat) : Z * nat :=
    match s with
    | String c r =>
        match digit_in b c with
        | Some v => digits_prefix b r (acc * b + v) (S k)
        | None => (acc, k)
        end
    | EmptyString => (acc, k)
    end.

  (** All of [s] is base-[b] digits, at least one. *)
Definition all_digits (b : Z) (s : string) : option Z :=
    let '(v, k) := digits_prefix b s 0 0 in
    if (Nat.ltb 0 k && Nat.eqb k (String.length s))%bool then Some v else None.

  (** [Number(s)] for the strings the code produces by splitting a version
      on '.': surrounding white space, the empty string (0), an optional
      sign followed by decimal digits or [Infinity], and the [0x]/[0o]/[0b]
      literals.  Exponent notation ("1e3") is not modelled and gives NaN
      here. *)
Definition Number (s0 : string) : t :=
    let s := trim s0 in
    let unsigned (u : string) : t :=
      if String.eqb u "Infinity" then PosInf else
      match all_digits 10 u with Some v => round_nonneg v | None => NaN end in
    match s with
    | EmptyString => Fin 0
    | String "0" (String x r) =>
        if (Ascii.eqb x "x" || Ascii.eqb x "X")%bool then
          match all_digits 16 r with Some v => round_nonneg v | None => NaN end
        else if (Ascii.eqb x "o" || Ascii.eqb x "O")%bool then
          match all_digits 8 r with Some v => round_nonneg v | None => NaN end
        else if (Ascii.eqb x "b" || Ascii.eqb x "B")%bool then
          match all_digits 2 r with Some v => round_nonneg v | None => NaN end
        else unsigned s
    | String "+" r => unsigned r
    | String "-" r => neg (unsigned r)
    | _ => unsigned s
    end.

  (** [parseInt(s)] with no radix: leading white space, a sign, an optional
      [0x] prefix, then the longest run of digits. *)
Definition parseInt (s0 : string) : t :=
    let s := trim_start s0 in
    let '(sign, s1) := match s with
                       | String "-" r => (true, r)
                       | String "+" r => (false, r)
                       | _ => (false, s)
                       end in
    let '(b, s2) := match s1 with
                    | String "0" (String x r) =>
                        if (Ascii.eqb x "x" || Ascii.eqb x "X")%bool then (16, r) else (10, s1)
                    | _ => (10, s1)
                    end in
    let '(v, k) := digits_prefix b s2 0 0 in
    if Nat.eqb k 0 then NaN
    else if sign then neg (round_nonneg v) else round_nonneg v.

End JsNumber.

(* ================================================================= *)
(** ** Regular-expression searches used on process output *)

Module Rx.

Fixpoint take_while (ok : ascii -> bool) (s : string) : string :=
    match s with
    | String c r => if ok c then String c (take_while ok r) else EmptyString
    | EmptyString => EmptyString
    end.

Definition drop (n : nat) (s : string) : string :=
    substring n (String.length s - n) s.

  (** A group [(X+)] of characters satisfying [ok], right after the
      current position, followed by [close] when given. *)
Definition group_at (ok : ascii -> bool) (close : option ascii) (t : string)
    : option string :=
    let g := take_while ok t in
    if String.eqb g EmptyString then None else
    match close with
    | None => Some g
    | Some q =>
        match drop (String.length g) t with
        | String c _ => if Ascii.eqb c q then Some g else None
        | EmptyString => None
        end
    end.

  (** [s.match(/lit(X+)close/)]: the group of the leftmost match. *)
Fixpoint search_group (lit : string) (ok : ascii -> bool) (close : option ascii)
           (s : string) : option string :=
    let here := if String.prefix lit s
                then group_at ok close (drop (String.length lit) s) else None in
    match here with
    | Some g => Some g
    | None => match s with
              | String _ r => search_group lit ok close r
              | EmptyString => None
              end
    end.

Definition lower (c : ascii) : ascii :=
    let n := nat_of_ascii c in
    if (Nat.leb 65 n && Nat.leb n 90)%bool then ascii_of_nat (n + 32) else c.

  (** [s.toLowerCase()] on an ASCII string: A-Z become a-z, every other
      character is kept.  On other text it is not [toLowerCase] (which maps,
      e.g., U+212A KELVIN SIGN to "k"); statements that read it as
      [toLowerCase] assume [is_ascii]. *)
Definition lower_string (s : string) : string :=
    string_of_list_ascii (map lower (list_ascii_of_string s)).

  (** Every character of [s] is ASCII (code below 128). *)
Definition is_ascii (s : string) : bool :=
    forallb (fun c => Nat.ltb (nat_of_ascii c) 128) (list_ascii_of_string s).

  (** Case-insensitive alternation [/(a1|a2|...)/i]: at the leftmost position
      where some alternative matches, the first one in order, as written in
      [s]. *)
Fixpoint search_alt_i (alts : list string) (s : string) : option string :=
    let here := find (fun a => String.prefix (lower_string a) (lower_string s)) alts in
    match here with
    | Some a => Some (substring 0 (String.length a) s)
    | None => match s with
              | String _ r => search_alt_i alts r
              | EmptyString => None
              end
    end.

Definition not_quote (c : ascii) : bool := negb (Ascii.eqb c (ascii_of_nat 34)).
  (** [.]: any character but a line terminator. *)
Definition not_newline (c : ascii) : bool :=
    negb (Ascii.eqb c (ascii_of_nat 10) || Ascii.eqb c (ascii_of_nat 13))%bool.
  (** [[^\s]] *)
Definition not_space (c : ascii) : bool := negb (JsNumber.is_space c).

End Rx.

(* ================================================================= *)
(** ** EnvironmentManager (managers/environment-manager.js) *)

Module Env.

  (** Every call the environment manager makes to the outside. *)
Inductive event :=
  | EvExec (cmd : string) (args : list string)          (* exec.exec *)
  | EvTcFind (tool version : string)                   (* tc.find *)
  | EvDownload (url : string)                          (* tc.downloadTool *)
  | EvExtract (file : string)                          (* tc.extractTar *)
  | EvCacheDir (dir tool version : string)             (* tc.cacheDir *)
  | EvAddPath (dir : string)                           (* core.addPath *)
  | EvExportVariable (name value : string).            (* core.exportVariable *)

  (** What [exec.exec] does: it rejects (command not found), or the command
      exits with a code after writing [stdout]. *)
Inductive proc_result :=
  | ProcThrows (e : exn)
  | ProcExit (code : Z) (stdout : string).

  (** The outside world.  The process runner sees the directories added to
      PATH so far.  [tc.downloadTool] and [tc.extractTar] return a local
      path or throw.  [tc.find] and [tc.cacheDir] read versions with the
      [semver] package: [semver.clean] (the cleaned version, or [None] for
      [null]), [semver.satisfies(version, range)] and [semver.gt]. *)
Record world := {
    exec : list string -> string -> list string -> proc_result;
    platform : string;
    arch : string;
    downloadTool : string -> exn + string;
    extractTar : string -> exn + string;
    toolCacheRoot : string;
    semver_clean : string -> option string;
    semver_satisfies : string -> string -> bool;
    semver_gt : string -> string -> bool
  }.

  (** [process.env] (newest binding first), the directories added to PATH,
      the tool cache, and the call log, newest first.  The tool cache holds
      the [(tool, version)] pairs whose directory
      [<root>/<tool>/<version>/<arch>] is complete (its [.complete] marker
      exists), newest first. *)
Record st := St {
    env : list (string * string);
    pathAdds : list string;
    toolCache : list (string * string);
    trace : list event
  }.

Definition log (e : event) : M st unit :=
    fun s => (inr tt, St (env s) (pathAdds s) (toolCache s) (e :: trace s)).

Fixpoint env_get (vs : list (string * string)) (name : string) : string :=
    match vs with
    | [] => EmptyString
    | (n, v) :: vs' => if String.eqb n name then v else env_get vs' name
    end.

  (** [fs.existsSync(cachePath) && fs.existsSync(cachePath + '.complete')]
      for the directory of [tool] at [version]. *)
Definition tc_has (tc : list (string * string)) (tool version : string) : bool :=
    existsb (fun '(t, v) => (String.eqb t tool && String.eqb v version)%bool) tc.

  (** [path.join(a, b)] for a directory [a] without trailing '/'. *)
Definition join (a b : string) : string := a ++ "/" ++ b.

  (** [arr.join(', ')] *)
Fixpoint join_comma (xs : list string) : string :=
    match xs with
    | [] => EmptyString
    | [x] => x
    | x :: xs' => x ++ ", " ++ join_comma xs'
    end.

Definition exn_msg (e : exn) : string := let 'Error m := e in m.

  (** A resolution outcome: the object returned by [setupJava],
      [setupMaven], [installJava] and [installMaven]. *)
Record outcome := Outcome {
    action : string;
    version : string;
    vendor : option string;
    distribution : option string;
    toolPath : string;
    warning : option string
  }.

  (** The objects returned by [getCurrentJavaVersion] and
      [getCurrentMavenVersion]. *)
Inductive detected :=
  | NotAvailable
  | JavaAvailable (version fullVersion vendor javaHome : string)
  | MavenAvailable (version mavenHome : string).

Section Primitives.
Variable w : world.

    (** [exec.exec(cmd, args, { ignoreReturnCode: true, ... })]: the exit
        code and the captured stdout. *)
Definition exec_ (cmd : string) (args : list string) : M st (Z * string) :=
      fun s =>
        let s' := St (env s) (pathAdds s) (toolCache s) (EvExec cmd args :: trace s) in
        match exec w (pathAdds s) cmd args with
        | ProcThrows e => (inl e, s')
        | ProcExit code out => (inr (code, out), s')
        end.

Definition getEnv (name : string) : M st string :=
      fun s => (inr (env_get (env s) name), s).

    (** [path.join(_getCacheDirectory(), tool, version, arch)] *)
Definition cachePath (tool version : string) : string :=
      join (join (join (toolCacheRoot w) tool) version) (arch w).

    (** [isExplicitVersion(v)] of @actions/tool-cache:
        [semver.valid(semver.clean(v) || '') != null]; a cleaned version is
        valid and [''] is not. *)
Definition isExplicitVersion (v : string) : bool :=
      match semver_clean w v with Some _ => true | None => false end.

    (** [findAllVersions(tool, arch)]: the names of the cached version
        directories of [tool] that are explicit versions and complete. *)
Definition findAllVersions (tc : list (string * string)) (tool : string) : list string :=
      map snd (filter (fun '(t, v) => (String.eqb t tool && isExplicitVersion v)%bool) tc).

    (** [evaluateVersions(versions, versionSpec)]: the versions are sorted
        by [semver.gt] and the greatest one that satisfies [versionSpec] is
        taken, or [''] when none does. *)
Definition evaluateVersions (versions : list string) (versionSpec : string) : string :=
      fold_left (fun best v =>
                   if (semver_satisfies w v versionSpec
                       && (String.eqb best EmptyString || semver_gt w v best))%bool
                   then v else best)
                versions EmptyString.

    (** [tc.find(toolName, versionSpec)]: a [versionSpec] that is not an
        explicit version is first resolved against the explicit versions in
        the cache; the cleaned version's directory is returned when it is
        complete, [''] otherwise. *)
Definition tc_find (toolName versionSpec : string) : M st string :=
      fun s =>
        let s' := St (env s) (pathAdds s) (toolCache s) (EvTcFind toolName versionSpec :: trace s) in
        if String.eqb toolName EmptyString then
          (inl (Error "toolName parameter is required"), s') else
        if String.eqb versionSpec EmptyString then
          (inl (Error "versionSpec parameter is required"), s') else
        let spec := if isExplicitVersion versionSpec then versionSpec
                    else evaluateVersions (findAllVersions (toolCache s) toolName) versionSpec in
        if String.eqb spec EmptyString then (inr EmptyString, s') else
        let v := match semver_clean w spec with Some c => c | None => EmptyString end in
        (inr (if tc_has (toolCache s) toolName v then cachePath toolName v else EmptyString), s').

Definition tc_downloadTool (url : string) : M st string :=
      log (EvDownload url);;;
      match downloadTool w url with inl e => throw e | inr p => ret p end.

Definition tc_extractTar (file : string) : M st string :=
      log (EvExtract file);;;
      match extractTar w file with inl e => throw e | inr p => ret p end.

    (** [tc.cacheDir(dir, tool, version)]: copies [dir] into the tool
        cache, under [semver.clean(version) || version], and marks it
        complete. *)
Definition tc_cacheDir (dir tool version : string) : M st string :=
      fun s =>
        let v := match semver_clean w version with Some c => c | None => version end in
        (inr (cachePath tool v), St (env s) (pathAdds s) ((tool, v) :: toolCache s)
                                   (EvCacheDir dir tool version :: trace s)).

    (** [core.addPath(dir)] prepends [dir] to PATH. *)
Definition core_addPath (dir : string) : M st unit :=
      fun s => (inr tt, St (env s) (dir :: pathAdds s) (toolCache s) (EvAddPath dir :: trace s)).

    (** [core.exportVariable(name, value)] also sets [process.env[name]]. *)
Definition core_exportVariable (name value : string) : M st unit :=
      fun s => (inr tt, St ((name, value) :: env s) (pathAdds s) (toolCache s)
                           (EvExportVariable name value :: trace s)).
End Primitives.

Section EnvironmentManager.
Variable w : world.
Variable inp : ValidatedInputs.

Definition requiredJavaVersion : string := javaVersion inp.
Definition requiredJavaDistribution : string := javaDistribution inp.
Definition requiredMavenVersion : string := mavenVersion inp.

Definition supportedJavaVersions : list string := ["8"; "11"; "17"; "21"].
Definition supportedJavaDistributions : list string :=
      ["temurin"; "zulu"; "adopt"; "liberica"; "microsoft"; "corretto"].
Definition supportedMavenVersions : list string :=
      ["3.6.3"; "3.8.1"; "3.8.6"; "3.9.0"; "3.9.5"; "3.9.6"].

    (** [extractMajorJavaVersion(fullVersion)] *)
Definition extractMajorJavaVersion (fullVersion : string) : string :=
      if startsWith fullVersion "1.8" then "8" else
      let m := leading_digits fullVersion in
      if String.eqb m EmptyString then fullVersion else m.

    (** [isJavaVersionBackwardCompatible(current, required)] *)
Definition isJavaVersionBackwardCompatible (current required : string) : bool :=
      JsNumber.ge (JsNumber.parseInt current) (JsNumber.parseInt required).

    (** [isJavaVersionCompatible(currentVersion)] *)
Definition isJavaVersionCompatible (currentVersion : string) : bool :=
      (String.eqb currentVersion requiredJavaVersion
       || isJavaVersionBackwardCompatible currentVersion requiredJavaVersion)%bool.

    (** [parts[i] || 0]: a missing part, NaN and zero all give 0. *)
Definition part_or_0 (x : option JsNumber.t) : JsNumber.t :=
      match x with
      | Some JsNumber.NaN | None => JsNumber.Fin 0
      | Some v => v
      end.

    (** The [for] loop of [isMavenVersionBackwardCompatible], from index [i],
        with [n] iterations left. *)
Fixpoint mavenPartsLoop (n i : nat) (cp rp : list JsNumber.t) : bool :=
      match n with
      | O => true
      | S n' =>
          let c := part_or_0 (nth_error cp i) in
          let r := part_or_0 (nth_error rp i) in
          if JsNumber.gt c r then true
          else if JsNumber.lt c r then false
          else mavenPartsLoop n' (S i) cp rp
      end.

    (** [isMavenVersionBackwardCompatible(current, required)] *)
Definition isMavenVersionBackwardCompatible (current required : string) : bool :=
      let currentParts := map JsNumber.Number (split_char "." current) in
      let requiredParts := map JsNumber.Number (split_char "." required) in
      mavenPartsLoop (Nat.max (length currentParts) (length requiredParts)) 0
                     currentParts requiredParts.

    (** [isMavenVersionCompatible(currentVersion)] *)
Definition isMavenVersionCompatible (currentVersion : string) : bool :=
      (String.eqb currentVersion requiredMavenVersion
       || isMavenVersionBackwardCompatible currentVersion requiredMavenVersion)%bool.

Definition javaVendors : list string :=
      ["OpenJDK"; "Oracle"; "Eclipse Temurin"; "Zulu"; "AdoptOpenJDK"; "Liberica";
       "Microsoft"; "Amazon Corretto"].

    (** [getCurrentJavaVersion()] *)
Definition getCurrentJavaVersion : M st detected :=
      catch
        (r <- exec_ w "java" ["-version"];;
         let '(exitCode, javaVersionOut) := r in
         if negb (exitCode =? 0)%Z then ret NotAvailable else
         match Rx.search_group ("version " ++ String (ascii_of_nat 34) EmptyString)
                 Rx.not_quote (Some (ascii_of_nat 34)) javaVersionOut with
         | None => ret NotAvailable
         | Some fullVersion =>
             let majorVersion := extractMajorJavaVersion fullVersion in
             let javaVendor := match Rx.search_alt_i javaVendors javaVersionOut with
                               | Some v => v | None => EmptyString end in
             javaHome <- catch
               (h <- getEnv "JAVA_HOME";;
                if negb (String.eqb h EmptyString) then ret h else
                r2 <- exec_ w "java" ["-XshowSettings:properties"; "-version"];;
                ret (match Rx.search_group "java.home = " Rx.not_newline None (snd r2) with
                     | Some h' => JsNumber.trim h'
                     | None => EmptyString
                     end))
               (fun _ => ret EmptyString);;
             ret (JavaAvailable majorVersion fullVersion javaVendor javaHome)
         end)
        (fun _ => ret NotAvailable).

    (** [getCurrentMavenVersion()] *)
Definition getCurrentMavenVersion : M st detected :=
      catch
        (r <- exec_ w "mvn" ["-version"];;
         let '(exitCode, mavenOutput) := r in
         if negb (exitCode =? 0)%Z then ret NotAvailable else
         match Rx.search_group "Apache Maven " Rx.not_space None mavenOutput with
         | None => ret NotAvailable
         | Some version =>
             let mavenHome := match Rx.search_group "Maven home: " Rx.not_newline None
                                      mavenOutput with
                              | Some h => JsNumber.trim h
                              | None => EmptyString
                              end in
             ret (MavenAvailable version mavenHome)
         end)
        (fun _ => ret NotAvailable).

    (** [getJavaDownloadUrl()] *)
Definition getJavaDownloadUrl : M st string :=
      let version := requiredJavaVersion in
      let distribution := requiredJavaDistribution in
      if String.eqb distribution "temurin" then
        let platformName :=
          if String.eqb (platform w) "linux" then "linux"
          else if String.eqb (platform w) "darwin" then "mac"
          else if String.eqb (platform w) "win32" then "windows" else "linux" in
        let archName :=
          if String.eqb (arch w) "x64" then "x64"
          else if String.eqb (arch w) "arm64" then "aarch64" else "x64" in
        ret ("https://github.com/adoptium/temurin" ++ version ++ "-binaries/releases/download"
             ++ "/jdk-" ++ version ++ "+36/OpenJDK" ++ version ++ "U-jdk_" ++ archName
             ++ "_" ++ platformName ++ "_hotspot_" ++ version ++ "_36.tar.gz")
      else throw (Error ("Download URL not configured for " ++ distribution ++ " " ++ version)).

    (** [downloadAndSetupJava()] *)
Definition downloadAndSetupJava : M st string :=
      let toolName := "Java_" ++ requiredJavaDistribution in
      let version := requiredJavaVersion in
      cached <- tc_find w toolName version;;
      javaPath <- (if negb (String.eqb cached EmptyString) then ret cached else
                   downloadUrl <- getJavaDownloadUrl;;
                   downloadPath <- tc_downloadTool w downloadUrl;;
                   extractedPath <- tc_extractTar w downloadPath;;
                   tc_cacheDir w extractedPath toolName version);;
      core_addPath (join javaPath "bin");;;
      core_exportVariable "JAVA_HOME" javaPath;;;
      ret javaPath.

    (** [downloadAndSetupMaven()] *)
Definition downloadAndSetupMaven : M st string :=
      let toolName := "Maven" in
      let version := requiredMavenVersion in
      cached <- tc_find w toolName version;;
      mavenPath <- (if negb (String.eqb cached EmptyString) then ret cached else
                    let downloadUrl := "https://archive.apache.org/dist/maven/maven-3/"
                      ++ version ++ "/binaries/apache-maven-" ++ version ++ "-bin.tar.gz" in
                    downloadPath <- tc_downloadTool w downloadUrl;;
                    extractedPath <- tc_extractTar w downloadPath;;
                    let mavenDir := join extractedPath ("apache-maven-" ++ version) in
                    tc_cacheDir w mavenDir toolName version);;
      core_addPath (join mavenPath "bin");;;
      core_exportVariable "M2_HOME" mavenPath;;;
      core_exportVariable "MAVEN_HOME" mavenPath;;;
      ret mavenPath.

    (** [installJava()] *)
Definition installJava : M st outcome :=
      catch
        (if negb (includes supportedJavaVersions requiredJavaVersion) then
           throw (Error ("Unsupported Java version: " ++ requiredJavaVersion
                         ++ ". Supported: " ++ join_comma supportedJavaVersions)) else
         if negb (includes supportedJavaDistributions requiredJavaDistribution) then
           throw (Error ("Unsupported Java distribution: " ++ requiredJavaDistribution
                         ++ ". Supported: " ++ join_comma supportedJavaDistributions)) else
         javaPath <- downloadAndSetupJava;;
         ret (Outcome "installed" requiredJavaVersion None (Some requiredJavaDistribution)
                      javaPath None))
        (fun e => throw (Error ("Java installation failed: " ++ exn_msg e))).

    (** [installMaven()] *)
Definition installMaven : M st outcome :=
      catch
        (if negb (includes supportedMavenVersions requiredMavenVersion) then
           throw (Error ("Unsupported Maven version: " ++ requiredMavenVersion
                         ++ ". Supported: " ++ join_comma supportedMavenVersions)) else
         mavenPath <- downloadAndSetupMaven;;
         ret (Outcome "installed" requiredMavenVersion None None mavenPath None))
        (fun e => throw (Error ("Maven installation failed: " ++ exn_msg e))).

    (** [setupJava()]: the [catch] logs and rethrows. *)
Definition setupJava : M st outcome :=
      catch
        (currentJava <- getCurrentJavaVersion;;
         match currentJava with
         | JavaAvailable v _ vendor javaHome =>
             if isJavaVersionCompatible v then
               ret (Outcome "existing" v (Some vendor) None javaHome None)
             else
               ret (Outcome "warning" v (Some vendor) None javaHome
                      (Some ("Version mismatch: current " ++ v ++ ", required "
                             ++ requiredJavaVersion)))
         | _ => installJava
         end)
        (fun e => throw e).

    (** [setupMaven()]: the [catch] logs and rethrows. *)
Definition setupMaven : M st outcome :=
      catch
        (currentMaven <- getCurrentMavenVersion;;
         match currentMaven with
         | MavenAvailable v mavenHome =>
             if isMavenVersionCompatible v then
               ret (Outcome "existing" v None None mavenHome None)
             else
               ret (Outcome "warning" v None None mavenHome
                      (Some ("Version mismatch: current " ++ v ++ ", required "
                             ++ requiredMavenVersion)))
         | _ => installMaven
         end)
        (fun e => throw e).
End EnvironmentManager.

End Env.

(* ================================================================= *)
(** ** The ordering the spec describes for build-tool versions

    "component-wise comparison of the dotted versions, missing trailing
    components treated as 0, lexicographic by integer component".  This
    definition follows the spec's words, to be compared with
    [Env.isMavenVersionCompatible]. *)

Module SpecOrder.

Definition pad_to (n : nat) (xs : list Z) : list Z :=
    xs ++ repeat 0%Z (n - length xs).

  (** Lexicographic [>=] on lists of the same length. *)
Fixpoint lex_ge (xs ys : list Z) : bool :=
    match xs, ys with
    | x :: xs', y :: ys' =>
        if (y <? x)%Z then true else if (x <? y)%Z then false else lex_ge xs' ys'
    | _, _ => true
    end.

Definition dotted_ge (detected required : list Z) : bool :=
    let n := Nat.max (length detected) (length required) in
    lex_ge (pad_to n detected) (pad_to n required).

  (** Decimal value of a digit string. *)
Fixpoint dec_value_acc (s : string) (acc : Z) : Z :=
    match s with
    | String c r => dec_value_acc r (acc * 10 + digit_val c)
    | EmptyString => acc
    end.
Definition dec_value (s : string) : Z := dec_value_acc s 0.

Definition is_component (s : string) : bool :=
    (negb (String.eqb s EmptyString) && forallb is_digit (list_ascii_of_string s))%bool.

  (** [c1.c2.....cn] *)
Fixpoint join_dot (cs : list string) : string :=
    match cs with
    | [] => EmptyString
    | [c] => c
    | c :: cs' => c ++ "." ++ join_dot cs'
    end.

End SpecOrder.

(* ================================================================= *)
(** ** InputValidator (utils/string-utils.js): the checks of
    [validateInputs] on java-version, java-distribution and maven-version,
    each pushing its message onto [errors], and the defaults of
    [getValidatedInputs].  The inputs are read with [core.getInput];
    an unset input is the empty string. *)

Module InputValidator.

Definition validJavaVersions : list string := ["8"; "11"; "17"; "21"].
Definition validJavaDistributions : list string := ["oracle"; "corretto"].

  (** [/^\d+\.\d+\.\d+$/.test(v)] *)
Definition versionRegex_test (v : string) : bool :=
    match split_char "." v with
    | [x; y; z] =>
        forallb (fun c => negb (String.eqb c EmptyString)
                          && forallb is_digit (list_ascii_of_string c))%bool [x; y; z]
    | _ => false
    end.

Definition validateJavaVersion (javaVersion : string) (errors : list string) : list string :=
    if (negb (String.eqb javaVersion EmptyString)
        && negb (includes validJavaVersions javaVersion))%bool
    then errors ++ ["- java-version: Invalid value '" ++ javaVersion ++ "'. Must be one of: "
                    ++ Env.join_comma validJavaVersions]
    else errors.

Definition validateJavaDistribution (javaDistribution : string) (errors : list string)
    : list string :=
    if (negb (String.eqb javaDistribution EmptyString)
        && negb (includes validJavaDistributions javaDistribution))%bool
    then errors ++ ["- java-distribution: Invalid value '" ++ javaDistribution
                    ++ "'. Must be one of: " ++ Env.join_comma validJavaDistributions]
    else errors.

Definition validateMavenVersion (mavenVersion : string) (errors : list string) : list string :=
    if (negb (String.eqb mavenVersion EmptyString) && negb (versionRegex_test mavenVersion))%bool
    then errors ++ ["- maven-version: Invalid format '" ++ mavenVersion
                    ++ "'. Must be in format X.Y.Z (e.g., 3.9.5)"]
    else errors.

  (** The messages these three checks add, in the order [validateInputs]
      runs them; the input is accepted by them when the list is empty. *)
Definition versionErrors (javaVersion javaDistribution mavenVersion : string) : list string :=
    validateMavenVersion mavenVersion
      (validateJavaDistribution javaDistribution (validateJavaVersion javaVersion [])).

  (** [core.getInput(name) || default] *)
Definition or_default (v d : string) : string :=
    if String.eqb v EmptyString then d else v.

  (** The version fields of [getValidatedInputs()]. *)
Definition getValidatedInputs (wd : path) (cache : bool)
    (javaVersion javaDistribution mavenVersion : string) : ValidatedInputs :=
    {| workingDirectory := wd; cacheEnabled := cache;
       javaVersion := or_default javaVersion "17";
       javaDistribution := or_default javaDistribution "corretto";
       mavenVersion := or_default mavenVersion "3.9.5" |}.

End InputValidator.

(* ================================================================= *)
(** ** Concrete scenarios *)

Module Scenarios.

Definition inputs (jv dist mv : string) : ValidatedInputs :=
    {| workingDirectory := ["work"]; cacheEnabled := true;
       javaVersion := jv; javaDistribution := dist; mavenVersion := mv |}.

  (** Scenario A: the working directory holds only [pom.xml] = "A"; the
      Maven repository directory exists. *)
Definition fsA : node :=
    DirN true [("work", DirN true [("pom.xml", FileN "A")]);
               ("home", DirN true [(".m2", DirN true [("repository", DirN true [])])])].

  (** A backend that matches the primary key, one that matches only the
      last restore key, and a backend whose saves succeed. *)
Definition cacheWorld (fsys : node)
             (rc : list path -> string -> list string -> exn + option string) : Cache.world :=
    {| Cache.fs := fsys; Cache.platform := "linux"; Cache.homedir := ["home"];
       Cache.restoreCache := rc; Cache.saveCache := fun _ _ _ => None |}.

Definition exactBackend : list path -> string -> list string -> exn + option string :=
    fun _ key _ => inr (Some key).
Definition fallbackBackend : list path -> string -> list string -> exn + option string :=
    fun _ _ rks => inr (Some (last rks EmptyString)).

Definition wA : Cache.world := cacheWorld fsA exactBackend.
Definition inpA : ValidatedInputs := inputs "17" "temurin" "3.9.5".

  (** The same inputs with caching turned off. *)
Definition inpOff : ValidatedInputs :=
    {| workingDirectory := ["work"]; cacheEnabled := false;
       javaVersion := "17"; javaDistribution := "temurin"; mavenVersion := "3.9.5" |}.

  (** Scenario A with a backend whose saves always throw. *)
Definition throwingWorld : Cache.world :=
    {| Cache.fs := fsA; Cache.platform := "linux"; Cache.homedir := ["home"];
       Cache.restoreCache := exactBackend;
       Cache.saveCache := fun _ _ _ => Some (Error "Cache service responded with 503") |}.

  (** Six nested directories below the working directory, with a manifest
      in the sixth and in the seventh. *)
Definition fsDeep : node :=
    let d7 := DirN true [("pom.xml", FileN "y")] in
    let d6 := DirN true [("pom.xml", FileN "x"); ("a", d7)] in
    let d5 := DirN true [("a", d6)] in
    let d4 := DirN true [("a", d5)] in
    let d3 := DirN true [("a", d4)] in
    let d2 := DirN true [("a", d3)] in
    let d1 := DirN true [("a", d2)] in
    DirN true [("work", DirN true [("a", d1)])].

Definition quote : string := String (ascii_of_nat 34) EmptyString.

  (** [semver.clean], [semver.satisfies] and [semver.gt] on the strings
      these runs use: "X.Y.Z" with decimal components without leading zeros
      is a clean version; a bare major "N" is not a version (clean gives
      [null]), and as a range it is satisfied by the versions "N.Y.Z". *)
Definition semverComponent (c : string) : bool :=
    (SpecOrder.is_component c && (String.eqb c "0" || negb (startsWith c "0")))%bool.

Definition semverClean (v : string) : option string :=
    match split_char "." v with
    | [x; y; z] => if forallb semverComponent [x; y; z] then Some v else None
    | _ => None
    end.

Definition semverSatisfies (version range : string) : bool :=
    match semverClean version with
    | Some _ => (String.eqb version range
                 || (SpecOrder.is_component range && startsWith version (range ++ ".")))%bool
    | None => false
    end.

Definition semverGt (a b : string) : bool :=
    negb (SpecOrder.dotted_ge (map SpecOrder.dec_value (split_char "." b))
                              (map SpecOrder.dec_value (split_char "." a))).

  (** A host where [java -version] reports [jdk] and [mvn -version]
      reports [mvn]; [JAVA_HOME] is looked up with a second [java] call. *)
Definition envWorld (javaOut mvnOut : option string) : Env.world :=
    {| Env.exec := fun _ cmd args =>
         if String.eqb cmd "java" then
           match javaOut with
           | Some o => Env.ProcExit 0 o
           | None => Env.ProcExit 127 EmptyString
           end
         else match mvnOut with
              | Some o => Env.ProcExit 0 o
              | None => Env.ProcExit 127 EmptyString
              end;
       Env.platform := "linux"; Env.arch := "x64";
       Env.downloadTool := fun _ => inr "/tmp/download";
       Env.extractTar := fun _ => inr "/tmp/extracted";
       Env.toolCacheRoot := "/opt/hostedtoolcache";
       Env.semver_clean := semverClean; Env.semver_satisfies := semverSatisfies;
       Env.semver_gt := semverGt |}.

Definition jdkOut (v : string) : string :=
    "openjdk version " ++ quote ++ v ++ quote ++ " 2022-01-18".
Definition mvnOut (v : string) : string :=
    "Apache Maven " ++ v ++ " (57804ffe)" ++ String (ascii_of_nat 10) "Maven home: /opt/maven".

Definition st0 : Env.st := Env.St [] [] [] [].

End Scenarios.

(* ================================================================= *)
(** ** Where the manifest scanner may look, relative to the working
    directory [wd]: a relative path [rel] of directory names none of which
    is hidden or "target". *)

Module ScanBounds.
Import Cache.

Definition good_name (n : string) : bool := enters (n, true).

  (** A manifest [wd/rel/pom.xml] at most [6] directories below [wd]. *)
Definition manifest_ok (wd p : path) : Prop :=
    exists rel, p = app wd (app rel ["pom.xml"]) /\ (length rel <= 6)%nat /\
                forallb good_name rel = true.

  (** A directory [wd/rel] at most [5] levels below [wd]. *)
Definition readdir_ok (wd p : path) : Prop :=
    exists rel, p = app wd rel /\ (length rel <= 5)%nat /\ forallb good_name rel = true.

Definition event_ok (wd : path) (e : event) : Prop :=
    match e with
    | EvReaddir p => readdir_ok wd p
    | EvAccess p => manifest_ok wd p
    | _ => False
    end.

End ScanBounds.

(* ================================================================= *)
(** ** More String and Number methods *)

Module JsText.

  (** Decimal digits of a non-negative [n], before [acc]; [fuel] bounds
      the number of digits. *)
Fixpoint dec_digits (fuel : nat) (n : Z) (acc : string) : string :=
    match fuel with
    | O => acc
    | S f =>
        let acc' := String (ascii_of_nat (48 + Z.to_nat (n mod 10))) acc in
        if (n <? 10)%Z then acc' else dec_digits f (n / 10) acc'
    end.

  (** [`${n}`] for an integer [n]: a number of [d] digits is at least
      [2 ^ (d - 1)], so [log2 n + 1] steps are enough. *)
Definition to_dec (n : Z) : string :=
    if (n <? 0)%Z then "-" ++ dec_digits (S (Z.to_nat (Z.log2 (- n)))) (- n) EmptyString
    else dec_digits (S (Z.to_nat (Z.log2 n))) n EmptyString.

  (** [s.endsWith(suffix)] *)
Definition endsWith (s suffix : string) : bool :=
    let n := String.length s in
    let m := String.length suffix in
    (Nat.leb m n && String.eqb (substring (n - m) m s) suffix)%bool.

  (** [s.includes(sub)] *)
Definition str_includes (s sub : string) : bool :=
    match String.index 0 sub s with Some _ => true | None => false end.

  (** A character of a lower-case hexadecimal string. *)
Definition is_lower_hex (c : ascii) : bool :=
    (is_digit c || (Nat.leb 97 (nat_of_ascii c) && Nat.leb (nat_of_ascii c) 102))%bool.

End JsText.

Import JsText.

(* ================================================================= *)
(** ** ArtifactManager (managers/artifact-manager.js)

    Paths are strings here, joined by [path.join] ([Env.join]).  The
    messages of [core.info] and [core.warning] are not modelled: they have
    no effect on the result or on the calls below. *)

Module Artifacts.

  (** Every call the artifact manager makes to the outside. *)
Inductive event :=
  | EvAccess (p : string)                                   (* fs.access *)
  | EvGlob (pattern : string)                               (* glob.sync *)
  | EvGetBooleanInput (name : string)                       (* core.getBooleanInput *)
  | EvUpload (name : string) (files : list string) (rootDirectory : string)
             (continueOnError : bool) (retentionDays : Z)   (* uploadArtifact *)
  | EvSetFailed (message : string).                         (* core.setFailed *)

  (** The outside world: which paths [fs.access] accepts, the matches of a
      glob pattern, the value of a boolean action input (or the error
      [core.getBooleanInput] throws when the input is not a YAML boolean),
      and the error [uploadArtifact] rejects with, if any. *)
Record world := {
    access : string -> bool;
    glob : string -> list string;
    getBooleanInput : string -> exn + bool;
    uploadArtifact : string -> list string -> string -> bool -> Z -> option exn
  }.

  (** The validated inputs read by the artifact manager; an unset input is
      [''], falsy as [undefined] is. *)
Record inputs := {
    workingDirectory : string;
    deployTarget : string;
    deployUrl : string
  }.

  (** The call log, newest first. *)
Definition st : Type := list event.

Definition log (e : event) : M st unit := fun tr => (inr tt, e :: tr).

Section Primitives.
Variable w : world.

Definition fs_access (p : string) : M st unit :=
      log (EvAccess p);;;
      if access w p then ret tt else throw (Error "ENOENT").

Definition glob_sync (pattern : string) : M st (list string) :=
      log (EvGlob pattern);;; ret (glob w pattern).

Definition core_getBooleanInput (name : string) : M st bool :=
      log (EvGetBooleanInput name);;;
      match getBooleanInput w name with inl e => throw e | inr b => ret b end.

    (** [artifactClient.uploadArtifact(name, files, rootDirectory,
        { continueOnError, retentionDays })] *)
Definition uploadArtifact_ (name : string) (files : list string) (rootDirectory : string)
             (continueOnError : bool) (retentionDays : Z) : M st unit :=
      log (EvUpload name files rootDirectory continueOnError retentionDays);;;
      match uploadArtifact w name files rootDirectory continueOnError retentionDays with
      | Some e => throw e
      | None => ret tt
      end.

Definition core_setFailed (message : string) : M st unit := log (EvSetFailed message).
End Primitives.

  (** JavaScript truthiness of a string. *)
Definition truthy (s : string) : bool := negb (String.eqb s EmptyString).

Section ArtifactManager.
Variable w : world.
Variable inp : inputs.

    (** [collectArtifacts(operation)] *)
Definition collectArtifacts (operation : string) : M st (list string) :=
      let targetDir := Env.join (workingDirectory inp) "target" in
      catch
        (fs_access w targetDir;;;
         jarFiles <- glob_sync w (Env.join targetDir "*.jar");;
         warFiles <- glob_sync w (Env.join targetDir "*.war");;
         let artifactPaths := app jarFiles warFiles in
         skipTests <- core_getBooleanInput w "skip-tests";;
         artifactPaths <-
           (if negb skipTests then
              let testReportsDir := Env.join targetDir "surefire-reports" in
              catch (fs_access w testReportsDir;;; ret (app artifactPaths [testReportsDir]))
                    (fun _ => ret artifactPaths)
            else ret artifactPaths);;
         generateCoverage <- core_getBooleanInput w "generate-coverage";;
         artifactPaths <-
           (if generateCoverage then
              let coverageDir := Env.join (Env.join targetDir "site") "jacoco" in
              catch (fs_access w coverageDir;;; ret (app artifactPaths [coverageDir]))
                    (fun _ => ret artifactPaths)
            else ret artifactPaths);;
         ret artifactPaths)
        (fun _ => ret []).

    (** [uploadArtifacts(artifactPaths)].  A path found by
        [p.includes('surefire-reports')] or [p.includes('jacoco')] is not
        empty, hence truthy. *)
Definition uploadArtifacts (artifactPaths : list string) : M st unit :=
      if Nat.eqb (length artifactPaths) 0 then ret tt else
      catch
        (let binaryFiles :=
           filter (fun p => (endsWith p ".jar" || endsWith p ".war")%bool) artifactPaths in
         (if Nat.ltb 0 (length binaryFiles) then
            uploadArtifact_ w "build-artifacts" binaryFiles (workingDirectory inp) false 30
          else ret tt);;;
         (match find (fun p => str_includes p "surefire-reports") artifactPaths with
          | Some testReportsDir =>
              testFiles <- glob_sync w (Env.join testReportsDir "**/*");;
              if Nat.ltb 0 (length testFiles) then
                uploadArtifact_ w "test-reports" testFiles testReportsDir true 7
              else ret tt
          | None => ret tt
          end);;;
         (match find (fun p => str_includes p "jacoco") artifactPaths with
          | Some coverageDir =>
              coverageFiles <- glob_sync w (Env.join coverageDir "**/*");;
              if Nat.ltb 0 (length coverageFiles) then
                uploadArtifact_ w "coverage-reports" coverageFiles coverageDir true 7
              else ret tt
          | None => ret tt
          end);;;
         ret tt)
        (fun _ => ret tt).

    (** [deployToNexus], [deployToArtifactory], [deployToGitHubPackages]:
        each only logs a message. *)
Definition deployToNexus (artifactPaths : list string) : M st unit := ret tt.
Definition deployToArtifactory (artifactPaths : list string) : M st unit := ret tt.
Definition deployToGitHubPackages (artifactPaths : list string) : M st unit := ret tt.

    (** [deployArtifacts(artifactPaths)].  [toLowerCase] is [Rx.lower_string],
        which is [toLowerCase] only on ASCII targets ([Rx.is_ascii]). *)
Definition deployArtifacts (artifactPaths : list string) : M st unit :=
      if (negb (truthy (deployTarget inp)) || negb (truthy (deployUrl inp)))%bool then ret tt else
      catch
        (let target := Rx.lower_string (deployTarget inp) in
         if String.eqb target "nexus" then deployToNexus artifactPaths
         else if String.eqb target "artifactory" then deployToArtifactory artifactPaths
         else if String.eqb target "github-packages" then deployToGitHubPackages artifactPaths
         else throw (Error ("Unsupported deployment target: " ++ deployTarget inp)))
        (fun e => core_setFailed ("Deployment failed: " ++ Env.exn_msg e)).

    (** [shouldDeploy(operation)], as tested by the [if] of [handleArtifacts]. *)
Definition shouldDeploy (operation : string) : bool :=
      (includes ["deploy"; "install"] operation && truthy (deployTarget inp))%bool.

    (** [handleArtifacts(operation)] *)
Definition handleArtifacts (operation : string) : M st (list string) :=
      catch
        (artifactPaths <- collectArtifacts operation;;
         (if Nat.ltb 0 (length artifactPaths) then
            uploadArtifacts artifactPaths;;;
            (if shouldDeploy operation then deployArtifacts artifactPaths else ret tt)
          else ret tt);;;
         ret artifactPaths)
        (fun _ => ret []).
End ArtifactManager.

  (** [getArtifactSummary(artifactPaths)] *)
Definition getArtifactSummary (artifactPaths : list string) : string :=
    if Nat.eqb (length artifactPaths) 0 then "No artifacts generated" else
    let jarFiles := filter (fun p => endsWith p ".jar") artifactPaths in
    let warFiles := filter (fun p => endsWith p ".war") artifactPaths in
    let nl := String (ascii_of_nat 10) EmptyString in
    let summary :=
      if Nat.ltb 0 (length jarFiles)
      then "JAR files: " ++ to_dec (Z.of_nat (length jarFiles)) ++ nl else EmptyString in
    let summary :=
      if Nat.ltb 0 (length warFiles)
      then summary ++ "WAR files: " ++ to_dec (Z.of_nat (length warFiles)) ++ nl else summary in
    let trimmed := JsNumber.trim summary in
    if truthy trimmed then trimmed else "Artifacts generated".

End Artifacts.

(* ================================================================= *)
(** ** MavenExecutor (executors/maven-executor.js) and the dispatch of
    MavenActionHandler.executeMavenOperation (handlers/maven-handler.js) *)

Module Mvn.

  (** The validated inputs read by the executor; an unset string input is
      ['']. *)
Record inputs := {
    workingDirectory : string;
    mavenArgs : string;
    settingsFile : string;
    skipTests : bool
  }.

  (** [exec.exec(cmd, args, { cwd })] *)
Inductive event := EvExec (cmd : string) (args : list string) (cwd : string).

  (** What [exec.exec] meets outside: [io.which(tool, true)], the path it
      resolves the tool to or the error it throws, and the spawned process,
      which exits with a code or fails to start with an error. *)
Record world := {
    which : string -> exn + string;
    run : string -> list string -> string -> exn + Z
  }.

Definition st : Type := list event.

  (** The object [{ success, phase, exitCode }]. *)
Record result := Result { success : bool; phase : string; exitCode : Z }.

  (** [exec.exec(cmd, args, { cwd, ignoreReturnCode: false })]: the tool
      is resolved with [io.which]; a non-zero exit code rejects with
      "The process '<toolPath>' failed with exit code <code>", so the
      promise resolves only with 0. *)
Definition exec_ (w : world) (cmd : string) (args : list string) (cwd : string) : M st Z :=
    fun tr =>
      let tr' := EvExec cmd args cwd :: tr in
      match which w cmd with
      | inl e => (inl e, tr')
      | inr toolPath =>
          match run w toolPath args cwd with
          | inl e => (inl e, tr')
          | inr code =>
              if (code =? 0)%Z then (inr code, tr')
              else (inl (Error ("The process '" ++ toolPath ++ "' failed with exit code "
                                ++ to_dec code)), tr')
          end
      end.

Section MavenExecutor.
Variable w : world.
Variable inp : inputs.

    (** The [args] array built by [executeMavenCommand]. *)
Definition commandArgs (phase : string) (additionalArgs : list string) : list string :=
      app ["mvn"; phase]
        (app (if Artifacts.truthy (settingsFile inp) then ["-s"; settingsFile inp] else [])
          (app additionalArgs
            (app (if Artifacts.truthy (mavenArgs inp) then split_char " " (mavenArgs inp) else [])
                 ["-B"; "-V"]))).

    (** [executeMavenCommand(phase, additionalArgs)]: the [catch] logs and
        rethrows. *)
Definition executeMavenCommand (phase : string) (additionalArgs : list string) : M st result :=
      let args := commandArgs phase additionalArgs in
      catch
        (exitCode <- exec_ w (hd EmptyString args) (tl args) (workingDirectory inp);;
         if (exitCode =? 0)%Z then ret (Result true phase exitCode)
         else throw (Error ("Maven " ++ phase ++ " failed with exit code " ++ to_dec exitCode)))
        (fun e => throw e).

    (** [this.skipTests ? ['-DskipTests'] : []] *)
Definition skipArgs : list string := if skipTests inp then ["-DskipTests"] else [].

Definition validate : M st result := executeMavenCommand "validate" [].
Definition compile : M st result := executeMavenCommand "compile" [].
Definition test : M st result := executeMavenCommand "test" skipArgs.
Definition package : M st result := executeMavenCommand "package" skipArgs.
Definition verify : M st result := executeMavenCommand "verify" skipArgs.
Definition install : M st result := executeMavenCommand "install" skipArgs.
Definition deploy : M st result := executeMavenCommand "deploy" skipArgs.

    (** [MavenActionHandler.executeMavenOperation(operation, eventContext)] *)
Definition executeMavenOperation (operation : string) : M st result :=
      if String.eqb operation "validate" then validate
      else if String.eqb operation "compile" then compile
      else if String.eqb operation "test" then test
      else if String.eqb operation "package" then package
      else if String.eqb operation "verify" then verify
      else if String.eqb operation "install" then install
      else if String.eqb operation "deploy" then deploy
      else throw (Error ("Unsupported Maven operation: " ++ operation)).
End MavenExecutor.

End Mvn.

(* ================================================================= *)
(** ** EnvironmentManager.verifyEnvironment and setupEnvironment *)

Module EnvSetup.
Import Env.

  (** [check.available] *)
Definition available (d : detected) : bool :=
    match d with NotAvailable => false | _ => true end.

  (** The environment manager's state, with the messages passed to
      [core.setFailed], newest first. *)
Definition st : Type := (Env.st * list string)%type.

Definition lift {A} (m : M Env.st A) : M st A :=
    fun '(s, f) => let '(r, s') := m s in (r, (s', f)).

Definition core_setFailed (message : string) : M st unit :=
    fun '(s, f) => (inr tt, (s, message :: f)).

Section Setup.
Variable w : world.
Variable inp : ValidatedInputs.

    (** [verifyEnvironment()] *)
Definition verifyEnvironment : M Env.st (detected * detected) :=
      catch
        (javaCheck <- getCurrentJavaVersion w;;
         if negb (available javaCheck) then
           throw (Error "Java verification failed - not available after setup") else
         mavenCheck <- getCurrentMavenVersion w;;
         if negb (available mavenCheck) then
           throw (Error "Maven verification failed - not available after setup") else
         ret (javaCheck, mavenCheck))
        (fun e => throw (Error ("Environment verification failed: " ++ exn_msg e))).

    (** [setupEnvironment()] *)
Definition setupEnvironment : M st (outcome * outcome) :=
      catch
        (javaSetup <- lift (setupJava w inp);;
         mavenSetup <- lift (setupMaven w inp);;
         lift verifyEnvironment;;;
         ret (javaSetup, mavenSetup))
        (fun e => core_setFailed ("Environment setup failed: " ++ exn_msg e);;; throw e).
End Setup.

End EnvSetup.

(* ================================================================= *)
(** ** Concrete scenarios for the artifact manager and the Maven executor *)

Module ToolScenarios.

  (** The artifact manager's inputs for the working directory [work]. *)
Definition artInputs (target url : string) : Artifacts.inputs :=
    {| Artifacts.workingDirectory := "work"; Artifacts.deployTarget := target;
       Artifacts.deployUrl := url |}.

  (** A build that produced one JAR and test reports, whose [skip-tests]
      input reads as [skipInput] and whose artifact service rejects every
      upload; [work/target] exists when [targetExists] holds. *)
Definition artWorld (targetExists : bool) (skipInput : exn + bool) : Artifacts.world :=
    {| Artifacts.access := fun _ => targetExists;
       Artifacts.glob := fun pattern =>
         if JsText.endsWith pattern "*.jar" then ["work/target/app.jar"]
         else if JsText.endsWith pattern "*.war" then []
         else ["work/target/surefire-reports/TEST-AppTest.xml"];
       Artifacts.getBooleanInput := fun name =>
         if String.eqb name "skip-tests" then skipInput else inr false;
       Artifacts.uploadArtifact := fun _ _ _ _ _ =>
         Some (Error "Artifact storage quota has been hit") |}.

  (** [mvn] exits with [code], or cannot be started at all. *)
Definition mvnWorld (code : Z) : Mvn.world :=
    {| Mvn.which := fun tool => inr ("/usr/bin/" ++ tool); Mvn.run := fun _ _ _ => inr code |}.
Definition mvnMissing : Mvn.world :=
    {| Mvn.which := fun tool => inl (Error ("Unable to locate executable file: " ++ tool
         ++ ". Please verify either the file path exists or the file can be found within "
         ++ "a directory specified by the PATH environment variable. Also check the file "
         ++ "mode to verify the file is executable."));
       Mvn.run := fun _ _ _ => inr 0 |}.

Definition mvnInputs : Mvn.inputs :=
    {| Mvn.workingDirectory := "work"; Mvn.mavenArgs := "-Pci -T 4";
       Mvn.settingsFile := EmptyString; Mvn.skipTests := true |}.

  (** A host with JDK 17 on the PATH, and its state after Temurin 17 was
      installed from scratch. *)
Definition jdkWorld : Env.world := Scenarios.envWorld (Some (Scenarios.jdkOut "17.0.2")) None.
Definition afterJavaInstall : Env.st :=
    snd (Env.installJava jdkWorld (Scenarios.inputs "17" "temurin" "3.9.5") Scenarios.st0).

End ToolScenarios.

(* ================================================================= *)
(** * Proofs *)

Example sha256_abc :
  Sha256.sha256_hex "abc" =
  "ba7816bf8f01cfea414140de5dae2223b00361a396177a9cb410ff61f20015ad".
Proof. vm_compute. reflexivity. Qed.

Example sha256_two_blocks :
  Sha256.sha256_hex "abcdbcdecdefdefgefghfghighijhijkijkljklmklmnlmnomnopnopq" =
  "248d6a61d20638b8e5c026930c3e6039a33ce45964ff2167f6ecedd419db06c1".
Proof. vm_compute. reflexivity. Qed.

(* ================================================================= *)
(** ** Key derivation only reads the file system *)

Module CacheFacts.
Local Open Scope list_scope.
Import Cache.

Definition fs_event (e : event) : Prop :=
    match e with
    | EvAccess _ | EvStat _ | EvReadFile _ | EvReaddir _ => True
    | _ => False
    end.

  (** [m] reads the file system only: its result does not depend on the
      state, the run state is untouched, and it logs file-system calls. *)
Definition ro {A} (m : M st A) : Prop :=
    exists r tr, Forall fs_event tr /\
      forall s, m s = (r, St (runState s) (tr ++ trace s)).

  (** ... and it does not throw. *)
Definition ro_ok {A} (m : M st A) : Prop :=
    exists a tr, Forall fs_event tr /\
      forall s, m s = (inr a, St (runState s) (tr ++ trace s)).

Lemma st_eta : forall s, St (runState s) (trace s) = s.
  Proof. intros []; reflexivity. Qed.

Lemma ro_ret : forall {A} (a : A), ro (ret a).
  Proof. intros. exists (inr a), []. split; [constructor|]. intros s. cbn. now rewrite st_eta. Qed.

Lemma ro_ok_ret : forall {A} (a : A), ro_ok (ret a).
  Proof. intros. exists a, []. split; [constructor|]. intros s. cbn. now rewrite st_eta. Qed.

Lemma ro_throw : forall {A} e, @ro A (throw e).
  Proof. intros. exists (inl e), []. split; [constructor|]. intros s. cbn. now rewrite st_eta. Qed.

Lemma ro_of_ok : forall {A} (m : M st A), ro_ok m -> ro m.
  Proof. intros A m (a & tr & Htr & H). exists (inr a), tr. auto. Qed.

Lemma ro_log : forall e, fs_event e -> ro (log e).
  Proof.
    intros e He. exists (inr tt), [e]. split; [now constructor|]. reflexivity.
  Qed.

Lemma ro_bind : forall {A B} (m : M st A) (k : A -> M st B),
      ro m -> (forall a, ro (k a)) -> ro (bind m k).
  Proof.
    intros A B m k (r & tr & Htr & Hm) Hk.
    destruct r as [e | a].
    - exists (inl e), tr. split; auto. intros s. unfold bind. now rewrite Hm.
    - destruct (Hk a) as (r2 & tr2 & Htr2 & Hk2).
      exists r2, (tr2 ++ tr). split; [now apply Forall_app|].
      intros s. unfold bind. rewrite Hm, Hk2. cbn. now rewrite app_assoc.
  Qed.

Lemma ro_ok_bind : forall {A B} (m : M st A) (k : A -> M st B),
      ro_ok m -> (forall a, ro_ok (k a)) -> ro_ok (bind m k).
  Proof.
    intros A B m k (a & tr & Htr & Hm) Hk.
    destruct (Hk a) as (b & tr2 & Htr2 & Hk2).
    exists b, (tr2 ++ tr). split; [now apply Forall_app|].
    intros s. unfold bind. rewrite Hm, Hk2. cbn. now rewrite app_assoc.
  Qed.

Lemma ro_catch : forall {A} (m : M st A) h,
      ro m -> (forall e, ro (h e)) -> ro (catch m h).
  Proof.
    intros A m h (r & tr & Htr & Hm) Hh.
    destruct r as [e | a].
    - destruct (Hh e) as (r2 & tr2 & Htr2 & Hh2).
      exists r2, (tr2 ++ tr). split; [now apply Forall_app|].
      intros s. unfold catch. rewrite Hm, Hh2. cbn. now rewrite app_assoc.
    - exists (inr a), tr. split; auto. intros s. unfold catch. now rewrite Hm.
  Qed.

  (** [try { ... } catch { return x; }] never throws. *)
Lemma ro_ok_catch_ret : forall {A} (m : M st A) (x : A),
      ro m -> ro_ok (catch m (fun _ => ret x)).
  Proof.
    intros A m x (r & tr & Htr & Hm).
    destruct r as [e | a].
    - exists x, tr. split; auto. intros s. unfold catch. now rewrite Hm.
    - exists a, tr. split; auto. intros s. unfold catch. now rewrite Hm.
  Qed.

Create HintDb ro_db.
#[local] Hint Resolve ro_ret ro_ok_ret ro_throw ro_of_ok ro_bind ro_ok_bind ro_catch
       ro_ok_catch_ret : ro_db.

Section WithWorld.
Variable w : world.
Variable inp : ValidatedInputs.

Ltac ro_prim :=
      apply ro_bind; [apply ro_log; exact I |]; intros _;
      repeat match goal with
             | |- context [match ?x with _ => _ end] => destruct x
             end; auto with ro_db.

Lemma ro_fs_access : forall p, ro (fs_access w p).
    Proof. intros p. unfold fs_access. ro_prim. Qed.

Lemma ro_fs_stat : forall p, ro (fs_stat w p).
    Proof. intros p. unfold fs_stat. ro_prim. Qed.

Lemma ro_fs_readFile : forall p, ro (fs_readFile w p).
    Proof. intros p. unfold fs_readFile. ro_prim. Qed.

Lemma ro_fs_readdir : forall p, ro (fs_readdir w p).
    Proof. intros p. unfold fs_readdir. ro_prim. Qed.

#[local] Hint Resolve ro_fs_access ro_fs_stat ro_fs_readFile ro_fs_readdir : ro_db.

Lemma ro_fileExists : forall p, ro_ok (fileExists w p).
    Proof. intros p. unfold fileExists. auto with ro_db. Qed.

Lemma ro_directoryExists : forall p, ro_ok (directoryExists w p).
    Proof. intros p. unfold directoryExists. auto with ro_db. Qed.

#[local] Hint Resolve ro_fileExists ro_directoryExists : ro_db.

Lemma ro_findPomFilesRecursive : forall fuel dir acc depth,
        ro_ok (findPomFilesRecursive w fuel dir acc depth).
    Proof.
      induction fuel as [| f IH]; intros dir acc depth; cbn [findPomFilesRecursive].
      - auto with ro_db.
      - destruct (Nat.ltb 5 depth); [auto with ro_db |].
        apply ro_ok_catch_ret. apply ro_bind; [auto with ro_db |].
        intros entries. revert acc.
        induction entries as [| e es IHes]; intros acc; [auto with ro_db |].
        destruct (enters e); [| apply IHes].
        apply ro_bind; [auto with ro_db |]. intros ex.
        apply ro_bind; [apply ro_of_ok, IH |]. intros acc2. apply IHes.
    Qed.

Lemma ro_findPomFiles : ro_ok (findPomFiles w inp).
    Proof.
      unfold findPomFiles. apply ro_ok_bind; [auto with ro_db |]. intros ex.
      apply ro_ok_catch_ret, ro_of_ok, ro_findPomFilesRecursive.
    Qed.

Lemma ro_readPomContents : forall ps acc, ro_ok (readPomContents w ps acc).
    Proof.
      induction ps as [| p ps IH]; intros acc; cbn [readPomContents]; auto with ro_db.
    Qed.

Lemma ro_generateCacheKey : ro_ok (generateCacheKey w inp).
    Proof.
      unfold generateCacheKey. apply ro_ok_bind; [apply ro_findPomFiles |]. intros ps.
      apply ro_ok_bind; [apply ro_readPomContents |]. intros cs. auto with ro_db.
    Qed.
End WithWorld.

End CacheFacts.

Module CacheClaims.
Import Cache CacheFacts.
Local Open Scope list_scope.

  (** How [save] runs when caching is enabled, given what the file-system
      reads return. *)
Lemma save_unfold : forall w inp s b trd k trk,
      cacheEnabled inp = true ->
      (forall s, directoryExists w (m2Repository w) s =
                 (inr b, St (runState s) (trd ++ trace s))) ->
      (forall s, generateCacheKey w inp s = (inr k, St (runState s) (trk ++ trace s))) ->
      save w inp s =
      if negb b then (inr false, St (runState s) (trd ++ trace s)) else
      let s3 := St (runState s) (EvGetState "cache-key" :: trk ++ trd ++ trace s) in
      if String.eqb (state_lookup (runState s) "cache-key") k then (inr false, s3) else
      let s4 := St (runState s) (EvSaveCache [m2Repository w] k :: trace s3) in
      match Cache.saveCache w (save_calls (trace s3)) [m2Repository w] k with
      | Some _ => (inr false, s4)
      | None => (inr true, St (runState s) (EvSaveState "cache-key" k :: trace s4))
      end.
  Proof.
    intros w inp s b trd k trk Hen Hd Hk.
    unfold save. rewrite Hen. cbn [negb]. unfold catch, bind.
    rewrite Hd. destruct b; cbn [negb]; [| reflexivity].
    rewrite Hk. cbn. destruct (String.eqb _ k); [reflexivity |].
    unfold cache_saveCache. cbn.
    destruct (Cache.saveCache w _ _ k); reflexivity.
  Qed.

Lemma save_calls_fs : forall tr t,
      Forall fs_event tr -> save_calls (tr ++ t) = save_calls t.
  Proof.
    induction tr as [| e tr IH]; intros t H; [reflexivity |].
    inversion H as [| ? ? He Htr]; subst.
    unfold save_calls in *. cbn.
    destruct e; cbn in He; try contradiction; apply IH; exact Htr.
  Qed.

  (** Claim C10: with caching disabled, [restore] and [save] return [false]
      at once and leave the state as it was: no backend call, no
      file-system read, no run-state read or write (the trace is unchanged). *)
Theorem cache_disabled_no_effects : forall w inp s,
      cacheEnabled inp = false ->
      restore w inp s = (inr false, s) /\ save w inp s = (inr false, s).
  Proof.
    intros w inp s Hoff. unfold restore, save. rewrite Hoff. split; reflexivity.
  Qed.


  (** What one [save] does to the state: it never changes the run state,
      and it makes one backend call or none, as decided by the run state. *)
Lemma save_calls_effect : forall w inp,
      exists f : list (string * string) -> nat,
      forall s, (f (runState s) <= 1)%nat /\
        runState (snd (save w inp s)) = runState s /\
        save_calls (trace (snd (save w inp s))) = (f (runState s) + save_calls (trace s))%nat.
  Proof.
    intros w inp.
    destruct (cacheEnabled inp) eqn:Hen.
    2:{ exists (fun _ => 0%nat). intros s. unfold save. rewrite Hen. cbn. auto. }
    destruct (ro_directoryExists w (m2Repository w)) as (b & trd & Htrd & Hd).
    destruct (ro_generateCacheKey w inp) as (k & trk & Htrk & Hk).
    exists (fun rs => if b then if String.eqb (state_lookup rs "cache-key") k then 0%nat else 1%nat
                      else 0%nat).
    intros s. rewrite (save_unfold w inp s b trd k trk Hen Hd Hk).
    destruct b; cbn [negb].
    - cbv zeta. destruct (String.eqb (state_lookup (runState s) "cache-key") k).
      + cbn [snd runState trace]. split; [lia |]. split; [reflexivity |].
        unfold save_calls. cbn [filter is_save_event].
        fold (save_calls (trk ++ trd ++ trace s)).
        rewrite save_calls_fs by exact Htrk. rewrite save_calls_fs by exact Htrd. reflexivity.
      + destruct (Cache.saveCache w _ [m2Repository w] k);
          cbn [snd runState trace]; (split; [lia |]); (split; [reflexivity |]);
          unfold save_calls; cbn [filter is_save_event length];
          fold (save_calls (trk ++ trd ++ trace s));
          rewrite save_calls_fs by exact Htrk; rewrite save_calls_fs by exact Htrd; reflexivity.
    - cbn [snd runState trace]. split; [lia |]. split; [reflexivity |].
      rewrite save_calls_fs by exact Htrd. reflexivity.
  Qed.


Lemma restore_unfold : forall w inp s k trk,
      cacheEnabled inp = true ->
      (forall s, generateCacheKey w inp s = (inr k, St (runState s) (trk ++ trace s))) ->
      restore w inp s =
      (inr match Cache.restoreCache w [m2Repository w] k (restoreKeyList w inp) with
           | inl _ => false
           | inr hit => truthy hit
           end,
       St (runState s) (EvRestoreCache [m2Repository w] k (restoreKeyList w inp)
                          :: trk ++ trace s)).
  Proof.
    intros w inp s k trk Hen Hk.
    unfold restore. rewrite Hen. cbn [negb]. unfold catch, bind.
    rewrite Hk. cbn.
    destruct (Cache.restoreCache w _ k _); reflexivity.
  Qed.

  (** Claim C3 (as the code has it): [restore] returns a plain boolean.
      With caching enabled it is [true] exactly when the backend answers
      with a non-empty matched key, whichever of the primary key and the
      restore keys it matched, and [false] on a miss or a backend error. *)
Theorem restore_reports_only_hit : forall w inp s,
      cacheEnabled inp = true ->
      exists key, fst (generateCacheKey w inp s) = inr key /\
        fst (restore w inp s) =
        inr match Cache.restoreCache w [m2Repository w] key (restoreKeyList w inp) with
            | inr (Some matched) => negb (String.eqb matched EmptyString)
            | inr None => false
            | inl _ => false
            end.
  Proof.
    intros w inp s Hen.
    destruct (ro_generateCacheKey w inp) as (k & trk & _ & Hk).
    exists k. rewrite Hk. split; [reflexivity |].
    rewrite (restore_unfold w inp s k trk Hen Hk). cbn [fst].
    destruct (Cache.restoreCache w _ k _) as [e | [m |]]; reflexivity.
  Qed.

Lemma lookup_app : forall n p q,
      lookup n (p ++ q) = match lookup n p with Some m => lookup m q | None => None end.
  Proof.
    intros n p. revert n. induction p as [| x p IH]; intros n q; [reflexivity |].
    destruct n as [c | r ch]; [reflexivity |]. cbn.
    destruct (child x ch); [apply IH | reflexivity].
  Qed.

Lemma append_empty_r : forall s, (s ++ EmptyString)%string = s.
  Proof. induction s as [| c s IH]; cbn; [reflexivity | now rewrite IH]. Qed.

  (** Claim C1 (as the code has it): for a working directory holding only
      its [pom.xml] with content [c], the key is "maven-deps-" followed by
      the hex SHA-256 of [os + "-java" + runtime + "-maven" + buildtool + "-" + c]:
      the components are labelled and separated by '-'. *)
Theorem cache_key_root_manifest_only : forall w inp s c,
      lookup (Cache.fs w) (workingDirectory inp) = Some (DirN true [("pom.xml", FileN c)]) ->
      fst (generateCacheKey w inp s) =
      inr ("maven-deps-" ++ Sha256.sha256_hex
             (Cache.platform w ++ "-java" ++ javaVersion inp ++ "-maven" ++ mavenVersion inp
              ++ "-" ++ c))%string.
  Proof.
    intros w inp s c Hwd.
    assert (Hpom : lookup (Cache.fs w) (workingDirectory inp ++ ["pom.xml"]) = Some (FileN c)).
    { rewrite lookup_app, Hwd. reflexivity. }
    unfold generateCacheKey, findPomFiles, fileExists, fs_access, catch, bind, log.
    rewrite Hpom. cbn [findPomFilesRecursive Nat.ltb Nat.leb].
    unfold fs_readdir, bind, log, catch.
    rewrite Hwd. cbn. unfold fs_readFile, bind, log. rewrite Hpom. cbn.
    unfold hashInput. cbn [concat_all]. rewrite append_empty_r. reflexivity.
  Qed.

End CacheClaims.

(* ================================================================= *)
(** ** The manifest scanner stays within its bounds *)

Module ScannerFacts.
Import Cache ScanBounds.
Local Open Scope list_scope.

Section Invariant.
Variable P : event -> Prop.

    (** [m] leaves the run state alone, logs only [P]-events, and its
        result satisfies [Q]. *)
Definition inv {A} (Q : A -> Prop) (m : M st A) : Prop :=
      forall s, (forall a, fst (m s) = inr a -> Q a) /\
        exists tr, snd (m s) = St (runState s) (tr ++ trace s) /\ Forall P tr.

Lemma inv_ret : forall {A} (Q : A -> Prop) a, Q a -> inv Q (ret a).
    Proof.
      intros A Q a Ha s. split; [cbn; intros ? [= <-]; exact Ha |].
      exists []. split; [destruct s; reflexivity | constructor].
    Qed.

Lemma inv_throw : forall {A} (Q : A -> Prop) e, inv Q (throw e).
    Proof.
      intros A Q e s. split; [cbn; discriminate |].
      exists []. split; [destruct s; reflexivity | constructor].
    Qed.

Lemma inv_bind : forall {A B} (Q1 : A -> Prop) (Q2 : B -> Prop) m k,
        inv Q1 m -> (forall a, Q1 a -> inv Q2 (k a)) -> inv Q2 (bind m k).
    Proof.
      intros A B Q1 Q2 m k Hm Hk s. unfold bind.
      destruct (Hm s) as [Hr (tr & Hs & Htr)].
      destruct (m s) as [[e | a] s1] eqn:E; cbn in Hr, Hs; subst s1.
      - split; [cbn; discriminate |]. exists tr. auto.
      - destruct (Hk a (Hr a eq_refl) (St (runState s) (tr ++ trace s)))
          as [Hr2 (tr2 & Hs2 & Htr2)].
        split; [exact Hr2 |]. exists (tr2 ++ tr).
        rewrite Hs2. cbn. rewrite app_assoc. split; [reflexivity | now apply Forall_app].
    Qed.

Lemma inv_catch : forall {A} (Q : A -> Prop) m h,
        inv Q m -> (forall e, inv Q (h e)) -> inv Q (catch m h).
    Proof.
      intros A Q m h Hm Hh s. unfold catch.
      destruct (Hm s) as [Hr (tr & Hs & Htr)].
      destruct (m s) as [[e | a] s1] eqn:E; cbn in Hr, Hs; subst s1.
      - destruct (Hh e (St (runState s) (tr ++ trace s))) as [Hr2 (tr2 & Hs2 & Htr2)].
        split; [exact Hr2 |]. exists (tr2 ++ tr).
        rewrite Hs2. cbn. rewrite app_assoc. split; [reflexivity | now apply Forall_app].
      - split; [exact Hr |]. exists tr. auto.
    Qed.

Lemma inv_log : forall e, P e -> inv (fun _ => True) (log e).
    Proof.
      intros e He s. split; [auto |]. exists [e]. split; [reflexivity | now constructor].
    Qed.

Lemma inv_weaken : forall {A} (Q Q' : A -> Prop) m,
        (forall a, Q a -> Q' a) -> inv Q m -> inv Q' m.
    Proof. intros A Q Q' m HQ Hm s. destruct (Hm s) as [Hr H]. auto. Qed.
End Invariant.

Section WithWorld.
Variable w : world.
Variable wd : path.

Lemma inv_fileExists : forall p,
        manifest_ok wd p -> inv (event_ok wd) (fun _ => True) (fileExists w p).
    Proof.
      intros p Hp. unfold fileExists, fs_access.
      apply inv_catch; [| intros; apply inv_ret; exact I].
      apply inv_bind with (Q1 := fun _ => True); [| intros; apply inv_ret; exact I].
      apply inv_bind with (Q1 := fun _ => True); [apply inv_log; exact Hp |].
      intros _ _. destruct (lookup _ p); [apply inv_ret; exact I | apply inv_throw].
    Qed.

Lemma inv_readdir : forall p,
        readdir_ok wd p -> inv (event_ok wd) (fun _ => True) (fs_readdir w p).
    Proof.
      intros p Hp. unfold fs_readdir.
      apply inv_bind with (Q1 := fun _ => True); [apply inv_log; exact Hp |].
      intros _ _.
      destruct (lookup _ p) as [[c | [|] ch] |];
        first [apply inv_ret; exact I | apply inv_throw].
    Qed.

Lemma enters_good : forall n b, enters (n, b) = true -> good_name n = true.
    Proof.
      intros n b H. unfold good_name, enters in *.
      destruct b; [exact H | discriminate].
    Qed.

Lemma inv_findPomFilesRecursive : forall fuel rel acc depth,
        length rel = depth -> forallb good_name rel = true ->
        Forall (manifest_ok wd) acc ->
        inv (event_ok wd) (Forall (manifest_ok wd))
            (findPomFilesRecursive w fuel (wd ++ rel) acc depth).
    Proof.
      induction fuel as [| f IH]; intros rel acc depth Hlen Hgood Hacc;
        cbn [findPomFilesRecursive]; [apply inv_ret; exact Hacc |].
      destruct (Nat.ltb 5 depth) eqn:Hd; [apply inv_ret; exact Hacc |].
      apply Nat.ltb_ge in Hd.
      apply inv_catch; [| intros; apply inv_ret; exact Hacc].
      apply inv_bind with (Q1 := fun _ => True).
      { apply inv_readdir. exists rel. split; [reflexivity | split; [lia | exact Hgood]]. }
      intros entries _. revert acc Hacc.
      induction entries as [| [n isdir] es IHes]; intros acc Hacc;
        [apply inv_ret; exact Hacc |].
      cbv beta iota fix.
      destruct (enters (n, isdir)) eqn:He; [| apply IHes; exact Hacc].
      cbn [fst].
      assert (Hgood' : forallb good_name (rel ++ [n]) = true).
      { rewrite forallb_app, Hgood. cbn [forallb]. rewrite (enters_good n isdir He). reflexivity. }
      assert (Hlen' : (length (rel ++ [n]) <= 6)%nat).
      { rewrite length_app. cbn. lia. }
      apply inv_bind with (Q1 := fun _ => True).
      { apply inv_fileExists. exists (rel ++ [n]).
        split; [now rewrite <- !app_assoc | split; [exact Hlen' | exact Hgood']]. }
      intros ex _.
      apply inv_bind with (Q1 := Forall (manifest_ok wd)).
      { replace ((wd ++ rel) ++ [n]) with (wd ++ (rel ++ [n])) by apply app_assoc.
        apply IH; [rewrite length_app; cbn; lia | exact Hgood' |].
        destruct ex; [| exact Hacc].
        apply Forall_app. split; [exact Hacc |]. constructor; [| constructor].
        exists (rel ++ [n]). split; [now rewrite <- !app_assoc | split; [exact Hlen' | exact Hgood']]. }
      intros acc2 Hacc2. apply IHes. exact Hacc2.
    Qed.
End WithWorld.

  (** Claim C6 (as the code has it): [findPomFiles] lists with [readdir]
      only the working directory and directories at most 5 levels below it,
      probes ([fs.access]) and returns only [pom.xml] files in the working
      directory or at most 6 levels below it, and every directory on these
      paths below the working directory is neither hidden nor "target". *)
Theorem scanner_stays_in_bounds : forall w inp s,
      (forall ps, fst (findPomFiles w inp s) = inr ps ->
                  Forall (manifest_ok (workingDirectory inp)) ps) /\
      exists tr, trace (snd (findPomFiles w inp s)) = tr ++ trace s /\
                 Forall (event_ok (workingDirectory inp)) tr.
  Proof.
    intros w inp s.
    set (wd := workingDirectory inp).
    assert (Hroot : manifest_ok wd (wd ++ ["pom.xml"])).
    { exists []. split; [reflexivity | split; [cbn; lia | reflexivity]]. }
    assert (H : inv (event_ok wd) (Forall (manifest_ok wd)) (findPomFiles w inp)).
    { unfold findPomFiles. fold wd.
      apply inv_bind with (Q1 := fun _ => True); [apply inv_fileExists; exact Hroot |].
      intros ex _.
      assert (Hpf : Forall (manifest_ok wd) (if ex then [wd ++ ["pom.xml"]] else [])).
      { destruct ex; repeat constructor; exact Hroot. }
      apply inv_catch; [| intros; apply inv_ret; exact Hpf].
      pose proof (inv_findPomFilesRecursive w wd 7 [] _ 0 eq_refl eq_refl Hpf) as Hf.
      rewrite app_nil_r in Hf. exact Hf. }
    destruct (H s) as [Hr (tr & Hs & Htr)].
    split; [exact Hr |]. exists tr. rewrite Hs. split; [reflexivity | exact Htr].
  Qed.

End ScannerFacts.

(* ================================================================= *)
(** ** Environment manager: detection, installation and version order *)

Module EnvClaims.
Import Env SpecOrder.


Lemma getCurrentJavaVersion_total : forall w s,
      exists d, fst (getCurrentJavaVersion w s) = inr d.
  Proof.
    intros w s. unfold getCurrentJavaVersion, catch at 1.
    match goal with |- context [match ?m s with _ => _ end] =>
      destruct (m s) as [[e | d] s'] end; eexists; reflexivity.
  Qed.

Lemma getCurrentMavenVersion_total : forall w s,
      exists d, fst (getCurrentMavenVersion w s) = inr d.
  Proof.
    intros w s. unfold getCurrentMavenVersion, catch at 1.
    match goal with |- context [match ?m s with _ => _ end] =>
      destruct (m s) as [[e | d] s'] end; eexists; reflexivity.
  Qed.

Lemma setupJava_unfold : forall w inp s,
      setupJava w inp s =
      match getCurrentJavaVersion w s with
      | (inr (JavaAvailable v _ vendor javaHome), s') =>
          (inr (if isJavaVersionCompatible inp v
                then Outcome "existing" v (Some vendor) None javaHome None
                else Outcome "warning" v (Some vendor) None javaHome
                       (Some ("Version mismatch: current " ++ v ++ ", required "
                              ++ javaVersion inp))), s')
      | (inr _, s') => installJava w inp s'
      | (inl e, s') => (inl e, s')
      end.
  Proof.
    intros w inp s. unfold setupJava, catch at 1, bind at 1.
    destruct (getCurrentJavaVersion w s) as [[e | [| v fv vendor h | v h]] s']; cbn;
      first [reflexivity
            | destruct (isJavaVersionCompatible _ _); reflexivity
            | destruct (installJava w inp s') as [[|] ?]; reflexivity].
  Qed.

Lemma setupMaven_unfold : forall w inp s,
      setupMaven w inp s =
      match getCurrentMavenVersion w s with
      | (inr (MavenAvailable v mavenHome), s') =>
          (inr (if isMavenVersionCompatible inp v
                then Outcome "existing" v None None mavenHome None
                else Outcome "warning" v None None mavenHome
                       (Some ("Version mismatch: current " ++ v ++ ", required "
                              ++ mavenVersion inp))), s')
      | (inr _, s') => installMaven w inp s'
      | (inl e, s') => (inl e, s')
      end.
  Proof.
    intros w inp s. unfold setupMaven, catch at 1, bind at 1.
    destruct (getCurrentMavenVersion w s) as [[e | [| v fv vendor h | v h]] s']; cbn;
      first [reflexivity
            | destruct (isMavenVersionCompatible _ _); reflexivity
            | destruct (installMaven w inp s') as [[|] ?]; reflexivity].
  Qed.

  (** Claim C8: when detection finds Java (or Maven) at a version that is
      not compatible with the required one, [setupJava] ([setupMaven])
      returns the "warning" outcome for the detected tool, whose warning
      names the detected and the required version; nothing is thrown and
      nothing runs after detection (the state is the one detection left, so
      no installation step ran). *)
Theorem incompatible_tool_warns :
    (forall w inp s v fv vendor javaHome,
        fst (getCurrentJavaVersion w s) = inr (JavaAvailable v fv vendor javaHome) ->
        isJavaVersionCompatible inp v = false ->
        setupJava w inp s =
        (inr (Outcome "warning" v (Some vendor) None javaHome
                (Some ("Version mismatch: current " ++ v ++ ", required " ++ javaVersion inp))),
         snd (getCurrentJavaVersion w s))) /\
    (forall w inp s v mavenHome,
        fst (getCurrentMavenVersion w s) = inr (MavenAvailable v mavenHome) ->
        isMavenVersionCompatible inp v = false ->
        setupMaven w inp s =
        (inr (Outcome "warning" v None None mavenHome
                (Some ("Version mismatch: current " ++ v ++ ", required " ++ mavenVersion inp))),
         snd (getCurrentMavenVersion w s))).
  Proof.
    split.
    - intros w inp s v fv vendor javaHome Hd Hc. rewrite setupJava_unfold.
      destruct (getCurrentJavaVersion w s) as [r s']. cbn in Hd. subst r.
      rewrite Hc. reflexivity.
    - intros w inp s v mavenHome Hd Hc. rewrite setupMaven_unfold.
      destruct (getCurrentMavenVersion w s) as [r s']. cbn in Hd. subst r.
      rewrite Hc. reflexivity.
  Qed.

Lemma detect_java_first : forall w s,
    exists tr, trace (snd (getCurrentJavaVersion w s)) = app tr (EvExec "java" ["-version"] :: trace s).
  Proof.
    intros w s. unfold getCurrentJavaVersion, catch, bind, exec_, ret, getEnv.
    destruct (exec w (pathAdds s) "java" ["-version"]) as [e | code out]; cbn [fst snd trace].
    - exists []. reflexivity.
    - destruct (negb (code =? 0)%Z); [exists []; reflexivity|].
      destruct (Rx.search_group _ _ _ _); [|exists []; reflexivity].
      cbn [trace].
      destruct (negb _); cbn.
      + exists []; reflexivity.
      + destruct (exec w _ _ _); cbn; eexists [_]; reflexivity.
  Qed.

Lemma detect_maven_first : forall w s,
    exists tr, trace (snd (getCurrentMavenVersion w s)) = app tr (EvExec "mvn" ["-version"] :: trace s).
  Proof.
    intros w s. unfold getCurrentMavenVersion, catch, bind, exec_, ret.
    destruct (exec w (pathAdds s) "mvn" ["-version"]) as [e | code out]; cbn [fst snd trace].
    - exists []. reflexivity.
    - destruct (negb (code =? 0)%Z); [exists []; reflexivity|].
      destruct (Rx.search_group _ _ _ _); exists []; reflexivity.
  Qed.

  (** Claim C2 (as the code has it): when the required Java version or
      distribution (Maven version) is not in the supported list,
      [setupJava] ([setupMaven]) first runs detection, so its log starts
      with [java -version] ([mvn -version]).  A detected tool is then used
      and no error is raised; only when no tool is detected does it fail,
      with "Java installation failed: Unsupported ..." ("Maven installation
      failed: ..."), in the state detection left: no tool-cache lookup,
      download or registration happens. *)
Theorem unsupported_detects_first :
    (forall w inp s,
        (includes supportedJavaVersions (javaVersion inp)
         && includes supportedJavaDistributions (javaDistribution inp))%bool = false ->
        (exists tr, trace (snd (setupJava w inp s)) = app tr (EvExec "java" ["-version"] :: trace s)) /\
        setupJava w inp s =
        match getCurrentJavaVersion w s with
        | (inr (JavaAvailable v _ vendor javaHome), s') =>
            (inr (if isJavaVersionCompatible inp v
                  then Outcome "existing" v (Some vendor) None javaHome None
                  else Outcome "warning" v (Some vendor) None javaHome
                         (Some ("Version mismatch: current " ++ v ++ ", required "
                                ++ javaVersion inp))), s')
        | (_, s') =>
            (inl (Error ("Java installation failed: " ++
               (if includes supportedJavaVersions (javaVersion inp)
                then "Unsupported Java distribution: " ++ javaDistribution inp
                       ++ ". Supported: " ++ join_comma supportedJavaDistributions
                else "Unsupported Java version: " ++ javaVersion inp
                       ++ ". Supported: " ++ join_comma supportedJavaVersions))), s')
        end) /\
    (forall w inp s,
        includes supportedMavenVersions (mavenVersion inp) = false ->
        (exists tr, trace (snd (setupMaven w inp s)) = app tr (EvExec "mvn" ["-version"] :: trace s)) /\
        setupMaven w inp s =
        match getCurrentMavenVersion w s with
        | (inr (MavenAvailable v mavenHome), s') =>
            (inr (if isMavenVersionCompatible inp v
                  then Outcome "existing" v None None mavenHome None
                  else Outcome "warning" v None None mavenHome
                         (Some ("Version mismatch: current " ++ v ++ ", required "
                                ++ mavenVersion inp))), s')
        | (_, s') =>
            (inl (Error ("Maven installation failed: " ++
               ("Unsupported Maven version: " ++ mavenVersion inp
                  ++ ". Supported: " ++ join_comma supportedMavenVersions))), s')
        end).
  Proof.
    split.
    - intros w inp s Hu.
      assert (Heq : setupJava w inp s = match getCurrentJavaVersion w s with
        | (inr (JavaAvailable v _ vendor javaHome), s') =>
            (inr (if isJavaVersionCompatible inp v
                  then Outcome "existing" v (Some vendor) None javaHome None
                  else Outcome "warning" v (Some vendor) None javaHome
                         (Some ("Version mismatch: current " ++ v ++ ", required "
                                ++ javaVersion inp))), s')
        | (_, s') =>
            (inl (Error ("Java installation failed: " ++
               (if includes supportedJavaVersions (javaVersion inp)
                then "Unsupported Java distribution: " ++ javaDistribution inp
                       ++ ". Supported: " ++ join_comma supportedJavaDistributions
                else "Unsupported Java version: " ++ javaVersion inp
                       ++ ". Supported: " ++ join_comma supportedJavaVersions))), s')
        end).
      { rewrite setupJava_unfold.
        destruct (getCurrentJavaVersion_total w s) as [d Hd].
        destruct (getCurrentJavaVersion w s) as [r s']. cbn in Hd. subst r.
        assert (Hi : installJava w inp s' = (inl (Error ("Java installation failed: " ++
               (if includes supportedJavaVersions (javaVersion inp)
                then "Unsupported Java distribution: " ++ javaDistribution inp
                       ++ ". Supported: " ++ join_comma supportedJavaDistributions
                else "Unsupported Java version: " ++ javaVersion inp
                       ++ ". Supported: " ++ join_comma supportedJavaVersions))), s')).
        { unfold installJava, catch, requiredJavaVersion, requiredJavaDistribution.
          destruct (includes supportedJavaVersions (javaVersion inp)); cbn in Hu |- *;
            [rewrite Hu |]; reflexivity. }
        destruct d; try exact Hi; reflexivity. }
      split; [| exact Heq].
      destruct (detect_java_first w s) as [tr Htr]. exists tr. rewrite Heq.
      destruct (getCurrentJavaVersion w s) as [[e | [| v fv vd h | v h]] s'];
        exact Htr.
    - intros w inp s Hu.
      assert (Heq : setupMaven w inp s = match getCurrentMavenVersion w s with
        | (inr (MavenAvailable v mavenHome), s') =>
            (inr (if isMavenVersionCompatible inp v
                  then Outcome "existing" v None None mavenHome None
                  else Outcome "warning" v None None mavenHome
                         (Some ("Version mismatch: current " ++ v ++ ", required "
                                ++ mavenVersion inp))), s')
        | (_, s') =>
            (inl (Error ("Maven installation failed: " ++
               ("Unsupported Maven version: " ++ mavenVersion inp
                  ++ ". Supported: " ++ join_comma supportedMavenVersions))), s')
        end).
      { rewrite setupMaven_unfold.
        destruct (getCurrentMavenVersion_total w s) as [d Hd].
        destruct (getCurrentMavenVersion w s) as [r s']. cbn in Hd. subst r.
        assert (Hi : installMaven w inp s' = (inl (Error ("Maven installation failed: " ++
               ("Unsupported Maven version: " ++ mavenVersion inp
                  ++ ". Supported: " ++ join_comma supportedMavenVersions))), s')).
        { unfold installMaven, catch, requiredMavenVersion. rewrite Hu. reflexivity. }
        destruct d; try exact Hi; reflexivity. }
      split; [| exact Heq].
      destruct (detect_maven_first w s) as [tr Htr]. exists tr. rewrite Heq.
      destruct (getCurrentMavenVersion w s) as [[e | [| v fv vd h | v h]] s'];
        exact Htr.
  Qed.


Lemma leading_digits_app_dot : forall d r,
      forallb is_digit (list_ascii_of_string d) = true ->
      leading_digits (d ++ "." ++ r) = d.
  Proof.
    induction d as [| c d IH]; intros r H; [reflexivity |].
    cbn in H |- *. apply andb_prop in H as [Hc Hd].
    rewrite Hc. f_equal. exact (IH r Hd).
  Qed.

Lemma prefix_one_char : forall a c y z,
      String.prefix (String a EmptyString) (String c y)
      = String.prefix (String a EmptyString) (String c z).
  Proof. intros a c y z. cbn. destruct (ascii_dec a c); destruct y, z; reflexivity. Qed.

  (** Claim C4 (as the code has it): [extractMajorJavaVersion] gives "8" for
      every "1.8.0_<build>", the leading component [d] of every modern
      "d.<rest>" (with [d] a nonempty digit string, other than the "1.8"
      prefix), and "1" for every other legacy "1.X.0_<build>" whose X does
      not start with 8. *)
Theorem extractMajor_forms :
    (forall build, extractMajorJavaVersion ("1.8.0_" ++ build) = "8") /\
    (forall d rest, SpecOrder.is_component d = true ->
       startsWith (d ++ "." ++ rest) "1.8" = false ->
       extractMajorJavaVersion (d ++ "." ++ rest) = d) /\
    (forall x build, startsWith x "8" = false ->
       extractMajorJavaVersion ("1." ++ x ++ ".0_" ++ build) = "1").
  Proof.
    split; [| split].
    - intros b. reflexivity.
    - intros d r Hc Hs. unfold extractMajorJavaVersion. rewrite Hs.
      unfold SpecOrder.is_component in Hc. apply andb_prop in Hc as [Hne Hd].
      rewrite (leading_digits_app_dot d r Hd).
      apply negb_true_iff in Hne. rewrite Hne. reflexivity.
    - intros x b Hx. unfold extractMajorJavaVersion, startsWith in *.
      destruct x as [| c x]; [reflexivity |].
      change (String.prefix "1.8" ("1." ++ String c x ++ ".0_" ++ b))
        with (String.prefix "8" (String c (x ++ ".0_" ++ b))).
      rewrite (prefix_one_char "8" c (x ++ ".0_" ++ b) x), Hx. reflexivity.
  Qed.


Lemma digit_cases : forall a, is_digit a = true ->
      a = "0"%char \/ a = "1"%char \/ a = "2"%char \/ a = "3"%char \/ a = "4"%char \/
      a = "5"%char \/ a = "6"%char \/ a = "7"%char \/ a = "8"%char \/ a = "9"%char.
  Proof.
    intros [[] [] [] [] [] [] [] []] H; cbv in H; try discriminate;
      repeat (first [left; reflexivity | right]); reflexivity.
  Qed.

Ltac digit_case H :=
    let a := fresh in
    repeat (destruct H as [a | H]; [subst; try reflexivity |]); subst; try reflexivity.

Lemma digit_not_space : forall a, is_digit a = true -> JsNumber.is_space a = false.
  Proof. intros a H. apply digit_cases in H. digit_case H. Qed.

Lemma digit_not_dot : forall a, is_digit a = true -> Ascii.eqb a "." = false.
  Proof. intros a H. apply digit_cases in H. digit_case H. Qed.

Lemma digit_in_10 : forall a, is_digit a = true ->
      JsNumber.digit_in 10 a = Some (digit_val a).
  Proof. intros a H. apply digit_cases in H. digit_case H. Qed.

Lemma trim_start_digits : forall a r, is_digit a = true ->
      JsNumber.trim_start (String a r) = String a r.
  Proof. intros a r H. cbn. rewrite (digit_not_space a H). reflexivity. Qed.

Lemma trim_component : forall c, is_component c = true -> JsNumber.trim c = c.
  Proof.
    intros c Hc. unfold is_component in Hc. apply andb_prop in Hc as [Hne Hd].
    destruct c as [| a r]; [discriminate |].
    unfold JsNumber.trim.
    assert (Ha : is_digit a = true) by (cbn in Hd; apply andb_prop in Hd; apply Hd).
    rewrite (trim_start_digits a r Ha).
    set (l := list_ascii_of_string (String a r)) in *.
    assert (Hrev : forallb is_digit (rev l) = true).
    { apply forallb_forall. intros x Hx. apply in_rev in Hx.
      rewrite forallb_forall in Hd. apply Hd, Hx. }
    destruct (rev l) as [| b t] eqn:Hl.
    - apply (f_equal (@length ascii)) in Hl. rewrite length_rev in Hl. discriminate.
    - cbn [string_of_list_ascii]. cbn in Hrev. apply andb_prop in Hrev as [Hb _].
      rewrite (trim_start_digits b _ Hb).
      change (String b (string_of_list_ascii t)) with (string_of_list_ascii (b :: t)).
      rewrite list_ascii_of_string_of_list_ascii, <- Hl, rev_involutive.
      apply string_of_list_ascii_of_string.
  Qed.

Lemma digits_prefix_digits : forall c acc k,
      forallb is_digit (list_ascii_of_string c) = true ->
      JsNumber.digits_prefix 10 c acc k = (dec_value_acc c acc, (k + String.length c)%nat).
  Proof.
    induction c as [| a c IH]; intros acc k H; cbn in *.
    - rewrite Nat.add_0_r. reflexivity.
    - apply andb_prop in H as [Ha Hc]. rewrite (digit_in_10 a Ha), (IH _ _ Hc).
      f_equal. lia.
  Qed.

Lemma Number_component : forall c, is_component c = true ->
      (dec_value c < 2 ^ 53)%Z -> JsNumber.Number c = JsNumber.Fin (dec_value c).
  Proof.
    intros c Hc Hlt.
    assert (Hall : JsNumber.all_digits 10 c = Some (dec_value c)).
    { unfold is_component in Hc. apply andb_prop in Hc as [Hne Hd].
      unfold JsNumber.all_digits. rewrite (digits_prefix_digits c 0 0 Hd).
      destruct c as [| a r]; [discriminate |]. cbn [Nat.add].
      rewrite Nat.eqb_refl. reflexivity. }
    assert (Hr : JsNumber.round_nonneg (dec_value c) = JsNumber.Fin (dec_value c)).
    { unfold JsNumber.round_nonneg. apply Z.ltb_lt in Hlt. rewrite Hlt. reflexivity. }
    transitivity (match JsNumber.all_digits 10 c with
                  | Some v => JsNumber.round_nonneg v | None => JsNumber.NaN end);
      [| rewrite Hall, Hr; reflexivity].
    unfold JsNumber.Number. rewrite (trim_component c Hc).
    unfold is_component in Hc. apply andb_prop in Hc as [Hne Hd].
    destruct c as [| a r]; [discriminate |].
    cbn in Hd. apply andb_prop in Hd as [Ha Hd].
    apply digit_cases in Ha.
    repeat (destruct Ha as [Ha | Ha]; [subst; try reflexivity |]); subst; try reflexivity.
    destruct r as [| x r]; [reflexivity |].
    cbn in Hd. apply andb_prop in Hd as [Hx _]. apply digit_cases in Hx.
    repeat (destruct Hx as [Hx | Hx]; [subst; reflexivity |]); subst; reflexivity.
  Qed.

Lemma split_nodot_app : forall c r,
      forallb is_digit (list_ascii_of_string c) = true ->
      split_char "." (c ++ String "." r) = c :: split_char "." r.
  Proof.
    induction c as [| a c IH]; intros r H; [reflexivity |].
    cbn in H. apply andb_prop in H as [Ha Hc].
    cbn [append split_char]. rewrite (digit_not_dot a Ha), (IH r Hc). reflexivity.
  Qed.

Lemma split_nodot : forall c,
      forallb is_digit (list_ascii_of_string c) = true -> split_char "." c = [c].
  Proof.
    induction c as [| a c IH]; intros H; [reflexivity |].
    cbn in H. apply andb_prop in H as [Ha Hc].
    cbn [split_char]. rewrite (digit_not_dot a Ha), (IH Hc). reflexivity.
  Qed.

Lemma split_join_dot : forall cs, cs <> [] -> Forall (fun c => is_component c = true) cs ->
      split_char "." (join_dot cs) = cs.
  Proof.
    induction cs as [| c cs IH]; intros Hne Hf; [congruence |].
    inversion Hf as [| ? ? Hc Hcs]; subst.
    unfold is_component in Hc. apply andb_prop in Hc as [_ Hd].
    destruct cs as [| c' cs'].
    - apply split_nodot, Hd.
    - change (join_dot (c :: c' :: cs')) with (c ++ String "." (join_dot (c' :: cs'))).
      rewrite (split_nodot_app c _ Hd), IH; [reflexivity | discriminate | exact Hcs].
  Qed.

Lemma map_Number_components : forall cs,
      Forall (fun c => is_component c = true /\ (dec_value c < 2 ^ 53)%Z) cs ->
      map JsNumber.Number cs = map (fun c => JsNumber.Fin (dec_value c)) cs.
  Proof.
    intros cs Hf. apply map_ext_Forall.
    eapply Forall_impl; [| exact Hf]. intros c [Hc Hlt]. apply Number_component; assumption.
  Qed.

Lemma part_or_0_fin : forall (xs : list Z) i,
      part_or_0 (nth_error (map JsNumber.Fin xs) i) = JsNumber.Fin (nth i xs 0%Z).
  Proof.
    induction xs as [| x xs IH]; intros [| i]; cbn; try reflexivity. apply IH.
  Qed.

Lemma mavenPartsLoop_lex : forall n i xs ys,
      mavenPartsLoop n i (map JsNumber.Fin xs) (map JsNumber.Fin ys)
      = lex_ge (map (fun j => nth j xs 0%Z) (seq i n)) (map (fun j => nth j ys 0%Z) (seq i n)).
  Proof.
    induction n as [| n IH]; intros i xs ys; [reflexivity |].
    cbn [mavenPartsLoop seq map lex_ge].
    rewrite !part_or_0_fin, IH. reflexivity.
  Qed.

Lemma map_const_seq : forall a n, map (fun _ : nat => 0%Z) (seq a n) = repeat 0%Z n.
  Proof. intros a n. revert a. induction n; intros a; cbn; [reflexivity | rewrite IHn; reflexivity]. Qed.

Lemma pad_to_nth : forall xs n, (length xs <= n)%nat ->
      pad_to n xs = map (fun j => nth j xs 0%Z) (seq 0 n).
  Proof.
    unfold pad_to. induction xs as [| x xs IH]; intros n Hn.
    - cbn. rewrite Nat.sub_0_r. symmetry.
      rewrite (map_ext _ (fun _ => 0%Z)) by (intros [|]; reflexivity).
      apply map_const_seq.
    - destruct n as [| n]; [cbn in Hn; lia |].
      cbn [seq map length]. cbn [Nat.sub].
      rewrite <- seq_shift, map_map. cbn [nth].
      rewrite <- app_comm_cons, IH by (cbn in Hn; lia). reflexivity.
  Qed.

Lemma lex_ge_refl : forall xs, lex_ge xs xs = true.
  Proof. induction xs as [| x xs IH]; cbn; [reflexivity | rewrite Z.ltb_irrefl; exact IH]. Qed.

Lemma components_of : forall cs,
      Forall (fun c => is_component c = true /\ (dec_value c < 2 ^ 53)%Z) cs ->
      Forall (fun c => is_component c = true) cs.
  Proof. intros cs H. eapply Forall_impl; [| exact H]. intros c [Hc _]. exact Hc. Qed.

Lemma backward_compatible_dotted : forall cs rs,
      cs <> [] -> rs <> [] ->
      Forall (fun c => is_component c = true /\ (dec_value c < 2 ^ 53)%Z) cs ->
      Forall (fun c => is_component c = true /\ (dec_value c < 2 ^ 53)%Z) rs ->
      isMavenVersionBackwardCompatible (join_dot cs) (join_dot rs)
      = dotted_ge (map dec_value cs) (map dec_value rs).
  Proof.
    intros cs rs Hc Hr Hfc Hfr.
    unfold isMavenVersionBackwardCompatible.
    rewrite !split_join_dot by (assumption || (eapply components_of; eassumption)).
    rewrite (map_Number_components cs Hfc), (map_Number_components rs Hfr).
    rewrite <- (map_map dec_value JsNumber.Fin cs), <- (map_map dec_value JsNumber.Fin rs).
    rewrite !length_map, mavenPartsLoop_lex.
    unfold dotted_ge. rewrite !length_map.
    rewrite !pad_to_nth by (rewrite length_map; lia). reflexivity.
  Qed.

  (** Claim C7 (as the code has it): for dotted versions whose components
      are nonempty digit strings of value below 2^53, [isMavenVersionCompatible]
      agrees with the component-wise order of the spec ([dotted_ge], missing
      components read as 0).  Above 2^53 the code compares the components
      rounded to doubles. *)
Theorem maven_compatible_is_dotted_ge : forall inp cs rs,
      mavenVersion inp = join_dot rs ->
      cs <> [] -> rs <> [] ->
      Forall (fun c => is_component c = true /\ (dec_value c < 2 ^ 53)%Z) cs ->
      Forall (fun c => is_component c = true /\ (dec_value c < 2 ^ 53)%Z) rs ->
      isMavenVersionCompatible inp (join_dot cs)
      = dotted_ge (map dec_value cs) (map dec_value rs).
  Proof.
    intros inp cs rs Hreq Hc Hr Hfc Hfr.
    unfold isMavenVersionCompatible, requiredMavenVersion. rewrite Hreq.
    rewrite (backward_compatible_dotted cs rs Hc Hr Hfc Hfr).
    destruct (String.eqb_spec (join_dot cs) (join_dot rs)) as [Heq | _]; [| reflexivity].
    cbn [orb].
    assert (cs = rs) as ->.
    { rewrite <- (split_join_dot cs), <- (split_join_dot rs), Heq;
        try reflexivity; (assumption || (eapply components_of; eassumption)). }
    unfold dotted_ge. rewrite lex_ge_refl. reflexivity.
  Qed.

End EnvClaims.

(* ================================================================= *)
(** ** Maven commands *)

Module MvnFacts.
Import Mvn.

Definition mavenOperations : list string :=
  ["validate"; "compile"; "test"; "package"; "verify"; "install"; "deploy"].

Lemma executeMavenCommand_trace : forall w inp phase extra tr,
    snd (executeMavenCommand w inp phase extra tr) =
    EvExec "mvn" (tl (commandArgs inp phase extra)) (workingDirectory inp) :: tr.
Proof.
  intros. unfold executeMavenCommand, catch, bind, exec_.
  destruct (which w _) as [e | p]; [reflexivity |].
  destruct (run w _ _ _) as [e | c]; [reflexivity |].
  destruct (Z.eqb_spec c 0) as [-> | Hc]; reflexivity.
Qed.

Ltac phase_case X :=
  let H := fresh in
  assert (H : includes mavenOperations X = true) by reflexivity; rewrite H; clear H.

(** executeMavenOperation runs exactly one [mvn] command for each of the seven
    known operations, with the phase name, the settings file, [-DskipTests] for
    the phases after compile when tests are skipped, the user's arguments and
    [-B -V]; any other operation is rejected without running anything. *)
Theorem executeMavenOperation_runs_phase : forall w inp op tr,
    if includes mavenOperations op then
      snd (executeMavenOperation w inp op tr) =
      EvExec "mvn"
        (op :: app (if Artifacts.truthy (settingsFile inp) then ["-s"; settingsFile inp] else [])
          (app (if (skipTests inp && negb (includes ["validate"; "compile"] op))%bool
                then ["-DskipTests"] else [])
            (app (if Artifacts.truthy (mavenArgs inp) then split_char " " (mavenArgs inp) else [])
                 ["-B"; "-V"])))
        (workingDirectory inp) :: tr
    else executeMavenOperation w inp op tr = (inl (Error ("Unsupported Maven operation: " ++ op)), tr).
Proof.
  intros w inp op tr. unfold executeMavenOperation.
  destruct (String.eqb_spec op "validate");
    [subst; phase_case "validate"; unfold validate; rewrite executeMavenCommand_trace;
     destruct (skipTests inp); reflexivity|].
  destruct (String.eqb_spec op "compile");
    [subst; phase_case "compile"; unfold compile; rewrite executeMavenCommand_trace;
     destruct (skipTests inp); reflexivity|].
  destruct (String.eqb_spec op "test");
    [subst; phase_case "test"; unfold test, skipArgs; rewrite executeMavenCommand_trace;
     destruct (skipTests inp); reflexivity|].
  destruct (String.eqb_spec op "package");
    [subst; phase_case "package"; unfold package, skipArgs; rewrite executeMavenCommand_trace;
     destruct (skipTests inp); reflexivity|].
  destruct (String.eqb_spec op "verify");
    [subst; phase_case "verify"; unfold verify, skipArgs; rewrite executeMavenCommand_trace;
     destruct (skipTests inp); reflexivity|].
  destruct (String.eqb_spec op "install");
    [subst; phase_case "install"; unfold install, skipArgs; rewrite executeMavenCommand_trace;
     destruct (skipTests inp); reflexivity|].
  destruct (String.eqb_spec op "deploy");
    [subst; phase_case "deploy"; unfold deploy, skipArgs; rewrite executeMavenCommand_trace;
     destruct (skipTests inp); reflexivity|].
  unfold includes, mavenOperations. cbn [existsb].
  repeat match goal with H : op <> ?x |- _ =>
    apply String.eqb_neq in H; rewrite H; clear H end.
  reflexivity.
Qed.

(** executeMavenCommand succeeds only when the resolved [mvn] exits with
    code 0, and then returns a successful result for the phase with exit
    code 0.  A non-zero exit code is rejected by [exec.exec] itself, with
    "The process '<path>' failed with exit code <code>", and that error is
    rethrown unchanged; so is an error resolving or starting [mvn]. *)
Theorem executeMavenCommand_outcome : forall w inp phase extra,
    let args := tl (commandArgs inp phase extra) in
    (forall tr r tr', executeMavenCommand w inp phase extra tr = (inr r, tr') ->
       r = Result true phase 0 /\
       exists toolPath, which w "mvn" = inr toolPath /\
         run w toolPath args (workingDirectory inp) = inr 0) /\
    (forall tr toolPath code, which w "mvn" = inr toolPath ->
       run w toolPath args (workingDirectory inp) = inr code -> code <> 0 ->
       fst (executeMavenCommand w inp phase extra tr) =
       inl (Error ("The process '" ++ toolPath ++ "' failed with exit code "
                   ++ JsText.to_dec code))) /\
    (forall tr e, which w "mvn" = inl e ->
       fst (executeMavenCommand w inp phase extra tr) = inl e) /\
    (forall tr toolPath e, which w "mvn" = inr toolPath ->
       run w toolPath args (workingDirectory inp) = inl e ->
       fst (executeMavenCommand w inp phase extra tr) = inl e).
Proof.
  intros w inp phase extra args. unfold args.
  unfold executeMavenCommand, catch, bind, exec_; cbv zeta;
    change (hd EmptyString (commandArgs inp phase extra)) with "mvn".
  refine (conj _ (conj _ (conj _ _))).
  - intros tr r tr'.
    destruct (which w "mvn") as [e | p]; [discriminate |].
    destruct (run w p _ _) as [e | c] eqn:Hr; [discriminate |].
    destruct (Z.eqb_spec c 0); [| discriminate].
    subst c. intros H. vm_compute in H. inversion H. subst.
    split; [reflexivity |]. exists p. auto.
  - intros tr p code Hw Hr Hc. rewrite Hw, Hr. apply Z.eqb_neq in Hc. rewrite Hc. reflexivity.
  - intros tr e Hw. rewrite Hw. reflexivity.
  - intros tr p e Hw Hr. rewrite Hw, Hr. reflexivity.
Qed.
End MvnFacts.

(* ================================================================= *)
(** ** Artifact handling *)

Module ArtifactFacts.
Import Artifacts.

Definition nl : string := String (ascii_of_nat 10) EmptyString.

Lemma list_ascii_app : forall a b,
    list_ascii_of_string (a ++ b) = app (list_ascii_of_string a) (list_ascii_of_string b).
Proof. induction a as [| c a IH]; intros b; cbn; [reflexivity | now rewrite IH]. Qed.

Lemma trim_start_nonspace : forall c r, JsNumber.is_space c = false ->
    JsNumber.trim_start (String c r) = String c r.
Proof. intros c r H. cbn. now rewrite H. Qed.

  (** Trimming a line with non-blank ends and its line feed gives the line. *)
Lemma trim_line : forall c r p d,
    JsNumber.is_space c = false -> JsNumber.is_space d = false ->
    String c r = p ++ String d EmptyString ->
    JsNumber.trim (String c r ++ nl) = String c r.
Proof.
  intros c r p d Hc Hd Heq. unfold JsNumber.trim.
  change (String c r ++ nl) with (String c (r ++ nl)).
  rewrite (trim_start_nonspace c (r ++ nl) Hc).
  change (String c (r ++ nl)) with (String c r ++ nl).
  rewrite Heq, !list_ascii_app, !rev_app_distr.
  change (list_ascii_of_string nl) with [ascii_of_nat 10].
  change (list_ascii_of_string (String d EmptyString)) with [d].
  cbn [rev app string_of_list_ascii JsNumber.trim_start].
  assert (Hnl : JsNumber.is_space (ascii_of_nat 10) = true) by reflexivity.
  rewrite Hnl.
  rewrite Hd.
  cbn [list_ascii_of_string]. rewrite list_ascii_of_string_of_list_ascii.
  change (d :: rev (list_ascii_of_string p))
    with (rev (list_ascii_of_string (String d EmptyString)) ++ rev (list_ascii_of_string p))%list.
  rewrite <- rev_app_distr, rev_involutive, <- list_ascii_app.
  apply string_of_list_ascii_of_string.
Qed.

Lemma str_app_assoc : forall a b c, (a ++ b) ++ c = a ++ (b ++ c).
Proof. induction a as [| x a IH]; intros b c; cbn; [reflexivity | now rewrite IH]. Qed.

Lemma dec_digits_suffix : forall f n acc,
    exists p, JsText.dec_digits f n acc = p ++ acc.
Proof.
  induction f as [| f IH]; intros n acc; cbn [JsText.dec_digits].
  - exists EmptyString. reflexivity.
  - destruct (n <? 10)%Z.
    + eexists (String _ EmptyString). reflexivity.
    + destruct (IH (n / 10)%Z (String (ascii_of_nat (48 + Z.to_nat (n mod 10))) acc)) as [p Hp].
      rewrite Hp. exists (p ++ String (ascii_of_nat (48 + Z.to_nat (n mod 10))) EmptyString).
      rewrite str_app_assoc. reflexivity.
Qed.

Lemma digit_char_not_space : forall k, (k < 10)%nat ->
    JsNumber.is_space (ascii_of_nat (48 + k)) = false.
Proof.
  intros k Hk. do 10 (destruct k as [| k]; [reflexivity |]). lia.
Qed.

  (** [`${n}`] for [n >= 0] ends with a digit. *)
Lemma to_dec_last : forall n, (0 <= n)%Z ->
    exists p d, JsText.to_dec n = p ++ String d EmptyString /\ JsNumber.is_space d = false.
Proof.
  intros n Hn. unfold JsText.to_dec.
  assert (Hlt : (n <? 0)%Z = false) by (apply Z.ltb_ge; lia). rewrite Hlt.
  cbn [JsText.dec_digits].
  assert (Hd : JsNumber.is_space (ascii_of_nat (48 + Z.to_nat (n mod 10))) = false).
  { apply digit_char_not_space.
    assert (0 <= n mod 10 < 10)%Z by (apply Z.mod_pos_bound; lia). lia. }
  destruct (n <? 10)%Z.
  - exists EmptyString. eexists. split; [reflexivity | exact Hd].
  - destruct (dec_digits_suffix (Z.to_nat (Z.log2 n)) (n / 10)%Z
       (String (ascii_of_nat (48 + Z.to_nat (n mod 10))) EmptyString)) as [p Hp].
    rewrite Hp. exists p. eexists. split; [reflexivity | exact Hd].
Qed.

Lemma summary_line : forall pre n,
    (0 <= n)%Z -> (exists c r, pre = String c r /\ JsNumber.is_space c = false) ->
    JsNumber.trim (pre ++ JsText.to_dec n ++ nl) = pre ++ JsText.to_dec n.
Proof.
  intros pre n Hn (c & r & -> & Hc).
  destruct (to_dec_last n Hn) as (p & d & Hp & Hd).
  rewrite <- str_app_assoc. cbn [append].
  apply (trim_line c (r ++ JsText.to_dec n) (String c r ++ p) d Hc Hd).
  rewrite Hp, str_app_assoc. reflexivity.
Qed.

Lemma empty_app : forall x, EmptyString ++ x = x.
Proof. reflexivity. Qed.

(** getArtifactSummary reports no artifacts for an empty list, and otherwise one
    line per kind present (JAR count, then WAR count), or the generic line when
    neither kind is present. *)
Theorem getArtifactSummary_lines : forall ps,
    getArtifactSummary ps =
    match ps with
    | [] => "No artifacts generated"
    | _ =>
        let j := length (filter (fun p => JsText.endsWith p ".jar") ps) in
        let v := length (filter (fun p => JsText.endsWith p ".war") ps) in
        match j, v with
        | O, O => "Artifacts generated"
        | _, O => "JAR files: " ++ JsText.to_dec (Z.of_nat j)
        | O, _ => "WAR files: " ++ JsText.to_dec (Z.of_nat v)
        | _, _ => "JAR files: " ++ JsText.to_dec (Z.of_nat j) ++ String (ascii_of_nat 10) EmptyString
                  ++ "WAR files: " ++ JsText.to_dec (Z.of_nat v)
        end
    end.
Proof.
  intros ps. unfold getArtifactSummary.
  destruct ps as [| p0 ps0]; [reflexivity |]. cbv zeta. cbn [length Nat.eqb].
  set (l := p0 :: ps0).
  change (String (ascii_of_nat 10) EmptyString) with nl.
  destruct (length (filter (fun p => JsText.endsWith p ".jar") l)) as [| j];
  destruct (length (filter (fun p => JsText.endsWith p ".war") l)) as [| v];
    cbn [Nat.ltb Nat.leb].
  - reflexivity.
  - rewrite empty_app, (summary_line "WAR files: " (Z.of_nat (S v)));
      [reflexivity | lia | do 2 eexists; split; reflexivity].
  - rewrite (summary_line "JAR files: " (Z.of_nat (S j)));
      [reflexivity | lia | do 2 eexists; split; reflexivity].
  - rewrite !str_app_assoc.
    rewrite <- (str_app_assoc "JAR files: " (JsText.to_dec (Z.of_nat (S j)))).
    rewrite <- (str_app_assoc ("JAR files: " ++ JsText.to_dec (Z.of_nat (S j))) nl).
    rewrite <- (str_app_assoc (("JAR files: " ++ JsText.to_dec (Z.of_nat (S j))) ++ nl) "WAR files: ").
    rewrite (summary_line _ (Z.of_nat (S v)));
      [| lia | do 2 eexists; split; reflexivity].
    rewrite !str_app_assoc. reflexivity.
Qed.

Lemma deployArtifacts_effect : forall inp ps tr,
    deployArtifacts inp ps tr =
    (inr tt,
     if (truthy (deployTarget inp) && truthy (deployUrl inp)
         && negb (includes ["nexus"; "artifactory"; "github-packages"]
                           (Rx.lower_string (deployTarget inp))))%bool
     then EvSetFailed ("Deployment failed: Unsupported deployment target: " ++ deployTarget inp) :: tr
     else tr).
Proof.
  intros inp ps tr. unfold deployArtifacts.
  destruct (truthy (deployTarget inp)), (truthy (deployUrl inp)); cbn [negb orb andb];
    try reflexivity.
  unfold catch, includes. cbv zeta. cbn [existsb].
  destruct (Rx.lower_string (deployTarget inp) =? "nexus"); [reflexivity |].
  destruct (Rx.lower_string (deployTarget inp) =? "artifactory"); [reflexivity |].
  destruct (Rx.lower_string (deployTarget inp) =? "github-packages"); reflexivity.
Qed.

(** For an ASCII deploy target: deployArtifacts never throws; it does
    nothing when the target or the URL is empty, and marks the action failed
    exactly when the target, lower-cased, is not one of nexus, artifactory or
    github-packages. *)
Theorem deployArtifacts_reports_unsupported : forall inp ps tr,
    Rx.is_ascii (deployTarget inp) = true ->
    deployArtifacts inp ps tr =
    (inr tt,
     if (truthy (deployTarget inp) && truthy (deployUrl inp)
         && negb (includes ["nexus"; "artifactory"; "github-packages"]
                           (Rx.lower_string (deployTarget inp))))%bool
     then EvSetFailed ("Deployment failed: Unsupported deployment target: " ++ deployTarget inp) :: tr
     else tr).
Proof. intros inp ps tr _. exact (deployArtifacts_effect inp ps tr). Qed.

Lemma uploadArtifacts_ok : forall w inp ps tr,
    exists tr', uploadArtifacts w inp ps tr = (inr tt, tr').
Proof.
  intros w inp ps tr. unfold uploadArtifacts.
  destruct (Nat.eqb (length ps) 0); [eexists; reflexivity |].
  unfold catch at 1.
  match goal with |- context [match ?m tr with _ => _ end] =>
    destruct (m tr) as [[e | []] tr'] end; eexists; reflexivity.
Qed.

Lemma collectArtifacts_ok : forall w inp op tr,
    exists ps tr', collectArtifacts w inp op tr = (inr ps, tr').
Proof.
  intros w inp op tr. unfold collectArtifacts, catch at 1.
  match goal with |- context [match ?m tr with _ => _ end] =>
    destruct (m tr) as [[e | ps] tr'] end; do 2 eexists; reflexivity.
Qed.

(** handleArtifacts returns the artifacts that collectArtifacts found, and does
    nothing after collecting when there are none. *)
Theorem handleArtifacts_returns_collected : forall w inp op tr,
    exists ps tr1, collectArtifacts w inp op tr = (inr ps, tr1) /\
      fst (handleArtifacts w inp op tr) = inr ps /\
      (ps = [] -> snd (handleArtifacts w inp op tr) = tr1).
Proof.
  intros w inp op tr.
  destruct (collectArtifacts_ok w inp op tr) as (ps & tr1 & Hc).
  exists ps, tr1. split; [exact Hc |].
  assert (Hh : exists tr2, handleArtifacts w inp op tr = (inr ps, tr2) /\ (ps = [] -> tr2 = tr1)).
  { unfold handleArtifacts, catch at 1, bind at 1. rewrite Hc.
    destruct (Nat.ltb 0 (length ps)) eqn:Hl.
    - unfold bind at 1 2. destruct (uploadArtifacts_ok w inp ps tr1) as [tr2 Hu]. rewrite Hu.
      destruct (shouldDeploy inp op); [rewrite deployArtifacts_effect |];
        (eexists; split; [reflexivity | intros ->; discriminate]).
    - exists tr1. split; reflexivity. }
  destruct Hh as (tr2 & -> & H2). split; [reflexivity | exact H2].
Qed.

(** When the upload of the build artifacts fails, uploadArtifacts swallows the
    error and uploads nothing else. *)
Theorem uploadArtifacts_stops_after_binary_failure : forall w inp ps e tr,
    let binaryFiles := filter (fun p => (JsText.endsWith p ".jar" || JsText.endsWith p ".war")%bool) ps in
    binaryFiles <> [] ->
    uploadArtifact w "build-artifacts" binaryFiles (workingDirectory inp) false 30 = Some e ->
    uploadArtifacts w inp ps tr =
    (inr tt, EvUpload "build-artifacts" binaryFiles (workingDirectory inp) false 30 :: tr).
Proof.
  intros w inp ps e tr binaryFiles Hne Hup. unfold uploadArtifacts.
  destruct ps as [| p ps']; [contradiction Hne; reflexivity |]. cbn [length Nat.eqb].
  fold binaryFiles.
  destruct binaryFiles as [| b bs] eqn:Hb; [contradiction Hne; reflexivity |].
  cbn [length Nat.ltb Nat.leb].
  unfold catch, bind, uploadArtifact_, log. rewrite Hup. reflexivity.
Qed.

(** collectArtifacts returns no artifacts when the target directory is
    missing, and returns no artifacts at all (not a partial list) when reading
    one of its boolean inputs fails. *)
Theorem collectArtifacts_all_or_nothing : forall w inp op tr,
    let targetDir := Env.join (workingDirectory inp) "target" in
    (access w targetDir = false ->
       collectArtifacts w inp op tr = (inr [], EvAccess targetDir :: tr)) /\
    (forall e, access w targetDir = true ->
       (getBooleanInput w "skip-tests" = inl e \/
        exists b, getBooleanInput w "skip-tests" = inr b /\
                  getBooleanInput w "generate-coverage" = inl e) ->
       fst (collectArtifacts w inp op tr) = inr []).
Proof.
  intros w inp op tr targetDir. split.
  - intros Ha. unfold collectArtifacts, catch, bind, fs_access, log. fold targetDir.
    rewrite Ha. reflexivity.
  - intros e Ha Hb.
    unfold collectArtifacts, fs_access, glob_sync, core_getBooleanInput,
      catch, bind, ret, throw, log.
    fold targetDir. rewrite Ha.
    destruct Hb as [Hs | (b & Hs & Hg)].
    + rewrite Hs. reflexivity.
    + rewrite Hs, Hg.
      destruct (negb b); [destruct (access w (Env.join targetDir "surefire-reports")) |];
        reflexivity.
Qed.
End ArtifactFacts.

(* ================================================================= *)
(** ** Environment setup and verification *)

Module SetupFacts.
Import Env EnvSetup.

Lemma available_cases : forall d, available d = false -> d = NotAvailable.
Proof. intros [] H; [reflexivity | discriminate | discriminate]. Qed.

(** verifyEnvironment returns only available tools, and otherwise fails with
    the Java or the Maven message; when Java is not available it fails before
    looking at Maven. *)
Theorem verifyEnvironment_outcome : forall w s,
    (match fst (verifyEnvironment w s) with
     | inr (j, m) => available j = true /\ available m = true
     | inl e =>
         e = Error "Environment verification failed: Java verification failed - not available after setup"
         \/ e = Error "Environment verification failed: Maven verification failed - not available after setup"
     end) /\
    (fst (getCurrentJavaVersion w s) = inr NotAvailable ->
     verifyEnvironment w s =
     (inl (Error "Environment verification failed: Java verification failed - not available after setup"),
      snd (getCurrentJavaVersion w s))).
Proof.
  intros w s. unfold verifyEnvironment, catch, bind.
  destruct (EnvClaims.getCurrentJavaVersion_total w s) as [j Hj].
  destruct (getCurrentJavaVersion w s) as [rj s1]. cbn [fst] in Hj. subst rj.
  split.
  - destruct (available j) eqn:Ej; cbn [negb].
    + destruct (EnvClaims.getCurrentMavenVersion_total w s1) as [m Hm].
      destruct (getCurrentMavenVersion w s1) as [rm s2]. cbn [fst] in Hm. subst rm.
      destruct (available m) eqn:Em; cbn; auto.
    + cbn. auto.
  - cbn [fst]. intros H. inversion H. reflexivity.
Qed.

(** setupEnvironment marks the action failed exactly once when it fails, with
    the error's message, and not at all when it succeeds; a Java setup failure
    stops it before Maven is looked at. *)
Theorem setupEnvironment_fails_once : forall w inp s f,
    (let '(r, (_, f')) := setupEnvironment w inp (s, f) in
     match r with
     | inl e => f' = ("Environment setup failed: " ++ exn_msg e) :: f
     | inr _ => f' = f
     end) /\
    (forall e, fst (setupJava w inp s) = inl e ->
     setupEnvironment w inp (s, f) =
     (inl e, (snd (setupJava w inp s), ("Environment setup failed: " ++ exn_msg e) :: f))).
Proof.
  intros w inp s f. unfold setupEnvironment, catch, bind, lift, core_setFailed, throw, ret.
  destruct (setupJava w inp s) as [[e | j] s1]; split.
  - reflexivity.
  - cbn. intros e' H. inversion H. reflexivity.
  - destruct (setupMaven w inp s1) as [[e | m] s2]; [reflexivity |].
    destruct (verifyEnvironment w s2) as [[e | v] s3]; reflexivity.
  - cbn. discriminate.
Qed.

Lemma join_nonempty : forall a b, join a b <> EmptyString.
Proof. intros [| c a] b; discriminate. Qed.

  (** What [tc.find] does to the state, and where a directory it returns
      lies: a complete cached directory, of the cleaned [versionSpec] when
      that is an explicit version. *)
Lemma tc_find_effect : forall w tool spec s,
    exists r,
      tc_find w tool spec s =
        (r, St (env s) (pathAdds s) (toolCache s) (EvTcFind tool spec :: trace s)) /\
      (forall p, r = inr p -> p <> EmptyString ->
         exists v, tc_has (toolCache s) tool v = true /\ p = cachePath w tool v /\
           (isExplicitVersion w spec = true -> semver_clean w spec = Some v)).
Proof.
  intros w tool spec s. unfold tc_find. cbv zeta.
  destruct (String.eqb tool EmptyString);
    [eexists; split; [reflexivity | intros ? ?; discriminate] |].
  destruct (String.eqb spec EmptyString) eqn:Hs;
    [eexists; split; [reflexivity | intros ? ?; discriminate] |].
  destruct (isExplicitVersion w spec) eqn:Hx.
  - rewrite Hs. eexists. split; [reflexivity |]. intros p Hp Hne. injection Hp as <-.
    destruct (tc_has (toolCache s) tool _) eqn:Ht; [| congruence].
    eexists. split; [exact Ht |]. split; [reflexivity |].
    intros _. unfold isExplicitVersion in Hx. destruct (semver_clean w spec); congruence.
  - destruct (String.eqb (evaluateVersions w _ spec) EmptyString);
      [eexists; split; [reflexivity | intros ? Hp; injection Hp as <-; congruence] |].
    eexists. split; [reflexivity |]. intros p Hp Hne. injection Hp as <-.
    destruct (tc_has (toolCache s) tool _) eqn:Ht; [| congruence].
    eexists. split; [exact Ht |]. split; [reflexivity | discriminate].
Qed.

  (** [tc.find] of a version that is not explicit, for a tool with no
      explicit version in the cache, finds nothing. *)
Lemma tc_find_none : forall w tool spec s,
    tool <> EmptyString -> spec <> EmptyString ->
    isExplicitVersion w spec = false ->
    findAllVersions w (toolCache s) tool = [] ->
    tc_find w tool spec s =
      (inr EmptyString, St (env s) (pathAdds s) (toolCache s) (EvTcFind tool spec :: trace s)).
Proof.
  intros w tool spec s Ht Hs Hx Hv. unfold tc_find. cbv zeta.
  apply String.eqb_neq in Ht, Hs. rewrite Ht, Hs, Hx, Hv. reflexivity.
Qed.

Lemma includes_nonempty : forall xs x,
    Forall (fun y => y <> EmptyString) xs -> includes xs x = true -> x <> EmptyString.
Proof.
  intros xs x Hall H. unfold includes in H. apply existsb_exists in H.
  destruct H as (y & Hy & Heq). apply String.eqb_eq in Heq. subst y.
  rewrite Forall_forall in Hall. exact (Hall x Hy).
Qed.

Lemma supported_java_nonempty : forall v,
    includes supportedJavaVersions v = true -> v <> EmptyString.
Proof.
  intros v. apply includes_nonempty. repeat constructor; discriminate.
Qed.

Lemma supported_maven_nonempty : forall v,
    includes supportedMavenVersions v = true -> v <> EmptyString.
Proof.
  intros v. apply includes_nonempty. repeat constructor; discriminate.
Qed.

Lemma cachePath_nonempty : forall w tool v, cachePath w tool v <> EmptyString.
Proof. intros. unfold cachePath. apply join_nonempty. Qed.

  (** What a successful [downloadAndSetupJava] leaves behind. *)
Lemma downloadAndSetupJava_ok : forall w inp s p s',
    downloadAndSetupJava w inp s = (inr p, s') ->
    p <> EmptyString /\
    env s' = ("JAVA_HOME", p) :: env s /\
    pathAdds s' = join p "bin" :: pathAdds s.
Proof.
  intros w inp s p s' H.
  unfold downloadAndSetupJava, bind, ret, core_addPath, core_exportVariable in H.
  unfold requiredJavaDistribution, requiredJavaVersion in H.
  destruct (tc_find_effect w ("Java_" ++ javaDistribution inp) (javaVersion inp) s)
    as ([e | cached] & Hf & _); rewrite Hf in H; [discriminate |].
  destruct (String.eqb cached EmptyString) eqn:Ec; cbn [negb] in H.
  - unfold getJavaDownloadUrl, requiredJavaDistribution, requiredJavaVersion, throw in H.
    destruct (String.eqb (javaDistribution inp) "temurin"); [| discriminate].
    unfold tc_downloadTool, tc_extractTar, log, bind, throw, ret in H.
    destruct (downloadTool w _) as [e | dp]; [discriminate |].
    destruct (extractTar w dp) as [e | xp]; [discriminate |].
    unfold tc_cacheDir in H. inversion H; subst; clear H. cbn [env pathAdds toolCache].
    repeat split. apply cachePath_nonempty.
  - inversion H; subst; clear H. cbn.
    apply String.eqb_neq in Ec. auto.
Qed.

Lemma downloadAndSetupMaven_ok : forall w inp s p s',
    downloadAndSetupMaven w inp s = (inr p, s') ->
    p <> EmptyString /\
    env s' = ("MAVEN_HOME", p) :: ("M2_HOME", p) :: env s /\
    pathAdds s' = join p "bin" :: pathAdds s /\
    (forall c, semver_clean w (mavenVersion inp) = Some c ->
       tc_has (toolCache s') "Maven" c = true /\ p = cachePath w "Maven" c).
Proof.
  intros w inp s p s' H.
  unfold downloadAndSetupMaven, bind, ret, core_addPath, core_exportVariable in H.
  unfold requiredMavenVersion in H.
  destruct (tc_find_effect w "Maven" (mavenVersion inp) s)
    as ([e | cached] & Hf & Hc); rewrite Hf in H; [discriminate |].
  destruct (String.eqb cached EmptyString) eqn:Ec; cbn [negb] in H.
  - unfold tc_downloadTool, tc_extractTar, log, bind, throw, ret in H.
    destruct (downloadTool w _) as [e | dp]; [discriminate |].
    destruct (extractTar w dp) as [e | xp]; [discriminate |].
    unfold tc_cacheDir in H. inversion H; subst; clear H. cbn [env pathAdds toolCache].
    split; [apply cachePath_nonempty |]. split; [reflexivity |]. split; [reflexivity |].
    intros c Hm. rewrite Hm. cbn. rewrite !String.eqb_refl. auto.
  - inversion H; subst; clear H. cbn [env pathAdds toolCache].
    apply String.eqb_neq in Ec.
    split; [exact Ec |]. split; [reflexivity |]. split; [reflexivity |].
    intros c Hm. destruct (Hc p eq_refl Ec) as (v & Hv & Hp & Hx).
    assert (Hvc : v = c).
    { unfold isExplicitVersion in Hx. rewrite Hm in Hx.
      specialize (Hx eq_refl). congruence. }
    subst v. auto.
Qed.

Lemma installJava_ok : forall w inp s o,
    fst (installJava w inp s) = inr o ->
    includes supportedJavaVersions (javaVersion inp) = true /\
    includes supportedJavaDistributions (javaDistribution inp) = true /\
    o = Outcome "installed" (javaVersion inp) None (Some (javaDistribution inp)) (toolPath o) None /\
    downloadAndSetupJava w inp s = (inr (toolPath o), snd (installJava w inp s)).
Proof.
  intros w inp s o H. unfold installJava, catch, bind, throw, ret in *.
  unfold requiredJavaVersion, requiredJavaDistribution in *.
  destruct (includes supportedJavaVersions (javaVersion inp)); cbn [negb] in *; [| discriminate].
  destruct (includes supportedJavaDistributions (javaDistribution inp)); cbn [negb] in *;
    [| discriminate].
  destruct (downloadAndSetupJava w inp s) as [[e | p] s'] eqn:Hd; [discriminate |].
  cbn in H. inversion H; subst. cbn. auto.
Qed.

Lemma installMaven_ok : forall w inp s o,
    fst (installMaven w inp s) = inr o ->
    includes supportedMavenVersions (mavenVersion inp) = true /\
    o = Outcome "installed" (mavenVersion inp) None None (toolPath o) None /\
    downloadAndSetupMaven w inp s = (inr (toolPath o), snd (installMaven w inp s)).
Proof.
  intros w inp s o H. unfold installMaven, catch, bind, throw, ret in *.
  unfold requiredMavenVersion in *.
  destruct (includes supportedMavenVersions (mavenVersion inp)); cbn [negb] in *; [| discriminate].
  destruct (downloadAndSetupMaven w inp s) as [[e | p] s'] eqn:Hd; [discriminate |].
  cbn in H. inversion H; subst. cbn. auto.
Qed.

(** A successful Java install sets JAVA_HOME to the installed directory and puts
    its bin directory first on the PATH; a successful Maven install sets
    M2_HOME and MAVEN_HOME and puts its bin directory first on the PATH. *)
Theorem install_registers_tool : forall w inp s,
    (forall o, fst (installJava w inp s) = inr o ->
       let s' := snd (installJava w inp s) in
       env_get (env s') "JAVA_HOME" = toolPath o /\
       pathAdds s' = join (toolPath o) "bin" :: pathAdds s) /\
    (forall o, fst (installMaven w inp s) = inr o ->
       let s' := snd (installMaven w inp s) in
       env_get (env s') "M2_HOME" = toolPath o /\
       env_get (env s') "MAVEN_HOME" = toolPath o /\
       pathAdds s' = join (toolPath o) "bin" :: pathAdds s).
Proof.
  intros w inp s. split.
  - intros o H s'. destruct (installJava_ok w inp s o H) as (_ & _ & _ & Hd).
    destruct (downloadAndSetupJava_ok w inp s _ _ Hd) as (_ & He & Hp).
    fold s' in He, Hp. rewrite He, Hp. cbn. auto.
  - intros o H s'. destruct (installMaven_ok w inp s o H) as (_ & _ & Hd).
    destruct (downloadAndSetupMaven_ok w inp s _ _ Hd) as (_ & He & Hp & _).
    fold s' in He, Hp. rewrite He, Hp. cbn. auto.
Qed.

(** Installing the same Maven version a second time, when that version is
    an explicit semver version (as "3.9.5" is), finds it in the tool cache:
    nothing is downloaded, the tool cache is unchanged and the same
    directory is returned and exported again. *)
Theorem maven_reinstall_uses_tool_cache : forall w inp s o,
    semver_clean w (mavenVersion inp) <> None ->
    fst (installMaven w inp s) = inr o ->
    let s' := snd (installMaven w inp s) in
    let p := toolPath o in
    installMaven w inp s' =
    (inr o, St (("MAVEN_HOME", p) :: ("M2_HOME", p) :: env s') (join p "bin" :: pathAdds s')
               (toolCache s')
               (EvExportVariable "MAVEN_HOME" p :: EvExportVariable "M2_HOME" p
                :: EvAddPath (join p "bin") :: EvTcFind "Maven" (mavenVersion inp) :: trace s')).
Proof.
  intros w inp s o Hx H s' p.
  destruct (semver_clean w (mavenVersion inp)) as [c |] eqn:Hc; [| congruence].
  destruct (installMaven_ok w inp s o H) as (Hv & Ho & Hd).
  destruct (downloadAndSetupMaven_ok w inp s _ _ Hd) as (Hne & _ & _ & Htc).
  destruct (Htc c Hc) as (Hhas & Hp).
  fold s' in Hhas. fold p in Hne, Hp.
  assert (Hn : String.eqb (mavenVersion inp) EmptyString = false)
    by (apply String.eqb_neq, supported_maven_nonempty, Hv).
  unfold installMaven at 1, catch, bind, ret. unfold requiredMavenVersion.
  rewrite Hv. cbn [negb].
  unfold downloadAndSetupMaven, tc_find, bind, ret, core_addPath, core_exportVariable.
  unfold requiredMavenVersion. cbv zeta. cbn [toolCache env pathAdds trace].
  assert (Hi : isExplicitVersion w (mavenVersion inp) = true)
    by (unfold isExplicitVersion; rewrite Hc; reflexivity).
  rewrite Hi. cbv iota. rewrite Hn, Hc, Hhas, <- Hp.
  change (String.eqb "Maven" EmptyString) with false. cbv beta iota.
  apply String.eqb_neq in Hne. rewrite Hne. cbn [negb].
  f_equal. f_equal. symmetry. exact Ho.
Qed.

  (** A Java install whose version is not explicit and whose tool had no
      explicit version cached adds that version, as given, to the tool
      cache; it was downloaded, so the distribution is temurin. *)
Lemma installJava_fresh : forall w inp s o,
    semver_clean w (javaVersion inp) = None ->
    findAllVersions w (toolCache s) ("Java_" ++ javaDistribution inp) = [] ->
    fst (installJava w inp s) = inr o ->
    javaDistribution inp = "temurin" /\
    toolCache (snd (installJava w inp s))
      = ("Java_" ++ javaDistribution inp, javaVersion inp) :: toolCache s.
Proof.
  intros w inp s o Hc Hv H.
  destruct (installJava_ok w inp s o H) as (Hsv & _ & _ & Hd).
  unfold downloadAndSetupJava, bind, ret, core_addPath, core_exportVariable in Hd.
  unfold requiredJavaDistribution, requiredJavaVersion in Hd.
  rewrite tc_find_none in Hd;
    [| discriminate | apply supported_java_nonempty, Hsv
     | unfold isExplicitVersion; rewrite Hc; reflexivity | exact Hv].
  cbn [String.eqb negb] in Hd.
  unfold getJavaDownloadUrl, requiredJavaDistribution, requiredJavaVersion, throw in Hd.
  destruct (String.eqb_spec (javaDistribution inp) "temurin") as [Ht |]; [| discriminate].
  unfold tc_downloadTool, tc_extractTar, log, bind, throw, ret in Hd.
  destruct (downloadTool w _) as [e | dp]; [discriminate |].
  destruct (extractTar w dp) as [e | xp]; [discriminate |].
  unfold tc_cacheDir in Hd. rewrite Hc in Hd. inversion Hd as [[Hp Hs]].
  split; [exact Ht | reflexivity].
Qed.

(** A Java version that is not an explicit semver version (such as "17") is
    cached under that name, which [tc.find] skips: after a successful
    install, [tc.find] still finds nothing, and installing again downloads
    again. *)
Theorem java_reinstall_downloads_again : forall w inp s o,
    semver_clean w (javaVersion inp) = None ->
    findAllVersions w (toolCache s) ("Java_" ++ javaDistribution inp) = [] ->
    fst (installJava w inp s) = inr o ->
    let s' := snd (installJava w inp s) in
    fst (tc_find w ("Java_" ++ javaDistribution inp) (javaVersion inp) s') = inr EmptyString /\
    exists url tr,
      trace (snd (installJava w inp s')) =
      app tr (EvDownload url :: EvTcFind ("Java_" ++ javaDistribution inp) (javaVersion inp)
              :: trace s').
Proof.
  intros w inp s o Hc Hv H s'.
  destruct (installJava_fresh w inp s o Hc Hv H) as (Ht & Htc).
  destruct (installJava_ok w inp s o H) as (Hsv & Hsd & _ & _).
  fold s' in Htc.
  assert (Hx : isExplicitVersion w (javaVersion inp) = false)
    by (unfold isExplicitVersion; rewrite Hc; reflexivity).
  assert (Hv' : findAllVersions w (toolCache s') ("Java_" ++ javaDistribution inp) = []).
  { rewrite Htc. unfold findAllVersions. cbn [filter]. rewrite String.eqb_refl, Hx.
    cbn [andb]. exact Hv. }
  assert (Hf := tc_find_none w ("Java_" ++ javaDistribution inp) (javaVersion inp) s'
                  ltac:(discriminate) (supported_java_nonempty _ Hsv) Hx Hv').
  split; [rewrite Hf; reflexivity |].
  unfold installJava, catch, bind, ret, throw, requiredJavaVersion, requiredJavaDistribution.
  rewrite Hsv, Hsd. cbn [negb].
  unfold downloadAndSetupJava, bind, ret, core_addPath, core_exportVariable,
    requiredJavaVersion, requiredJavaDistribution.
  rewrite Hf. cbn [String.eqb negb].
  unfold getJavaDownloadUrl, requiredJavaDistribution, requiredJavaVersion.
  rewrite Ht. cbn [String.eqb Ascii.eqb Bool.eqb]. cbv zeta.
  unfold tc_downloadTool, tc_extractTar, log, bind, throw, ret.
  eexists.
  destruct (downloadTool w _) as [e | dp]; [exists []; reflexivity |].
  destruct (extractTar w dp) as [e | xp]; [exists [EvExtract dp]; reflexivity |].
  unfold tc_cacheDir. cbv zeta.
  eexists [_; _; _; _]. reflexivity.
Qed.

(** Only the temurin distribution has a download URL: installing another Java
    distribution that is not in the tool cache fails after the cache lookup
    and changes no environment variable. *)
Theorem installJava_only_temurin_downloads : forall w inp s,
    includes supportedJavaVersions (javaVersion inp) = true ->
    includes supportedJavaDistributions (javaDistribution inp) = true ->
    javaDistribution inp <> "temurin" ->
    fst (tc_find w ("Java_" ++ javaDistribution inp) (javaVersion inp) s) = inr EmptyString ->
    installJava w inp s =
    (inl (Error ("Java installation failed: Download URL not configured for "
                 ++ javaDistribution inp ++ " " ++ javaVersion inp)),
     St (env s) (pathAdds s) (toolCache s)
        (EvTcFind ("Java_" ++ javaDistribution inp) (javaVersion inp) :: trace s)).
Proof.
  intros w inp s Hv Hd Ht Hc.
  unfold installJava, catch, bind, ret, throw, requiredJavaVersion, requiredJavaDistribution.
  rewrite Hv, Hd. cbn [negb].
  unfold downloadAndSetupJava, bind, ret, requiredJavaVersion, requiredJavaDistribution.
  destruct (tc_find_effect w ("Java_" ++ javaDistribution inp) (javaVersion inp) s)
    as (r & Hf & _).
  rewrite Hf in Hc |- *. cbn [fst] in Hc. subst r. cbn [String.eqb negb].
  unfold getJavaDownloadUrl, requiredJavaVersion, requiredJavaDistribution, throw.
  apply String.eqb_neq in Ht. rewrite Ht. reflexivity.
Qed.

Lemma java_home_shortcut : forall w s,
    env_get (env s) "JAVA_HOME" <> EmptyString ->
    exists d,
      getCurrentJavaVersion w s =
        (inr d, St (env s) (pathAdds s) (toolCache s) (EvExec "java" ["-version"] :: trace s)) /\
      (forall v fv vd h, d = JavaAvailable v fv vd h -> h = env_get (env s) "JAVA_HOME").
Proof.
  intros w s Hh. apply String.eqb_neq in Hh.
  unfold getCurrentJavaVersion, catch, bind, exec_, getEnv, ret.
  destruct (exec w (pathAdds s) "java" ["-version"]) as [e | code out].
  - exists NotAvailable. split; [reflexivity | discriminate].
  - destruct (negb (code =? 0)%Z).
    + exists NotAvailable. split; [reflexivity | discriminate].
    + destruct (Rx.search_group _ _ _ out) as [fv |].
      * cbn [env]. rewrite Hh. cbn [negb].
        eexists. split; [reflexivity |].
        intros v fv' vd h H. inversion H. reflexivity.
      * exists NotAvailable. split; [reflexivity | discriminate].
Qed.

(** When JAVA_HOME is set, getCurrentJavaVersion runs [java -version] once
    and nothing else, changes no environment variable, PATH entry or tool
    cache entry, and any Java it reports has JAVA_HOME as its home. *)
Theorem getCurrentJavaVersion_uses_JAVA_HOME : forall w s,
    env_get (env s) "JAVA_HOME" <> EmptyString ->
    exists d,
      getCurrentJavaVersion w s =
        (inr d, St (env s) (pathAdds s) (toolCache s) (EvExec "java" ["-version"] :: trace s)) /\
      (forall v fv vd h, d = JavaAvailable v fv vd h -> h = env_get (env s) "JAVA_HOME").
Proof. exact java_home_shortcut. Qed.

(** After a successful installJava, detecting Java runs [java -version] only,
    and any Java it reports has the installed directory as its home. *)
Theorem installJava_then_detect : forall w inp s o,
    fst (installJava w inp s) = inr o ->
    let s' := snd (installJava w inp s) in
    exists d,
      getCurrentJavaVersion w s' =
        (inr d, St (env s') (pathAdds s') (toolCache s') (EvExec "java" ["-version"] :: trace s')) /\
      (forall v fv vd h, d = JavaAvailable v fv vd h -> h = toolPath o).
Proof.
  intros w inp s o H s'. destruct (installJava_ok w inp s o H) as (_ & _ & _ & Hd).
  destruct (downloadAndSetupJava_ok w inp s _ _ Hd) as (Hne & He & _).
  fold s' in He.
  assert (Hj : env_get (env s') "JAVA_HOME" = toolPath o) by (rewrite He; reflexivity).
  destruct (java_home_shortcut w s') as (d & Hg & Hh); [rewrite Hj; exact Hne |].
  exists d. split; [exact Hg |]. intros v fv vd h Hd'. rewrite (Hh v fv vd h Hd'). exact Hj.
Qed.
End SetupFacts.

(* ================================================================= *)
(** ** Cache key and pom discovery *)

Module KeyFacts.
Import Cache CacheFacts.

Lemma str_length_app : forall a b, String.length (a ++ b) = (String.length a + String.length b)%nat.
Proof. induction a as [| c a IH]; intros b; cbn; [reflexivity | now rewrite IH]. Qed.

Lemma list_ascii_app' : forall a b,
    list_ascii_of_string (a ++ b) = app (list_ascii_of_string a) (list_ascii_of_string b).
Proof. induction a as [| c a IH]; intros b; cbn; [reflexivity | now rewrite IH]. Qed.

Lemma compress_length : forall h b, length h = 8%nat -> length (Sha256.compress h b) = 8%nat.
Proof.
  intros h b Hh. unfold Sha256.compress. rewrite length_map, length_combine, Hh. reflexivity.
Qed.

Lemma digest_length : forall msg, length (Sha256.digest msg) = 8%nat.
Proof.
  intros msg. unfold Sha256.digest.
  assert (H : forall bs h, length h = 8%nat -> length (fold_left Sha256.compress bs h) = 8%nat).
  { induction bs as [| b bs IH]; intros h Hh; [exact Hh |]. cbn. apply IH, compress_length, Hh. }
  apply H. reflexivity.
Qed.

Lemma hex_word_length : forall n x, String.length (Sha256.hex_word n x) = n.
Proof.
  induction n as [| n IH]; intros x; [reflexivity |]. cbn [Sha256.hex_word].
  rewrite str_length_app, IH. cbn. lia.
Qed.

Lemma hex_digit_lower : forall x, JsText.is_lower_hex (Sha256.hex_digit (Z.land x 15)) = true.
Proof.
  intros x.
  assert (Hb : 0 <= Z.land x 15 < 16).
  { change 15 with (Z.ones 4). rewrite Z.land_ones by lia. apply Z.mod_pos_bound. lia. }
  remember (Z.land x 15) as n eqn:En. clear En.
  assert (Hn : n = Z.of_nat (Z.to_nat n)) by lia.
  rewrite Hn. assert (Hk : (Z.to_nat n < 16)%nat) by lia.
  generalize (Z.to_nat n) Hk. clear. intros k Hk.
  do 16 (destruct k as [| k]; [reflexivity |]). lia.
Qed.

Lemma hex_word_lower : forall n x,
    forallb JsText.is_lower_hex (list_ascii_of_string (Sha256.hex_word n x)) = true.
Proof.
  induction n as [| n IH]; intros x; [reflexivity |]. cbn [Sha256.hex_word].
  rewrite list_ascii_app', forallb_app, IH. cbn. rewrite hex_digit_lower. reflexivity.
Qed.

Lemma sha256_hex_shape : forall m,
    String.length (Sha256.sha256_hex m) = 64%nat /\
    forallb JsText.is_lower_hex (list_ascii_of_string (Sha256.sha256_hex m)) = true.
Proof.
  intros m. unfold Sha256.sha256_hex.
  assert (Hl := digest_length (Sha256.bytes_of_string m)).
  generalize (Sha256.digest (Sha256.bytes_of_string m)) Hl. clear.
  intros d Hl.
  assert (H : forall d : list Z, String.length (concat_all (map (Sha256.hex_word 8) d)) = (8 * length d)%nat /\
             forallb JsText.is_lower_hex (list_ascii_of_string (concat_all (map (Sha256.hex_word 8) d))) = true).
  { clear. intros d. induction d as [| x d IH]; [split; reflexivity |]. cbn [map concat_all length].
    destruct IH as [IH1 IH2].
    rewrite str_length_app, hex_word_length, IH1, list_ascii_app', forallb_app, IH2, hex_word_lower.
    split; [lia | reflexivity]. }
  destruct (H d) as [H1 H2]. rewrite H1, Hl. auto.
Qed.

(** generateCacheKey always succeeds and returns [maven-deps-] followed by 64
    lower-case hexadecimal digits, and only reads the file system. *)
Theorem generateCacheKey_format : forall w inp s,
    exists h tr,
      generateCacheKey w inp s = (inr ("maven-deps-" ++ h), St (runState s) (app tr (trace s))) /\
      Forall fs_event tr /\
      String.length h = 64%nat /\
      forallb JsText.is_lower_hex (list_ascii_of_string h) = true.
Proof.
  intros w inp s.
  destruct (ro_findPomFiles w inp) as (ps & tr1 & F1 & H1).
  destruct (ro_readPomContents w ps []) as (cs & tr2 & F2 & H2).
  exists (Sha256.sha256_hex (hashInput w inp cs)), (app tr2 tr1).
  unfold generateCacheKey, bind. rewrite H1, H2. cbn [runState trace].
  rewrite app_assoc. destruct (sha256_hex_shape (hashInput w inp cs)) as [L X].
  repeat split; auto. apply Forall_app; auto.
Qed.

Lemma readPomContents_value : forall w ps acc s,
    fst (readPomContents w ps acc s) =
    inr (app acc (flat_map (fun p => match lookup (fs w) p with
                                     | Some (FileN c) => [c]
                                     | _ => []
                                     end) ps)).
Proof.
  intros w ps. induction ps as [| p ps IH]; intros acc s.
  - cbn. rewrite app_nil_r. reflexivity.
  - cbn [readPomContents]. unfold bind at 1, catch at 1, fs_readFile, bind, log, ret, throw.
    cbn [flat_map].
    destruct (lookup (fs w) p) as [[c | r ch] |]; rewrite IH; [| cbn; reflexivity | cbn; reflexivity].
    rewrite <- app_assoc. reflexivity.
Qed.

(** The cache key is the SHA-256 digest of the platform, the Java and Maven
    versions and the contents of the readable pom.xml files, in the order
    findPomFiles returns them. *)
Theorem generateCacheKey_hashes_readable_manifests : forall w inp s,
    exists ps, fst (findPomFiles w inp s) = inr ps /\
      fst (generateCacheKey w inp s) =
      inr ("maven-deps-" ++ Sha256.sha256_hex (hashInput w inp
             (flat_map (fun p => match lookup (fs w) p with
                                 | Some (FileN c) => [c]
                                 | _ => []
                                 end) ps))).
Proof.
  intros w inp s.
  destruct (ro_findPomFiles w inp) as (ps & tr1 & F1 & H1).
  exists ps. split; [rewrite H1; reflexivity |].
  unfold generateCacheKey, bind at 1. rewrite H1.
  unfold bind. pose proof (readPomContents_value w ps [] (St (runState s) (app tr1 (trace s)))) as Hr.
  destruct (readPomContents w ps [] _) as [[e | cs] s2]; cbn in Hr; [discriminate |].
  inversion Hr. reflexivity.
Qed.

(** When caching is enabled but the Maven repository directory does not exist,
    save returns false after one stat call and never contacts the cache
    backend. *)
Theorem save_without_repository : forall w inp s,
    cacheEnabled inp = true ->
    (forall n, lookup (fs w) (m2Repository w) = Some n -> is_dir n = false) ->
    save w inp s = (inr false, St (runState s) (EvStat (m2Repository w) :: trace s)).
Proof.
  intros w inp s He Hn. unfold save. rewrite He. cbn [negb].
  unfold catch, directoryExists, fs_stat, bind, log, ret, throw.
  destruct (lookup (fs w) (m2Repository w)) as [n |] eqn:Hl.
  - rewrite (Hn n eq_refl). reflexivity.
  - reflexivity.
Qed.

Section Root.
Variable w : world.
Local Open Scope list_scope.

  (** A manifest found below [dir], one directory or more down. *)
Definition below (dir p : path) : Prop :=
    exists n rel, p = dir ++ n :: rel ++ ["pom.xml"].

Lemma inv_any_fileExists : forall p,
    ScannerFacts.inv (fun _ => True) (fun ex => ex = match lookup (fs w) p with
                                                      | Some _ => true | None => false end)
      (fileExists w p).
Proof.
  intros p s. unfold fileExists, fs_access, catch, bind, log, ret, throw.
  destruct (lookup (fs w) p); cbn; (split; [intros a Ha; inversion Ha; reflexivity |]);
    exists [EvAccess p]; (split; [reflexivity | repeat constructor]).
Qed.

Lemma inv_any_readdir : forall p,
    ScannerFacts.inv (fun _ => True) (fun _ => True) (fs_readdir w p).
Proof.
  intros p. unfold fs_readdir.
  apply ScannerFacts.inv_bind with (Q1 := fun _ => True);
    [apply ScannerFacts.inv_log; exact I |].
  intros _ _.
  destruct (lookup _ p) as [[c | [|] ch] |];
    first [apply ScannerFacts.inv_ret; exact I | apply ScannerFacts.inv_throw].
Qed.

Lemma inv_findPomFilesRecursive_below : forall fuel dir acc0 acc depth,
    (exists extra, acc = acc0 ++ extra /\ Forall (below dir) extra) ->
    ScannerFacts.inv (fun _ => True)
      (fun l => exists extra, l = acc0 ++ extra /\ Forall (below dir) extra)
      (findPomFilesRecursive w fuel dir acc depth).
Proof.
  induction fuel as [| f IH]; intros dir acc0 acc depth Hacc; cbn [findPomFilesRecursive].
  { apply ScannerFacts.inv_ret. exact Hacc. }
  destruct (Nat.ltb 5 depth).
  { apply ScannerFacts.inv_ret. exact Hacc. }
  apply ScannerFacts.inv_catch; [| intros; apply ScannerFacts.inv_ret; exact Hacc].
  apply ScannerFacts.inv_bind with (Q1 := fun _ => True); [apply inv_any_readdir |].
  intros entries _. revert acc Hacc.
  induction entries as [| [n isdir] es IHes]; intros acc Hacc;
    [apply ScannerFacts.inv_ret; exact Hacc |].
  cbv beta iota fix.
  destruct (enters (n, isdir)); [| apply IHes; exact Hacc].
  cbn [fst].
  apply ScannerFacts.inv_bind with (Q1 := fun _ => True).
  { eapply ScannerFacts.inv_weaken; [| apply inv_any_fileExists]. auto. }
  intros ex _.
  set (acc1 := if ex then acc ++ [(dir ++ [n]) ++ ["pom.xml"]] else acc).
  apply ScannerFacts.inv_bind with
    (Q1 := fun l => exists extra, l = acc0 ++ extra /\ Forall (below dir) extra).
  { eapply ScannerFacts.inv_weaken;
      [| apply (IH (dir ++ [n]) acc1 acc1); exists []; rewrite app_nil_r; auto].
    intros l (extra2 & -> & F2).
    destruct Hacc as (extra & Hx & F).
    exists (extra ++ (if ex then [(dir ++ [n]) ++ ["pom.xml"]] else []) ++ extra2).
    split.
    - unfold acc1. destruct ex; cbn; rewrite Hx, <- !app_assoc; reflexivity.
    - apply Forall_app. split; [exact F |]. apply Forall_app. split.
      + destruct ex; [| constructor]. constructor; [| constructor].
        exists n, []. rewrite <- app_assoc. reflexivity.
      + eapply Forall_impl; [| exact F2]. intros p (m & rel & ->).
        exists n, (m :: rel). rewrite <- app_assoc. reflexivity. }
  intros acc2 Hacc2. apply IHes. exact Hacc2.
Qed.
End Root.

(** findPomFiles lists the root pom.xml first when it exists, and every other
    entry is a pom.xml strictly below the working directory. *)
Theorem findPomFiles_root_first : forall w inp s,
    let rootPom := app (workingDirectory inp) ["pom.xml"] in
    exists rest,
      fst (findPomFiles w inp s) =
      inr (app (match lookup (fs w) rootPom with Some _ => [rootPom] | None => [] end) rest) /\
      Forall (fun p => exists n rel, p = app (workingDirectory inp) (n :: app rel ["pom.xml"])) rest /\
      ~ In rootPom rest.
Proof.
  intros w inp s rootPom.
  set (wd := workingDirectory inp) in *.
  set (pf := match lookup (fs w) rootPom with Some _ => [rootPom] | None => [] end).
  assert (H : ScannerFacts.inv (fun _ => True)
                (fun l => exists rest, l = app pf rest /\ Forall (below wd) rest)
                (findPomFiles w inp)).
  { unfold findPomFiles. fold wd. fold rootPom.
    apply ScannerFacts.inv_bind with
      (Q1 := fun ex => ex = match lookup (fs w) rootPom with Some _ => true | None => false end);
      [apply inv_any_fileExists |].
    intros ex Hex.
    assert (Hpf : (if ex then [rootPom] else []) = pf)
      by (subst ex pf; destruct (lookup (fs w) rootPom); reflexivity).
    rewrite Hpf.
    apply ScannerFacts.inv_catch;
      [| intros; apply ScannerFacts.inv_ret; exists []; rewrite app_nil_r; auto].
    apply inv_findPomFilesRecursive_below. exists []. rewrite app_nil_r. auto. }
  destruct (ro_findPomFiles w inp) as (ps & tr & _ & Hf).
  destruct (H s) as [Hr _]. rewrite Hf in Hr. cbn [fst] in Hr.
  destruct (Hr ps eq_refl) as (rest & Hps & F).
  exists rest. rewrite Hf. cbn [fst]. rewrite Hps. split; [reflexivity |]. split.
  - exact F.
  - intros Hin. rewrite Forall_forall in F. destruct (F _ Hin) as (n & rel & Heq).
    apply (f_equal (@length string)) in Heq. unfold rootPom in Heq.
    rewrite !length_app in Heq. cbn in Heq. rewrite length_app in Heq. cbn in Heq. lia.
Qed.
End KeyFacts.

(* ================================================================= *)
(** ** Java version order *)

Module JavaOrder.
Import Env SpecOrder.

Lemma parseInt_component : forall c, is_component c = true ->
    dec_value c < 2 ^ 53 -> JsNumber.parseInt c = JsNumber.Fin (dec_value c).
Proof.
  intros c Hc Hlt. unfold is_component in Hc. apply andb_prop in Hc as [Hne Hd].
  pose proof (EnvClaims.digits_prefix_digits c 0 0 Hd) as Hdp.
  assert (Hr : JsNumber.round_nonneg (dec_value c) = JsNumber.Fin (dec_value c)).
  { unfold JsNumber.round_nonneg. apply Z.ltb_lt in Hlt. rewrite Hlt. reflexivity. }
  destruct c as [| a r]; [discriminate |].
  assert (Ha : is_digit a = true) by (cbn in Hd; apply andb_prop in Hd; apply Hd).
  unfold JsNumber.parseInt. rewrite (EnvClaims.trim_start_digits a r Ha).
  transitivity (let '(v, k) := JsNumber.digits_prefix 10 (String a r) 0 0 in
                if Nat.eqb k 0 then JsNumber.NaN else JsNumber.round_nonneg v).
  2: { rewrite Hdp. exact Hr. }
  destruct (Ascii.eqb_spec a "0") as [-> | Hne0].
  - destruct r as [| x r]; [reflexivity |].
    assert (Hx : is_digit x = true)
      by (cbn in Hd; apply andb_prop in Hd as [_ Hd]; apply andb_prop in Hd; apply Hd).
    apply EnvClaims.digit_cases in Hx. decompose [or] Hx; subst x; reflexivity.
  - apply EnvClaims.digit_cases in Ha.
    decompose [or] Ha; subst a; first [reflexivity | congruence].
Qed.

(** For plain decimal versions below 2^53, isJavaVersionCompatible is the
    numeric comparison: the installed version is compatible exactly when it is
    at least the required one. *)
Theorem isJavaVersionCompatible_numeric : forall inp c,
    is_component c = true -> is_component (javaVersion inp) = true ->
    dec_value c < 2 ^ 53 -> dec_value (javaVersion inp) < 2 ^ 53 ->
    isJavaVersionCompatible inp c = Z.leb (dec_value (javaVersion inp)) (dec_value c).
Proof.
  intros inp c Hc Hr Hlc Hlr. unfold isJavaVersionCompatible, isJavaVersionBackwardCompatible,
    requiredJavaVersion.
  rewrite (parseInt_component c Hc Hlc), (parseInt_component _ Hr Hlr).
  destruct (String.eqb_spec c (javaVersion inp)) as [-> | _].
  - rewrite Z.leb_refl. reflexivity.
  - cbn [orb JsNumber.ge JsNumber.lt JsNumber.gt]. rewrite Z.ltb_antisym, negb_involutive.
    reflexivity.
Qed.
End JavaOrder.

(* ================================================================= *)
(** ** The claims on concrete runs *)

Module Runs.
Import Scenarios.

Lemma length_append_str : forall a b,
      String.length (a ++ b) = (String.length a + String.length b)%nat.
  Proof. induction a as [| c a IH]; intros b; cbn; [reflexivity | rewrite IH; reflexivity]. Qed.

Lemma substring_whole : forall h, substring 0 (String.length h) h = h.
  Proof. induction h as [| c h IH]; cbn; [reflexivity | rewrite IH; reflexivity]. Qed.

Lemma substring_suffix : forall p h,
      substring (String.length p) (String.length h) (p ++ h) = h.
  Proof. induction p as [| c p IH]; intros h; cbn; [apply substring_whole | apply IH]. Qed.

  (** Claim C1, Scenario A as the code runs it: the key is not any prefix
      followed by the SHA-256 of "linux" + "17" + "3.9.5" + "A". *)
Lemma cache_key_not_plain_concat :
    ~ exists prefix, fst (Cache.generateCacheKey wA inpA (Cache.St [] [])) =
        inr (prefix ++ Sha256.sha256_hex ("linux" ++ "17" ++ "3.9.5" ++ "A")).
  Proof.
    intros [p Hp].
    assert (Hk : fst (Cache.generateCacheKey wA inpA (Cache.St [] [])) =
                 inr "maven-deps-88a74b354e984dc95421946be4b218794ce94146cf072508c3a6db41a910e290")
      by (vm_compute; reflexivity).
    rewrite Hk in Hp. injection Hp as Hp.
    pose proof (substring_suffix p (Sha256.sha256_hex "linux173.9.5A")) as Hs.
    rewrite <- Hp in Hs.
    apply (f_equal String.length) in Hp. rewrite length_append_str in Hp.
    assert (Hh : String.length (Sha256.sha256_hex "linux173.9.5A") = 64%nat)
      by (vm_compute; reflexivity).
    assert (Hkl : String.length
      "maven-deps-88a74b354e984dc95421946be4b218794ce94146cf072508c3a6db41a910e290" = 75%nat)
      by reflexivity.
    rewrite Hh, Hkl in Hp.
    assert (Hl : String.length p = 11%nat) by lia.
    rewrite Hl in Hs. vm_compute in Hs. discriminate Hs.
  Qed.

  (** Claim C1, amended statement on Scenario A. *)
Lemma cache_key_root_manifest_only_witness :
    fst (Cache.generateCacheKey wA inpA (Cache.St [] [])) =
    inr ("maven-deps-" ++ Sha256.sha256_hex
           ("linux" ++ "-java" ++ "17" ++ "-maven" ++ "3.9.5" ++ "-" ++ "A")).
  Proof.
    apply (CacheClaims.cache_key_root_manifest_only wA inpA (Cache.St [] []) "A").
    reflexivity.
  Defined.

  (** Claim C2: the distribution "oracle" passes the input validator and
      is the value [getValidatedInputs] passes on, but it is not in
      [supportedJavaDistributions].  [setupJava] runs [java -version]
      first; with JDK 17 present it returns the existing outcome and raises
      no error; without Java it fails only after running [java -version]. *)
Lemma unsupported_distribution_detected_first :
    InputValidator.versionErrors "17" "oracle" "3.9.5" = [] /\
    InputValidator.getValidatedInputs ["work"] true "17" "oracle" "3.9.5"
      = inputs "17" "oracle" "3.9.5" /\
    includes Env.supportedJavaDistributions "oracle" = false /\
    Env.setupJava (envWorld (Some (jdkOut "17.0.2")) None) (inputs "17" "oracle" "3.9.5") st0 =
      (inr (Env.Outcome "existing" "17" (Some "openjdk") None EmptyString None),
       Env.St [] [] []
         [Env.EvExec "java" ["-XshowSettings:properties"; "-version"];
          Env.EvExec "java" ["-version"]]) /\
    Env.setupJava (envWorld None None) (inputs "17" "oracle" "3.9.5") st0 =
      (inl (Error ("Java installation failed: Unsupported Java distribution: oracle. "
                   ++ "Supported: temurin, zulu, adopt, liberica, microsoft, corretto")),
       Env.St [] [] [] [Env.EvExec "java" ["-version"]]).
  Proof.
    split; [vm_compute; reflexivity |]. split; [reflexivity |].
    split; [reflexivity |]. split; vm_compute; reflexivity.
  Qed.

  (** Claim C2, on inputs the validator accepts: Java 17 from "oracle",
      and Maven 4.0.0 (of the form X.Y.Z, not in the supported list), with
      both tools installed. *)
Lemma unsupported_detects_first_witness :
    InputValidator.versionErrors "17" "oracle" "4.0.0" = [] /\
    (exists tr, Env.trace (snd (Env.setupJava
                   (envWorld (Some (jdkOut "17.0.2")) (Some (mvnOut "3.9.5")))
                   (inputs "17" "oracle" "4.0.0") st0))
                = app tr (Env.EvExec "java" ["-version"] :: Env.trace st0)) /\
    (exists tr, Env.trace (snd (Env.setupMaven
                   (envWorld (Some (jdkOut "17.0.2")) (Some (mvnOut "3.9.5")))
                   (inputs "17" "oracle" "4.0.0") st0))
                = app tr (Env.EvExec "mvn" ["-version"] :: Env.trace st0)).
  Proof.
    assert (Hj : (includes Env.supportedJavaVersions (javaVersion (inputs "17" "oracle" "4.0.0"))
                  && includes Env.supportedJavaDistributions
                       (javaDistribution (inputs "17" "oracle" "4.0.0")))%bool = false)
      by reflexivity.
    assert (Hm : includes Env.supportedMavenVersions (mavenVersion (inputs "17" "oracle" "4.0.0"))
                 = false) by reflexivity.
    split; [vm_compute; reflexivity |].
    split.
    - exact (proj1 (proj1 EnvClaims.unsupported_detects_first
                      (envWorld (Some (jdkOut "17.0.2")) (Some (mvnOut "3.9.5")))
                      (inputs "17" "oracle" "4.0.0") st0 Hj)).
    - exact (proj1 (proj2 EnvClaims.unsupported_detects_first
                      (envWorld (Some (jdkOut "17.0.2")) (Some (mvnOut "3.9.5")))
                      (inputs "17" "oracle" "4.0.0") st0 Hm)).
  Defined.
  (** Claim C3: a backend that matched the primary key and one that matched
      only the last restore key make [restore] return the same value. *)
Lemma restore_exact_and_fallback_alike :
    exists key,
      fst (Cache.generateCacheKey wA inpA (Cache.St [] [])) = inr key /\
      Cache.restoreCache wA [Cache.m2Repository wA] key (Cache.restoreKeyList wA inpA)
        = inr (Some key) /\
      Cache.restoreCache (cacheWorld fsA fallbackBackend)
        [Cache.m2Repository (cacheWorld fsA fallbackBackend)] key
        (Cache.restoreKeyList (cacheWorld fsA fallbackBackend) inpA)
        = inr (Some "maven-deps") /\
      key <> "maven-deps" /\
      fst (Cache.restore wA inpA (Cache.St [] [])) =
      fst (Cache.restore (cacheWorld fsA fallbackBackend) inpA (Cache.St [] [])).
  Proof.
    exists "maven-deps-88a74b354e984dc95421946be4b218794ce94146cf072508c3a6db41a910e290".
    split; [vm_compute; reflexivity |].
    split; [reflexivity |]. split; [reflexivity |].
    split; [discriminate | vm_compute; reflexivity].
  Qed.

  (** Claim C3, amended statement on Scenario A. *)
Lemma restore_reports_only_hit_witness :
    cacheEnabled inpA = true /\
    exists key, fst (Cache.generateCacheKey wA inpA (Cache.St [] [])) = inr key /\
      fst (Cache.restore wA inpA (Cache.St [] [])) =
      inr match Cache.restoreCache wA [Cache.m2Repository wA] key (Cache.restoreKeyList wA inpA) with
          | inr (Some matched) => negb (String.eqb matched EmptyString)
          | inr None => false
          | inl _ => false
          end.
  Proof.
    assert (Hen : cacheEnabled inpA = true) by reflexivity.
    split; [exact Hen | exact (CacheClaims.restore_reports_only_hit wA inpA (Cache.St [] []) Hen)].
  Defined.

  (** Claim C4: the legacy Java 7 version string gives major "1". *)
Lemma legacy_java7_major_is_1 :
    Env.extractMajorJavaVersion "1.7.0_80" = "1".
  Proof. reflexivity. Qed.

  (** Claim C4, amended statement on "17.0.2" and "1.7.0_80". *)
Lemma extractMajor_forms_witness :
    Env.extractMajorJavaVersion ("17" ++ "." ++ "0.2") = "17" /\
    Env.extractMajorJavaVersion ("1." ++ "7" ++ ".0_" ++ "80") = "1".
  Proof.
    split.
    - apply (proj1 (proj2 EnvClaims.extractMajor_forms)); reflexivity.
    - apply (proj2 (proj2 EnvClaims.extractMajor_forms)); reflexivity.
  Defined.


  (** Claim C6: in a tree seven directories deep, the manifest six levels
      below the working directory is returned. *)
Lemma deep_manifest_returned :
    fst (Cache.findPomFiles (cacheWorld fsDeep exactBackend) inpA (Cache.St [] [])) =
    inr [["work"; "a"; "a"; "a"; "a"; "a"; "a"; "pom.xml"]].
  Proof. vm_compute. reflexivity. Qed.

  (** Claim C6, amended statement on the deep tree. *)
Lemma scanner_stays_in_bounds_witness :
    Forall (ScanBounds.manifest_ok ["work"]) [["work"; "a"; "a"; "a"; "a"; "a"; "a"; "pom.xml"]] /\
    exists tr, Cache.trace (snd (Cache.findPomFiles (cacheWorld fsDeep exactBackend) inpA
                                   (Cache.St [] []))) = app tr [] /\
               Forall (ScanBounds.event_ok ["work"]) tr.
  Proof.
    destruct (ScannerFacts.scanner_stays_in_bounds (cacheWorld fsDeep exactBackend) inpA
                (Cache.St [] [])) as [Hr Ht].
    split; [| exact Ht].
    apply Hr. vm_compute. reflexivity.
  Defined.

  (** Claim C7: the validator accepts the required version
      3.9.9007199254740993 (format X.Y.Z); a detected 3.9.9007199254740992
      is reported compatible with it, though it is smaller component-wise:
      both last components round to the same double. *)
Lemma maven_order_rounds_above_2_53 :
    InputValidator.versionErrors "17" "corretto" "3.9.9007199254740993" = [] /\
    Env.isMavenVersionCompatible (inputs "17" "corretto" "3.9.9007199254740993")
      "3.9.9007199254740992" = true /\
    SpecOrder.dotted_ge (map SpecOrder.dec_value ["3"; "9"; "9007199254740992"])
                        (map SpecOrder.dec_value ["3"; "9"; "9007199254740993"]) = false.
  Proof. split; [| split]; vm_compute; reflexivity. Qed.

  (** Claim C7, amended statement on 3.9.6 against 3.9.5. *)
Lemma maven_compatible_is_dotted_ge_witness :
    Env.isMavenVersionCompatible (inputs "17" "corretto" "3.9.5") (SpecOrder.join_dot ["3"; "9"; "6"])
    = SpecOrder.dotted_ge (map SpecOrder.dec_value ["3"; "9"; "6"])
                          (map SpecOrder.dec_value ["3"; "9"; "5"]).
  Proof.
    apply EnvClaims.maven_compatible_is_dotted_ge;
      [reflexivity | discriminate | discriminate | |].
    - repeat constructor.
    - repeat constructor.
  Defined.

  (** Claim C8 on JDK 11 against a required 17 and Maven 3.6.0 against a
      required 3.9.5. *)
Lemma incompatible_tool_warns_witness :
    Env.setupJava (envWorld (Some (jdkOut "11.0.2")) None) (inputs "17" "temurin" "3.9.5") st0 =
      (inr (Env.Outcome "warning" "11" (Some "openjdk") None EmptyString
              (Some ("Version mismatch: current " ++ "11" ++ ", required " ++ "17"))),
       snd (Env.getCurrentJavaVersion (envWorld (Some (jdkOut "11.0.2")) None) st0)) /\
    Env.setupMaven (envWorld None (Some (mvnOut "3.6.0"))) (inputs "17" "temurin" "3.9.5") st0 =
      (inr (Env.Outcome "warning" "3.6.0" None None "/opt/maven"
              (Some ("Version mismatch: current " ++ "3.6.0" ++ ", required " ++ "3.9.5"))),
       snd (Env.getCurrentMavenVersion (envWorld None (Some (mvnOut "3.6.0"))) st0)).
  Proof.
    split.
    - apply (proj1 EnvClaims.incompatible_tool_warns (envWorld (Some (jdkOut "11.0.2")) None)
             (inputs "17" "temurin" "3.9.5") st0 "11" "11.0.2" "openjdk" EmptyString);
        vm_compute; reflexivity.
    - apply (proj2 EnvClaims.incompatible_tool_warns (envWorld None (Some (mvnOut "3.6.0")))
             (inputs "17" "temurin" "3.9.5") st0 "3.6.0" "/opt/maven");
        vm_compute; reflexivity.
  Defined.


  (** Claim C10 with caching turned off. *)
Lemma cache_disabled_no_effects_witness :
    Cache.restore wA inpOff (Cache.St [] []) = (inr false, Cache.St [] []) /\
    Cache.save wA inpOff (Cache.St [] []) = (inr false, Cache.St [] []).
  Proof.
    apply CacheClaims.cache_disabled_no_effects. reflexivity.
  Defined.
End Runs.

(* ================================================================= *)
(** ** The properties of the other managers on concrete runs *)

Module ToolRuns.
Import Scenarios ToolScenarios.

(** [mvn test] exiting with 1 fails with the error of [exec.exec], which
    names the resolved path and the code; an [mvn] that cannot be found
    fails with the error of [io.which]. *)
Lemma executeMavenCommand_outcome_witness :
    fst (Mvn.executeMavenCommand (mvnWorld 1) mvnInputs "test" ["-DskipTests"] []) =
      inl (Error "The process '/usr/bin/mvn' failed with exit code 1") /\
    exists e,
      Mvn.which mvnMissing "mvn" = inl e /\
      fst (Mvn.executeMavenCommand mvnMissing mvnInputs "test" ["-DskipTests"] []) = inl e.
Proof.
  pose proof (MvnFacts.executeMavenCommand_outcome (mvnWorld 1) mvnInputs "test" ["-DskipTests"])
    as (_ & H1 & _).
  pose proof (MvnFacts.executeMavenCommand_outcome mvnMissing mvnInputs "test" ["-DskipTests"])
    as (_ & _ & H2 & _).
  split.
  - exact (H1 [] "/usr/bin/mvn" 1 eq_refl eq_refl ltac:(discriminate)).
  - eexists. split; [reflexivity |]. exact (H2 [] _ eq_refl).
Defined.

(** The ASCII targets "GitHub-Packages" and "S3": the first is accepted
    whatever its case, the second marks the action failed. *)
Lemma deployArtifacts_reports_unsupported_witness :
    Rx.is_ascii "GitHub-Packages" = true /\
    Artifacts.deployArtifacts (artInputs "GitHub-Packages" "https://maven.pkg.github.com/o/r")
      ["work/target/app.jar"] [] = (inr tt, []) /\
    Rx.is_ascii "S3" = true /\
    Artifacts.deployArtifacts (artInputs "S3" "https://s3.example.com/bucket")
      ["work/target/app.jar"] [] =
      (inr tt, [Artifacts.EvSetFailed "Deployment failed: Unsupported deployment target: S3"]).
Proof.
  split; [reflexivity |]. split.
  - rewrite (ArtifactFacts.deployArtifacts_reports_unsupported
               (artInputs "GitHub-Packages" "https://maven.pkg.github.com/o/r")
               ["work/target/app.jar"] [] eq_refl).
    vm_compute. reflexivity.
  - split; [reflexivity |].
    rewrite (ArtifactFacts.deployArtifacts_reports_unsupported
               (artInputs "S3" "https://s3.example.com/bucket")
               ["work/target/app.jar"] [] eq_refl).
    vm_compute. reflexivity.
Defined.

(** The rejected JAR upload is the only upload: the test reports are left. *)
Lemma uploadArtifacts_stops_after_binary_failure_witness :
    Artifacts.uploadArtifacts (artWorld true (inr false)) (artInputs EmptyString EmptyString)
      ["work/target/app.jar"; "work/target/surefire-reports"] [] =
    (inr tt, [Artifacts.EvUpload "build-artifacts" ["work/target/app.jar"] "work" false 30]).
Proof.
  apply (ArtifactFacts.uploadArtifacts_stops_after_binary_failure
           (artWorld true (inr false)) (artInputs EmptyString EmptyString)
           ["work/target/app.jar"; "work/target/surefire-reports"]
           (Error "Artifact storage quota has been hit") []).
  - vm_compute. discriminate.
  - vm_compute. reflexivity.
Defined.

(** Without [work/target] nothing is collected; with it, an invalid
    [skip-tests] input drops the JAR already found. *)
Lemma collectArtifacts_all_or_nothing_witness :
    Artifacts.collectArtifacts (artWorld false (inr false)) (artInputs EmptyString EmptyString)
      "install" [] = (inr [], [Artifacts.EvAccess "work/target"]) /\
    fst (Artifacts.collectArtifacts
           (artWorld true (inl (Error "Input does not meet YAML 1.2 Core Schema Specification: skip-tests")))
           (artInputs EmptyString EmptyString) "install" []) = inr [].
Proof.
  pose proof (ArtifactFacts.collectArtifacts_all_or_nothing (artWorld false (inr false))
                (artInputs EmptyString EmptyString) "install" []) as (H1 & _).
  pose proof (ArtifactFacts.collectArtifacts_all_or_nothing
                (artWorld true (inl (Error "Input does not meet YAML 1.2 Core Schema Specification: skip-tests")))
                (artInputs EmptyString EmptyString) "install" []) as (_ & H2).
  split.
  - exact (H1 eq_refl).
  - apply (H2 (Error "Input does not meet YAML 1.2 Core Schema Specification: skip-tests")).
    + reflexivity.
    + left. reflexivity.
Defined.

(** With Maven installed but no Java, verification fails on Java after the
    single [java -version] call. *)
Lemma verifyEnvironment_outcome_witness :
    EnvSetup.verifyEnvironment (envWorld None (Some (mvnOut "3.9.5"))) st0 =
    (inl (Error "Environment verification failed: Java verification failed - not available after setup"),
     Env.St [] [] [] [Env.EvExec "java" ["-version"]]).
Proof.
  pose proof (SetupFacts.verifyEnvironment_outcome (envWorld None (Some (mvnOut "3.9.5"))) st0)
    as (_ & H).
  rewrite H by (vm_compute; reflexivity).
  vm_compute. reflexivity.
Defined.

(** Java 99 fails the setup once, with the installation error, before Maven
    is looked at. *)
Lemma setupEnvironment_fails_once_witness :
    EnvSetup.setupEnvironment (envWorld None None) (inputs "99" "temurin" "3.9.5") (st0, []) =
    (inl (Error "Java installation failed: Unsupported Java version: 99. Supported: 8, 11, 17, 21"),
     (Env.St [] [] [] [Env.EvExec "java" ["-version"]],
      ["Environment setup failed: Java installation failed: Unsupported Java version: 99. Supported: 8, 11, 17, 21"])).
Proof.
  pose proof (SetupFacts.setupEnvironment_fails_once (envWorld None None)
                (inputs "99" "temurin" "3.9.5") st0 []) as (_ & H).
  rewrite (H (Error "Java installation failed: Unsupported Java version: 99. Supported: 8, 11, 17, 21"))
    by (vm_compute; reflexivity).
  vm_compute. reflexivity.
Defined.

(** Temurin 17 and Maven 3.9.5 installed from scratch: their homes and bin
    directories. *)
Lemma install_registers_tool_witness :
    Env.env_get (Env.env (snd (Env.installJava (envWorld None None) (inputs "17" "temurin" "3.9.5") st0)))
      "JAVA_HOME" = "/opt/hostedtoolcache/Java_temurin/17/x64" /\
    Env.env_get (Env.env (snd (Env.installMaven (envWorld None None) (inputs "17" "temurin" "3.9.5") st0)))
      "MAVEN_HOME" = "/opt/hostedtoolcache/Maven/3.9.5/x64".
Proof.
  pose proof (SetupFacts.install_registers_tool (envWorld None None)
                (inputs "17" "temurin" "3.9.5") st0) as (Hj & Hm).
  split.
  - apply (Hj (Env.Outcome "installed" "17" None (Some "temurin")
                 "/opt/hostedtoolcache/Java_temurin/17/x64" None)).
    vm_compute. reflexivity.
  - apply (Hm (Env.Outcome "installed" "3.9.5" None None
                 "/opt/hostedtoolcache/Maven/3.9.5/x64" None)).
    vm_compute. reflexivity.
Defined.

(** Installing Maven 3.9.5 twice downloads it once: the second install only
    looks it up in the tool cache and exports it again. *)
Lemma maven_reinstall_uses_tool_cache_witness :
    Env.installMaven (envWorld None None) (inputs "17" "corretto" "3.9.5")
      (snd (Env.installMaven (envWorld None None) (inputs "17" "corretto" "3.9.5") st0)) =
    (inr (Env.Outcome "installed" "3.9.5" None None "/opt/hostedtoolcache/Maven/3.9.5/x64" None),
     Env.St [("MAVEN_HOME", "/opt/hostedtoolcache/Maven/3.9.5/x64");
             ("M2_HOME", "/opt/hostedtoolcache/Maven/3.9.5/x64");
             ("MAVEN_HOME", "/opt/hostedtoolcache/Maven/3.9.5/x64");
             ("M2_HOME", "/opt/hostedtoolcache/Maven/3.9.5/x64")]
            ["/opt/hostedtoolcache/Maven/3.9.5/x64/bin";
             "/opt/hostedtoolcache/Maven/3.9.5/x64/bin"]
            [("Maven", "3.9.5")]
            [Env.EvExportVariable "MAVEN_HOME" "/opt/hostedtoolcache/Maven/3.9.5/x64";
             Env.EvExportVariable "M2_HOME" "/opt/hostedtoolcache/Maven/3.9.5/x64";
             Env.EvAddPath "/opt/hostedtoolcache/Maven/3.9.5/x64/bin";
             Env.EvTcFind "Maven" "3.9.5";
             Env.EvExportVariable "MAVEN_HOME" "/opt/hostedtoolcache/Maven/3.9.5/x64";
             Env.EvExportVariable "M2_HOME" "/opt/hostedtoolcache/Maven/3.9.5/x64";
             Env.EvAddPath "/opt/hostedtoolcache/Maven/3.9.5/x64/bin";
             Env.EvCacheDir "/tmp/extracted/apache-maven-3.9.5" "Maven" "3.9.5";
             Env.EvExtract "/tmp/download";
             Env.EvDownload
               "https://archive.apache.org/dist/maven/maven-3/3.9.5/binaries/apache-maven-3.9.5-bin.tar.gz";
             Env.EvTcFind "Maven" "3.9.5"]).
Proof.
  rewrite (SetupFacts.maven_reinstall_uses_tool_cache (envWorld None None)
             (inputs "17" "corretto" "3.9.5") st0
             (Env.Outcome "installed" "3.9.5" None None "/opt/hostedtoolcache/Maven/3.9.5/x64" None))
    by (vm_compute; first [reflexivity | discriminate]).
  vm_compute. reflexivity.
Defined.

(** Temurin "17" installed twice is downloaded twice: "17" is not an
    explicit semver version, so [tc.find] skips the directory it was cached
    under. *)
Lemma java_reinstall_downloads_again_witness :
    Env.semver_clean (envWorld None None) "17" = None /\
    fst (Env.tc_find (envWorld None None) "Java_temurin" "17"
           (snd (Env.installJava (envWorld None None) (inputs "17" "temurin" "3.9.5") st0)))
      = inr EmptyString /\
    exists url tr,
      Env.trace (snd (Env.installJava (envWorld None None) (inputs "17" "temurin" "3.9.5")
                        (snd (Env.installJava (envWorld None None)
                                (inputs "17" "temurin" "3.9.5") st0)))) =
      app tr (Env.EvDownload url :: Env.EvTcFind "Java_temurin" "17"
              :: Env.trace (snd (Env.installJava (envWorld None None)
                                   (inputs "17" "temurin" "3.9.5") st0))).
Proof.
  split; [reflexivity |].
  exact (SetupFacts.java_reinstall_downloads_again (envWorld None None)
           (inputs "17" "temurin" "3.9.5") st0
           (Env.Outcome "installed" "17" None (Some "temurin")
              "/opt/hostedtoolcache/Java_temurin/17/x64" None)
           eq_refl eq_refl ltac:(vm_compute; reflexivity)).
Defined.

(** Zulu 17, not in the tool cache, cannot be downloaded. *)
Lemma installJava_only_temurin_downloads_witness :
    Env.installJava (envWorld None None) (inputs "17" "zulu" "3.9.5") st0 =
    (inl (Error "Java installation failed: Download URL not configured for zulu 17"),
     Env.St [] [] [] [Env.EvTcFind "Java_zulu" "17"]).
Proof.
  apply (SetupFacts.installJava_only_temurin_downloads (envWorld None None)
           (inputs "17" "zulu" "3.9.5") st0).
  - reflexivity.
  - reflexivity.
  - discriminate.
  - reflexivity.
Defined.

(** Scenario [fsDeep] has no Maven repository: one stat, then [false]. *)
Lemma save_without_repository_witness :
    Cache.save (cacheWorld fsDeep exactBackend) inpA (Cache.St [] []) =
    (inr false, Cache.St [] [Cache.EvStat ["home"; ".m2"; "repository"]]).
Proof.
  apply (KeyFacts.save_without_repository (cacheWorld fsDeep exactBackend) inpA (Cache.St [] [])).
  - reflexivity.
  - intros n Hn. vm_compute in Hn. discriminate Hn.
Defined.

(** Java 17 required: 21 is compatible, 11 is not. *)
Lemma isJavaVersionCompatible_numeric_witness :
    Env.isJavaVersionCompatible (inputs "17" "temurin" "3.9.5") "21" = true /\
    Env.isJavaVersionCompatible (inputs "17" "temurin" "3.9.5") "11" = false.
Proof.
  split.
  - rewrite (JavaOrder.isJavaVersionCompatible_numeric (inputs "17" "temurin" "3.9.5") "21")
      by (vm_compute; reflexivity).
    vm_compute. reflexivity.
  - rewrite (JavaOrder.isJavaVersionCompatible_numeric (inputs "17" "temurin" "3.9.5") "11")
      by (vm_compute; reflexivity).
    vm_compute. reflexivity.
Defined.
(** With JAVA_HOME set, JDK 17 is found with that home and one call. *)
Lemma getCurrentJavaVersion_uses_JAVA_HOME_witness :
    exists d,
      Env.getCurrentJavaVersion jdkWorld (Env.St [("JAVA_HOME", "/usr/lib/jvm/java-17")] [] [] []) =
        (inr d, Env.St [("JAVA_HOME", "/usr/lib/jvm/java-17")] [] []
                  [Env.EvExec "java" ["-version"]]) /\
      (forall v fv vd h, d = Env.JavaAvailable v fv vd h -> h = "/usr/lib/jvm/java-17").
Proof.
  apply (SetupFacts.getCurrentJavaVersion_uses_JAVA_HOME jdkWorld
           (Env.St [("JAVA_HOME", "/usr/lib/jvm/java-17")] [] [] [])).
  discriminate.
Defined.

(** After installing Temurin 17, the JDK found has the installed home. *)
Lemma installJava_then_detect_witness :
    exists d,
      Env.getCurrentJavaVersion jdkWorld afterJavaInstall =
        (inr d, Env.St (Env.env afterJavaInstall) (Env.pathAdds afterJavaInstall)
                  (Env.toolCache afterJavaInstall)
                  (Env.EvExec "java" ["-version"] :: Env.trace afterJavaInstall)) /\
      (forall v fv vd h, d = Env.JavaAvailable v fv vd h ->
         h = "/opt/hostedtoolcache/Java_temurin/17/x64").
Proof.
  apply (SetupFacts.installJava_then_detect jdkWorld (inputs "17" "temurin" "3.9.5") st0
           (Env.Outcome "installed" "17" None (Some "temurin")
              "/opt/hostedtoolcache/Java_temurin/17/x64" None)).
  vm_compute. reflexivity.
Defined.
End ToolRuns.
